(** * VeroBrix analysis core: a shallow embedding and its verification

    The development follows the Python sources of the repository:

    - [agents/JARVIS/jarvis_agent.py]       (clause segmentation, keyword contradictions)
    - [modules/situation_interpreter.py]    (situation classification)
    - [modules/sovereignty_scorer.py]       (alignment scoring)
    - [modules/nlp_processor.py]            (pattern-pair contradiction detection)
    - [modules/provenance_logger.py]        (hash-sealed provenance ledger)

    Modelling conventions.

    - A Python [str] whose characters are code points below 256 is a
      [string], one 8-bit character for each code point.  Whitespace, case
      and word characters follow the tables of CPython on that range, and
      [encode('utf-8')] writes a code point above 127 as two bytes.
    - A Python [float] is an exact rational of [Q]; the statements proved below
      only compare scores with constants and with each other.
    - The standard-library services the sources call ([re], [json.dumps],
      [hashlib.sha256]) are written out as executable functions, so that every
      definition can be evaluated on a concrete input.
    - What the process reads from its environment (the clock, [uuid4], the
      spaCy pipeline, the iteration order of a [set] of strings) is an explicit
      argument. *)

From Stdlib Require Import String Ascii List ZArith QArith Lia Lqa Bool Arith.
From Stdlib Require Import DecimalString.
Import ListNotations.

Local Close Scope Q_scope.
Local Open Scope list_scope.
Local Open Scope string_scope.
Local Open Scope nat_scope.

(* ================================================================== *)
(** * Python string primitives *)
(* ================================================================== *)

Module Py.

(** The character tables of CPython on the code points below 256.  Beyond
    ASCII they hold the two blanks NEL (133) and NBSP (160), the Latin-1
    letters, and the superscripts and fractions that count as word
    characters. *)

Definition between (lo hi : nat) (c : ascii) : bool :=
  (lo <=? nat_of_ascii c) && (nat_of_ascii c <=? hi).

(** [c.isspace()], which is also the class [\s] of [re] and what [strip]
    removes: TAB, LF, VT, FF, CR, the four separators FS GS RS US, the
    space, NEL and NBSP. *)
Definition isspace (c : ascii) : bool :=
  between 9 13 c || between 28 32 c || between 133 133 c || between 160 160 c.

(** [c.isupper()] *)
Definition isupper (c : ascii) : bool :=
  between 65 90 c || between 192 214 c || between 216 222 c.

(** [c.islower()] *)
Definition islower (c : ascii) : bool :=
  between 97 122 c || between 170 170 c || between 181 181 c || between 186 186 c ||
  between 223 246 c || between 248 255 c.

(** A decimal digit: the class [\d] of [re]. *)
Definition isdigit (c : ascii) : bool := between 48 57 c.

(** A word character, the class [\w] of [re]: an alphanumeric character
    or the underscore. *)
Definition isword (c : ascii) : bool :=
  isupper c || islower c || isdigit c || between 95 95 c ||
  between 178 179 c || between 185 185 c || between 188 190 c.

(** [c.lower()]: every capital below 256 has its small letter 32 places
    further. *)
Definition lower_char (c : ascii) : ascii :=
  if isupper c then ascii_of_nat (nat_of_ascii c + 32) else c.

(** The capital of a small letter, where it is a single character below
    256; the micro sign, the sharp s and the y with diaeresis have none
    there and are left as they are. *)
Definition upper_char (c : ascii) : ascii :=
  if between 97 122 c || between 224 246 c || between 248 254 c
  then ascii_of_nat (nat_of_ascii c - 32) else c.

(** [s.lower()] *)
Fixpoint lower (s : string) : string :=
  match s with
  | EmptyString => EmptyString
  | String c s' => String (lower_char c) (lower s')
  end.

(** [s.lstrip()], [s.rstrip()], [s.strip()] *)
Fixpoint lstrip (s : string) : string :=
  match s with
  | EmptyString => EmptyString
  | String c s' => if isspace c then lstrip s' else s
  end.

Fixpoint rstrip (s : string) : string :=
  match s with
  | EmptyString => EmptyString
  | String c s' =>
      match rstrip s' with
      | EmptyString => if isspace c then EmptyString else String c EmptyString
      | r => String c r
      end
  end.

Definition strip (s : string) : string := rstrip (lstrip s).

(** Truth value of a string: [bool(s)]. *)
Definition truthy (s : string) : bool :=
  match s with EmptyString => false | _ => true end.

(** [s.startswith(p)] *)
Fixpoint startswith (s p : string) {struct p} : bool :=
  match p with
  | EmptyString => true
  | String a p' =>
      match s with
      | EmptyString => false
      | String b s' => Ascii.eqb a b && startswith s' p'
      end
  end.

(** [sub in s] *)
Fixpoint contains (sub s : string) : bool :=
  startswith s sub ||
  match s with
  | EmptyString => false
  | String _ s' => contains sub s'
  end.

(** [s.find(sub)]: the index of the first occurrence, [-1] when there is none. *)
Fixpoint find_from (sub s : string) (i : Z) : Z :=
  if startswith s sub then i
  else match s with
       | EmptyString => (-1)%Z
       | String _ s' => find_from sub s' (i + 1)%Z
       end.

Definition find (s sub : string) : Z := find_from sub s 0%Z.

(** [s.replace(old, new)] for a non-empty [old]: occurrences are replaced
    from the left and do not overlap.  [skip] counts the characters of the
    occurrence being replaced that are still to be dropped. *)
Fixpoint replace_go (old new : string) (s : string) (skip : nat) : string :=
  match s with
  | EmptyString => EmptyString
  | String c s' =>
      match skip with
      | S k => replace_go old new s' k
      | O =>
          if startswith s old
          then new ++ replace_go old new s' (String.length old - 1)
          else String c (replace_go old new s' 0)
      end
  end.

(** With an empty [old] Python puts [new] before every character and at the
    end. *)
Fixpoint replace_empty (new s : string) : string :=
  match s with
  | EmptyString => new
  | String c s' => new ++ String c (replace_empty new s')
  end.

Definition replace (s old new : string) : string :=
  match old with
  | EmptyString => replace_empty new s
  | _ => replace_go old new s 0
  end.

(** [str(n)] for a non-negative integer. *)
Definition str_of_nat (n : nat) : string :=
  NilEmpty.string_of_uint (Nat.to_uint n).

(** [sep.join(parts)] *)
Fixpoint join (sep : string) (parts : list string) : string :=
  match parts with
  | [] => EmptyString
  | [p] => p
  | p :: ps => p ++ sep ++ join sep ps
  end.

(** [s[:n]] *)
Fixpoint take (n : nat) (s : string) : string :=
  match n, s with
  | S k, String c s' => String c (take k s')
  | _, _ => EmptyString
  end.

Fixpoint drop (n : nat) (s : string) : string :=
  match n, s with
  | S k, String _ s' => drop k s'
  | _, _ => s
  end.

(** The double-quote character, which a string literal cannot hold. *)
Definition dquote : ascii := ascii_of_nat 34.

Definition tab : ascii := ascii_of_nat 9.

(** The line feed, as a string. *)
Definition eol : string := String (ascii_of_nat 10) EmptyString.

End Py.

(* ================================================================== *)
(** * The regular expressions of [re]

    The sources keep their patterns as strings and hand them to [re.search],
    [re.finditer], [re.findall], [re.sub] and [re.split].  The patterns are
    kept as the same strings here; [Re.parse] reads the syntax they use and
    [Re.run] is a backtracking matcher with the priorities of [re]: the
    leftmost match, the first alternative that leads to a match, greedy
    repetition unless marked lazy. *)
(* ================================================================== *)

Module Re.

(** Members of a bracketed class, and the escapes [\d], [\s], [\w]. *)
Inductive citem : Type :=
| CLit (c : ascii)
| CRange (lo hi : ascii)
| CDigit
| CSpace
| CWord.

Inductive regex : Type :=
| Eps
| Chr (c : ascii)
| Any
| Cls (items : list citem)
| WordB
| Seq (r1 r2 : regex)
| Alt (r1 r2 : regex)
| Rep (r : regex) (lo : nat) (hi : option nat) (greedy : bool)
| Grp (idx : nat) (r : regex)
| Fail.

(** ** Reading a pattern *)

Definition is_special (c : ascii) : bool :=
  existsb (Ascii.eqb c)
    ["*"; "+"; "?"; "{"; "}"; "("; ")"; "|"; "^"; "$"; "["; "]"]%char.

Definition digit_val (c : ascii) : nat := nat_of_ascii c - 48.

(** Reads a decimal number; [None] when no digit is there. *)
Fixpoint parse_nat_go (s : string) (acc : nat) : nat * string :=
  match s with
  | String c s' =>
      if Py.isdigit c then parse_nat_go s' (10 * acc + digit_val c) else (acc, s)
  | EmptyString => (acc, s)
  end.

Definition parse_nat (s : string) : option (nat * string) :=
  match s with
  | String c _ => if Py.isdigit c then Some (parse_nat_go s 0) else None
  | EmptyString => None
  end.

(** The body of a class, after the opening bracket. *)
Fixpoint parse_class (s : string) (acc : list citem) : option (list citem * string) :=
  match s with
  | EmptyString => None
  | String "]" s' => Some (rev acc, s')
  | String "\" (String e s') =>
      if Ascii.eqb e "d" then parse_class s' (CDigit :: acc)
      else if Ascii.eqb e "s" then parse_class s' (CSpace :: acc)
      else if Ascii.eqb e "w" then parse_class s' (CWord :: acc)
      else if Py.isword e then None
      else parse_class s' (CLit e :: acc)
  | String "\" EmptyString => None
  | String "^" s' => match acc with [] => None | _ => parse_class s' (CLit "^" :: acc) end
  | String lo (String "-" (String "]" s')) =>
      Some (rev (CLit "-" :: CLit lo :: acc), s')
  | String _ (String "-" (String "\" _)) => None
  | String lo (String "-" (String hi s')) => parse_class s' (CRange lo hi :: acc)
  | String c s' => parse_class s' (CLit c :: acc)
  end.

(** A quantifier after an atom: [?], [*], [+], [{m}], [{m,}], [{m,n}], each of them
    lazy when a [?] follows. *)
Definition lazy_mark (s : string) : bool * string :=
  match s with
  | String "?" s' => (false, s')
  | _ => (true, s)
  end.

Definition parse_quant (a : regex) (s : string) : option (regex * string) :=
  match s with
  | String "?" s' => let '(g, s'') := lazy_mark s' in Some (Rep a 0 (Some 1) g, s'')
  | String "*" s' => let '(g, s'') := lazy_mark s' in Some (Rep a 0 None g, s'')
  | String "+" s' => let '(g, s'') := lazy_mark s' in Some (Rep a 1 None g, s'')
  | String "{" s' =>
      match parse_nat s' with
      | Some (m, String "}" s1) =>
          let '(g, s2) := lazy_mark s1 in Some (Rep a m (Some m) g, s2)
      | Some (m, String "," (String "}" s1)) =>
          let '(g, s2) := lazy_mark s1 in Some (Rep a m None g, s2)
      | Some (m, String "," s1) =>
          match parse_nat s1 with
          | Some (n, String "}" s2) =>
              let '(g, s3) := lazy_mark s2 in Some (Rep a m (Some n) g, s3)
          | _ => None
          end
      | _ => None
      end
  | _ => Some (a, s)
  end.

(** Recursive descent; [g] is the number of capturing groups opened so far,
    so that groups are numbered by their opening parenthesis.  Syntax the
    tables do not use is refused ([None]) rather than guessed. *)
Fixpoint parse_alt (fuel : nat) (s : string) (g : nat) : option (regex * string * nat) :=
  match fuel with
  | O => None
  | S f =>
      match parse_seq f s g with
      | Some (r1, String "|" s', g') =>
          match parse_alt f s' g' with
          | Some (r2, s'', g'') => Some (Alt r1 r2, s'', g'')
          | None => None
          end
      | other => other
      end
  end
with parse_seq (fuel : nat) (s : string) (g : nat) : option (regex * string * nat) :=
  match fuel with
  | O => None
  | S f =>
      match s with
      | EmptyString => Some (Eps, s, g)
      | String "|" _ => Some (Eps, s, g)
      | String ")" _ => Some (Eps, s, g)
      | _ =>
          match parse_atom f s g with
          | Some (a, s1, g1) =>
              match parse_quant a s1 with
              | Some (a', s2) =>
                  match parse_seq f s2 g1 with
                  | Some (Eps, s3, g3) => Some (a', s3, g3)
                  | Some (r, s3, g3) => Some (Seq a' r, s3, g3)
                  | None => None
                  end
              | None => None
              end
          | None => None
          end
      end
  end
with parse_atom (fuel : nat) (s : string) (g : nat) : option (regex * string * nat) :=
  match fuel with
  | O => None
  | S f =>
      match s with
      | EmptyString => None
      | String "(" (String "?" (String ":" s')) =>
          match parse_alt f s' g with
          | Some (r, String ")" s'', g') => Some (r, s'', g')
          | _ => None
          end
      | String "(" (String "?" _) => None
      | String "(" s' =>
          match parse_alt f s' (S g) with
          | Some (r, String ")" s'', g') => Some (Grp (S g) r, s'', g')
          | _ => None
          end
      | String "[" s' =>
          match parse_class s' [] with
          | Some (items, s'') => Some (Cls items, s'', g)
          | None => None
          end
      | String "\" (String e s') =>
          if Ascii.eqb e "b" then Some (WordB, s', g)
          else if Ascii.eqb e "d" then Some (Cls [CDigit], s', g)
          else if Ascii.eqb e "s" then Some (Cls [CSpace], s', g)
          else if Ascii.eqb e "w" then Some (Cls [CWord], s', g)
          else if Py.isword e then None
          else Some (Chr e, s', g)
      | String "\" EmptyString => None
      | String "." s' => Some (Any, s', g)
      | String c s' => if is_special c then None else Some (Chr c, s', g)
      end
  end.

(** [re.compile]: the pattern read to its end, with the number of capturing
    groups.  A pattern that is not read matches nothing. *)
Definition parse (p : string) : option (regex * nat) :=
  match parse_alt (3 * String.length p + 3) p 0 with
  | Some (r, EmptyString, g) => Some (r, g)
  | _ => None
  end.

Definition compile (p : string) : regex * nat :=
  match parse p with
  | Some rg => rg
  | None => (Fail, 0)
  end.

(** ** Matching *)

(** A position in the subject: the character before it, what is left, and
    the index. *)
Record cursor : Type := mkCursor {
  prev : option ascii;
  rest : string;
  pos : nat
}.

Definition start_of (s : string) : cursor := mkCursor None s 0.

Definition advance (c : cursor) : cursor :=
  match rest c with
  | String a s' => mkCursor (Some a) s' (S (pos c))
  | EmptyString => c
  end.

Definition in_range (lo hi c : ascii) : bool :=
  (nat_of_ascii lo <=? nat_of_ascii c) && (nat_of_ascii c <=? nat_of_ascii hi).

Definition chr_eq (icase : bool) (a b : ascii) : bool :=
  if icase then Ascii.eqb (Py.lower_char a) (Py.lower_char b) else Ascii.eqb a b.

Definition citem_has (icase : bool) (it : citem) (c : ascii) : bool :=
  match it with
  | CLit a => chr_eq icase a c
  | CRange lo hi =>
      in_range lo hi c ||
      (icase && (in_range lo hi (Py.lower_char c) || in_range lo hi (Py.upper_char c)))
  | CDigit => Py.isdigit c
  | CSpace => Py.isspace c
  | CWord => Py.isword c
  end.

Definition newline : ascii := ascii_of_nat 10.

Definition word_before (c : cursor) : bool :=
  match prev c with Some a => Py.isword a | None => false end.

Definition word_after (c : cursor) : bool :=
  match rest c with String a _ => Py.isword a | EmptyString => false end.

(** [\b] holds where exactly one side is a word character. *)
Definition at_boundary (c : cursor) : bool := xorb (word_before c) (word_after c).

Definition captures : Type := list (nat * string).

Definition below (count : nat) (hi : option nat) : bool :=
  match hi with Some h => count <? h | None => true end.

Section Run.

Variable icase : bool.
Variable A : Type.

(** The loop of a repetition whose body is matched by [body]: [count]
    iterations are done; a greedy loop first tries one more, a lazy one first
    tries to stop.  An iteration that consumes nothing ends the attempt (no
    pattern of the tables has one). *)
Fixpoint rep_loop (body : cursor -> captures -> (cursor -> captures -> option A) -> option A)
    (lo : nat) (hi : option nat) (greedy : bool) (k : cursor -> captures -> option A)
    (fuel count : nat) (c : cursor) (caps : captures) {struct fuel} : option A :=
  let more (_ : unit) :=
    match fuel with
    | O => None
    | S f =>
        if below count hi
        then body c caps
               (fun c' caps' =>
                  if pos c' =? pos c then None
                  else rep_loop body lo hi greedy k f (S count) c' caps')
        else None
    end in
  let stop (_ : unit) := if lo <=? count then k c caps else None in
  if greedy
  then match more tt with Some x => Some x | None => stop tt end
  else match stop tt with Some x => Some x | None => more tt end.

(** [run r c caps k]: match [r] at [c] and continue with [k]; the first
    success in priority order is the answer. *)
Fixpoint run (r : regex) (c : cursor) (caps : captures)
    (k : cursor -> captures -> option A) {struct r} : option A :=
  match r with
  | Eps => k c caps
  | Fail => None
  | Chr a =>
      match rest c with
      | String b _ => if chr_eq icase a b then k (advance c) caps else None
      | EmptyString => None
      end
  | Any =>
      match rest c with
      | String b _ => if Ascii.eqb b newline then None else k (advance c) caps
      | EmptyString => None
      end
  | Cls items =>
      match rest c with
      | String b _ =>
          if existsb (fun it => citem_has icase it b) items
          then k (advance c) caps else None
      | EmptyString => None
      end
  | WordB => if at_boundary c then k c caps else None
  | Seq r1 r2 => run r1 c caps (fun c' caps' => run r2 c' caps' k)
  | Alt r1 r2 =>
      match run r1 c caps k with
      | Some x => Some x
      | None => run r2 c caps k
      end
  | Grp i r' =>
      run r' c caps
        (fun c' caps' => k c' ((i, Py.take (pos c' - pos c) (rest c)) :: caps'))
  | Rep r' lo hi greedy =>
      rep_loop (run r') lo hi greedy k (S (String.length (rest c))) 0 c caps
  end.

End Run.

(** ** The functions of the [re] module *)

(** A match object: [m.start()], [m.end()], [m.group()], and the text of the
    groups that took part in the match. *)
Record rmatch : Type := mkMatch {
  m_start : nat;
  m_end : nat;
  m_group0 : string;
  m_groups : captures;
  m_after : cursor
}.

Definition match_here (icase : bool) (r : regex) (c : cursor) : option rmatch :=
  run icase rmatch r c []
    (fun c' caps => Some (mkMatch (pos c) (pos c') (Py.take (pos c' - pos c) (rest c)) caps c')).

(** The leftmost match at or after a position. *)
Fixpoint scan (icase : bool) (r : regex) (s : string) (pv : option ascii) (i : nat)
  : option rmatch :=
  match match_here icase r (mkCursor pv s i) with
  | Some m => Some m
  | None =>
      match s with
      | EmptyString => None
      | String a s' => scan icase r s' (Some a) (S i)
      end
  end.

Definition scan_from (icase : bool) (r : regex) (c : cursor) : option rmatch :=
  scan icase r (rest c) (prev c) (pos c).

(** The successive non-overlapping matches, from the left.  After an empty
    match the scan moves on by one character. *)
Fixpoint matches_from (fuel : nat) (icase : bool) (r : regex) (c : cursor) : list rmatch :=
  match fuel with
  | O => []
  | S f =>
      match scan_from icase r c with
      | None => []
      | Some m =>
          let c' := m_after m in
          if m_end m =? m_start m
          then match rest c' with
               | EmptyString => [m]
               | _ => m :: matches_from f icase r (advance c')
               end
          else m :: matches_from f icase r c'
      end
  end.

(** Text of group [i]: the last binding made on the way to the match, the
    empty string for a group that did not take part. *)
Fixpoint group_text (caps : captures) (i : nat) : string :=
  match caps with
  | [] => EmptyString
  | (j, t) :: caps' => if i =? j then t else group_text caps' i
  end.

Definition group (m : rmatch) (i : nat) : string :=
  match i with
  | O => m_group0 m
  | _ => group_text (m_groups m) i
  end.

(** [re.search(pattern, s, flags)] *)
Definition search (p : string) (s : string) (icase : bool) : option rmatch :=
  scan icase (fst (compile p)) s None 0.

(** [re.finditer(pattern, s, flags)], as the list it yields. *)
Definition finditer (p : string) (s : string) (icase : bool) : list rmatch :=
  matches_from (S (String.length s)) icase (fst (compile p)) (start_of s).

(** [re.findall(pattern, s, flags)]: the whole match when the pattern has no
    group, else the texts of groups 1..n (a string for one group, a tuple for
    more; both are the list of the group texts here). *)
Definition findall (p : string) (s : string) (icase : bool) : list (list string) :=
  let n := snd (compile p) in
  map (fun m =>
         match n with
         | O => [m_group0 m]
         | _ => map (fun i => group m i) (seq 1 n)
         end)
      (finditer p s icase).

(** The pieces of [s] outside the matches, in order. *)
Fixpoint pieces (s : string) (from : nat) (ms : list rmatch) : list string :=
  match ms with
  | [] => [Py.drop from s]
  | m :: ms' => Py.take (m_start m - from) (Py.drop from s) :: pieces s (m_end m) ms'
  end.

(** [re.split(pattern, s)] for a pattern without groups. *)
Definition split (p : string) (s : string) : list string :=
  pieces s 0 (finditer p s false).

(** [re.sub(pattern, repl, s)] for a replacement text without back-references. *)
Definition sub (p : string) (repl : string) (s : string) : string :=
  Py.join repl (pieces s 0 (finditer p s false)).

End Re.

(** [enumerate(l, start)] *)
Definition enumerate_from {A : Type} (start : nat) (l : list A) : list (nat * A) :=
  combine (seq start (List.length l)) l.

Definition enumerate {A : Type} (l : list A) : list (nat * A) := enumerate_from 0 l.

(** [any(w in s for w in words)] *)
Definition any_in (words : list string) (s : string) : bool :=
  existsb (fun w => Py.contains w s) words.

(** A one-character string holding the double quote. *)
Definition q : string := String Py.dquote EmptyString.

(* ================================================================== *)
(** * [agents/JARVIS/jarvis_agent.py] *)
(* ================================================================== *)

Module Jarvis.

Definition abbreviations : list string :=
  ["U.S."; "U.S.C."; "C.F.R."; "Fed."; "Reg."; "Inc."; "Corp."; "Ltd."; "Co."; "vs."; "v."].

(** [f"__ABBREV_{i}__"] *)
Definition placeholder (i : nat) : string := "__ABBREV_" ++ Py.str_of_nat i ++ "__".

(** [extract_clauses(text)] *)
Definition extract_clauses (text : string) : list string :=
  let text := Py.strip text in
  let temp_text :=
    fold_left (fun t ia => Py.replace t (snd ia) (placeholder (fst ia)))
              (enumerate abbreviations) text in
  let clauses := Re.split "[.!?]+\s+" temp_text in
  let clauses :=
    fold_left (fun cs ia => map (fun clause => Py.replace clause (placeholder (fst ia)) (snd ia)) cs)
              (enumerate abbreviations) clauses in
  map Py.strip (filter (fun clause => Py.truthy (Py.strip clause)) clauses).

(** The dictionaries appended to [contradictions]. *)
Record contradiction : Type := mkContradiction {
  c_type : string;
  c_clause : string;
  c_description : string
}.

Definition opposites : list (list string * list string) :=
  [ (["required"; "mandatory"; "shall"; "must"], ["optional"; "may"; "not required"]);
    (["permitted"; "allowed"; "authorized"], ["prohibited"; "forbidden"; "not allowed"]);
    (["include"; "includes"], ["exclude"; "excludes"; "does not include"]);
    (["before"; "prior to"], ["after"; "following"; "subsequent to"]) ].

(** [detect_clause_contradiction(clause1, clause2)] *)
Definition detect_clause_contradiction (clause1 clause2 : string) : bool :=
  let c1_lower := Py.lower clause1 in
  let c2_lower := Py.lower clause2 in
  existsb (fun pn =>
             let '(positive_terms, negative_terms) := pn in
             (any_in positive_terms c1_lower && any_in negative_terms c2_lower) ||
             (any_in positive_terms c2_lower && any_in negative_terms c1_lower))
          opposites.

(** Pattern 4: the loop over [i] and over [j > i]. *)
Fixpoint cross_clause (i : nat) (clauses : list string) : list contradiction :=
  match clauses with
  | [] => []
  | clause1 :: later =>
      (flat_map
         (fun jc =>
            let '(j, clause2) := jc in
            if detect_clause_contradiction clause1 clause2
            then [mkContradiction "cross_clause_contradiction"
                    ("Clause " ++ Py.str_of_nat (i + 1) ++ ": " ++ clause1 ++
                     " | Clause " ++ Py.str_of_nat (j + 1) ++ ": " ++ clause2)
                    "These clauses appear to contradict each other"]
            else [])
         (enumerate_from (i + 1) later)
       ++ cross_clause (i + 1) later)%list
  end.

(** [detect_contradictions(clauses)] *)
Definition detect_contradictions (clauses : list string) : list contradiction :=
  let p1 :=
    flat_map (fun clause =>
      if Py.contains "notwithstanding" (Py.lower clause) &&
         Py.contains "subject to" (Py.lower clause)
      then [mkContradiction "notwithstanding_subject_to" clause
              ("Clause contains both " ++ q ++ "notwithstanding" ++ q ++ " and " ++ q ++
               "subject to" ++ q ++ " which may create conflicting obligations")]
      else []) clauses in
  let p2 :=
    flat_map (fun clause =>
      if Py.contains "shall" (Py.lower clause) && Py.contains "may" (Py.lower clause)
      then [mkContradiction "shall_may_conflict" clause
              ("Clause mixes mandatory (" ++ q ++ "shall" ++ q ++ ") and permissive (" ++
               q ++ "may" ++ q ++ ") language")]
      else []) clauses in
  let p3 :=
    flat_map (fun clause =>
      let clause_lower := Py.lower clause in
      if any_in ["prohibited"; "forbidden"; "not permitted"] clause_lower &&
         any_in ["permitted"; "allowed"; "authorized"] clause_lower
      then [mkContradiction "prohibition_permission_conflict" clause
              "Clause contains conflicting prohibition and permission language"]
      else []) clauses in
  (p1 ++ p2 ++ p3 ++ cross_clause 0 clauses)%list.

End Jarvis.

(** [max(items, key=lambda x: x[1])] over the items of a dictionary with
    integer values: the first item, in iteration order, whose value no other
    exceeds.  [None] stands for the [ValueError] on an empty sequence. *)
Fixpoint max_item_go (best : string * nat) (items : list (string * nat)) : string * nat :=
  match items with
  | [] => best
  | x :: items' => max_item_go (if snd best <? snd x then x else best) items'
  end.

Definition max_item (items : list (string * nat)) : option (string * nat) :=
  match items with
  | [] => None
  | x :: items' => Some (max_item_go x items')
  end.

(** [min(a, b)] and [max(a, b)] on floats: the first argument unless the
    second is strictly smaller (larger). *)
Definition fmin (a b : Q) : Q := if Qle_bool a b then a else b.
Definition fmax (a b : Q) : Q := if Qle_bool b a then a else b.

(** [a < b] on floats. *)
Definition flt (a b : Q) : bool := negb (Qle_bool b a).

(** [sum(xs)] on floats. *)
Definition fsum (xs : list Q) : Q := fold_left Qplus xs 0%Q.

(** An integer used as a float. *)
Definition of_nat (n : nat) : Q := inject_Z (Z.of_nat n).

(** [d.get(key, default)] on a dictionary written as an association list. *)
Fixpoint dict_get {V : Type} (d : list (string * V)) (key : string) (default : V) : V :=
  match d with
  | [] => default
  | (k, v) :: d' => if String.eqb k key then v else dict_get d' key default
  end.

(* ================================================================== *)
(** * [modules/situation_interpreter.py] *)
(* ================================================================== *)

Module SituationInterpreter.

Record Patterns : Type := mkPatterns {
  keywords : list string;
  phrases : list string;
  pattern_entities : list string
}.

(** [_load_situation_patterns]: the dictionary in its insertion order. *)
Definition situation_patterns : list (string * Patterns) :=
  [ ("traffic_stop",
     mkPatterns
       ["traffic"; "driving"; "vehicle"; "license"; "registration";
        "insurance"; "speeding"; "violation"; "citation"; "ticket";
        "officer"; "police"; "patrol"; "stop"; "pulled over"]
       ["pulled over"; "traffic stop"; "speeding ticket"; "license and registration";
        "proof of insurance"; "vehicle inspection"; "moving violation"]
       ["officer"; "department"; "citation_number"; "vehicle"; "location"]);
    ("fee_demand",
     mkPatterns
       ["fee"; "fine"; "penalty"; "charge"; "payment"; "bill"; "invoice";
        "assessment"; "tax"; "levy"; "collection"; "demand"; "notice"]
       ["payment due"; "fee schedule"; "penalty assessment"; "collection notice";
        "final demand"; "administrative fee"; "processing charge"]
       ["agency"; "amount"; "due_date"; "account_number"; "fee_type"]);
    ("court_summons",
     mkPatterns
       ["court"; "summons"; "complaint"; "lawsuit"; "litigation"; "hearing";
        "appearance"; "defendant"; "plaintiff"; "case"; "docket"; "judge"]
       ["court appearance"; "legal proceeding"; "civil action"; "court order";
        "summons and complaint"; "hearing date"; "case number"]
       ["court"; "case_number"; "hearing_date"; "plaintiff"; "judge"]);
    ("contract_dispute",
     mkPatterns
       ["contract"; "agreement"; "breach"; "default"; "terms"; "conditions";
        "obligation"; "performance"; "consideration"; "party"; "dispute"]
       ["breach of contract"; "contract dispute"; "terms and conditions";
        "failure to perform"; "contract violation"; "agreement terms"]
       ["parties"; "contract_date"; "terms"; "breach_type"; "damages"]);
    ("administrative_action",
     mkPatterns
       ["agency"; "department"; "administrative"; "regulation"; "compliance";
        "enforcement"; "investigation"; "audit"; "inspection"; "permit"]
       ["administrative action"; "regulatory compliance"; "agency investigation";
        "permit application"; "inspection notice"; "compliance order"]
       ["agency"; "regulation"; "permit_number"; "inspector"; "violation"]);
    ("property_dispute",
     mkPatterns
       ["property"; "real estate"; "land"; "title"; "deed"; "ownership";
        "boundary"; "easement"; "lien"; "mortgage"; "foreclosure"]
       ["property dispute"; "title issue"; "boundary dispute"; "property rights";
        "real estate matter"; "land ownership"; "property claim"]
       ["property_address"; "title_company"; "deed_date"; "owner"; "claimant"]) ].

(** [_load_jurisdiction_indicators] *)
Definition jurisdiction_indicators : list (string * list string) :=
  [ ("federal",
     ["federal"; "united states"; "u.s."; "irs"; "fbi"; "dea"; "atf";
      "customs"; "immigration"; "social security"; "medicare"]);
    ("state",
     ["state"; "commonwealth"; "dmv"; "department of"; "state police";
      "state court"; "state agency"; "governor"; "legislature"]);
    ("local",
     ["city"; "county"; "municipal"; "town"; "village"; "parish";
      "local"; "mayor"; "council"; "commissioner"]);
    ("commercial",
     ["commercial"; "business"; "trade"; "commerce"; "ucc"; "contract";
      "agreement"; "transaction"; "sale"; "purchase"]) ].

(** [_normalize_text(text)] *)
Definition normalize_abbreviations : list (string * string) :=
  [ ("dept", "department"); ("gov", "government"); ("admin", "administrative");
    ("reg", "regulation"); ("sec", "section"); ("vs", "versus"); ("v.", "versus") ].

Definition _normalize_text (text : string) : string :=
  let text := Py.lower text in
  let text := Py.strip (Re.sub "\s+" " " text) in
  fold_left (fun t af => Re.sub ("\b" ++ fst af ++ "\b") (snd af) t)
            normalize_abbreviations text.

(** The body of the loop over the situation types: the score of one type. *)
Definition type_score (patterns : Patterns) (text : string) : nat :=
  let score := 0 in
  let score :=
    fold_left (fun score keyword => if Py.contains keyword text then score + 1 else score)
              (keywords patterns) score in
  let score :=
    fold_left (fun score phrase => if Py.contains phrase text then score + 3 else score)
              (phrases patterns) score in
  score.

(** The dictionary [scores] after the loop. *)
Definition type_scores (text : string) : list (string * nat) :=
  map (fun sp => (fst sp, type_score (snd sp) text)) situation_patterns.

(** [_identify_situation_type(text)] *)
Definition _identify_situation_type (text : string) : string :=
  match max_item (type_scores text) with
  | Some best_match => if 0 <? snd best_match then fst best_match else "general"
  | None => "general"
  end.

(** The dictionary [entities]. *)
Record Entities : Type := mkEntities {
  people : list string;
  organizations : list string;
  locations : list string;
  dates : list string;
  amounts : list string;
  identifiers : list string;
  legal_instruments : list string
}.

(** [for pattern in patterns: l.extend(re.findall(pattern, text, re.IGNORECASE))]
    for patterns with at most one group, whose [findall] yields strings. *)
Definition extend_findall (patterns : list string) (text : string) : list string :=
  flat_map (fun pattern => concat (Re.findall pattern text true)) patterns.

(** [_extract_entities(text, situation_type)] *)
Definition _extract_entities (text situation_type : string) : Entities :=
  let people_patterns :=
    [ "\b[A-Z][a-z]+ [A-Z][a-z]+\b";
      "\b(?:officer|judge|attorney|mr|ms|mrs)\.?\s+[A-Z][a-z]+\b" ] in
  let org_patterns :=
    [ "\b[A-Z][a-z]*\s+(?:department|agency|bureau|office|court|police)\b";
      "\b(?:department|agency|bureau|office|court|police)\s+of\s+[A-Z][a-z]+\b" ] in
  let date_patterns :=
    [ "\b\d{1,2}/\d{1,2}/\d{2,4}\b";
      "\b\d{1,2}-\d{1,2}-\d{2,4}\b";
      "\b(?:january|february|march|april|may|june|july|august|september|october|november|december)\s+\d{1,2},?\s+\d{4}\b" ] in
  let amount_patterns :=
    [ "\$\d+(?:,\d{3})*(?:\.\d{2})?";
      "\b\d+(?:,\d{3})*(?:\.\d{2})?\s+dollars?\b" ] in
  let id_patterns :=
    [ "\b(?:case|citation|ticket|docket)\s*#?\s*[A-Z0-9-]+\b";
      "\b[A-Z]{2,}\d{4,}\b" ] in
  mkEntities
    (extend_findall people_patterns text)
    (extend_findall org_patterns text)
    []
    (extend_findall date_patterns text)
    (extend_findall amount_patterns text)
    (extend_findall id_patterns text)
    [].

(** The dictionary [jurisdiction]. *)
Record Jurisdiction : Type := mkJurisdiction {
  primary : string;
  secondary : list string;
  indicators : list string;
  confidence : Q
}.

(** [_determine_jurisdiction(text, entities)] *)
Definition _determine_jurisdiction (text : string) (entities : Entities) : Jurisdiction :=
  let scores :=
    map (fun ji =>
           (fst ji, List.length (filter (fun indicator => Py.contains indicator text) (snd ji))))
        jurisdiction_indicators in
  let found :=
    flat_map (fun ji =>
                map (fun indicator => fst ji ++ ": " ++ indicator)
                    (filter (fun indicator => Py.contains indicator text) (snd ji)))
             jurisdiction_indicators in
  let '(primary, confidence) :=
    match max_item scores with
    | Some best =>
        if 0 <? snd best
        then (fst best, fmin (of_nat (snd best) / 5.0) 1.0)
        else ("unknown", 0%Q)
    | None => ("unknown", 0%Q)
    end in
  let secondary :=
    map fst (filter (fun js => negb (String.eqb (fst js) primary) && (0 <? snd js)) scores) in
  mkJurisdiction primary secondary found confidence.

Record Relationship : Type := mkRelationship {
  rel_type : string;
  entity1 : string;
  entity2 : string
}.

(** [_identify_relationships(text, entities)] *)
Definition _identify_relationships (text : string) (entities : Entities) : list Relationship :=
  let relationship_patterns :=
    [ ("(\w+)\s+(?:vs?\.?|versus)\s+(\w+)", "adversarial");
      ("(\w+)\s+(?:and|&)\s+(\w+)", "joint");
      ("(\w+)\s+(?:represents?|representing)\s+(\w+)", "representation");
      ("(\w+)\s+(?:sues?|suing)\s+(\w+)", "litigation");
      ("(\w+)\s+(?:contracts?|contracting)\s+(?:with\s+)?(\w+)", "contractual") ] in
  flat_map (fun pr =>
              map (fun m => mkRelationship (snd pr) (nth 0 m EmptyString) (nth 1 m EmptyString))
                  (Re.findall (fst pr) text true))
           relationship_patterns.

(** [_extract_key_facts(text, situation_type)] *)
Definition _extract_key_facts (text situation_type : string) : list string :=
  let fact_patterns :=
    if String.eqb situation_type "traffic_stop" then
      [ "(?:speed|speeding).*?(\d+\s*mph)";
        "(?:location|where|at).*?([A-Z][a-z]+\s+(?:street|road|avenue|highway))";
        "(?:time|when).*?(\d{1,2}:\d{2}(?:\s*[ap]m)?)" ]
    else if String.eqb situation_type "fee_demand" then
      [ "(?:amount|fee|fine).*?(\$\d+(?:,\d{3})*(?:\.\d{2})?)";
        "(?:due|deadline).*?(\d{1,2}/\d{1,2}/\d{2,4})";
        "(?:account|reference).*?([A-Z0-9-]+)" ]
    else
      [ "(?:date|when).*?(\d{1,2}/\d{1,2}/\d{2,4})";
        "(?:amount|cost|fee).*?(\$\d+(?:,\d{3})*(?:\.\d{2})?)";
        "(?:location|where|at).*?([A-Z][a-z]+(?:\s+[A-Z][a-z]+)*)" ] in
  extend_findall fact_patterns text.

(** The dictionary [urgency]. *)
Record Urgency : Type := mkUrgency {
  level : string;
  urgency_indicators : list string;
  timeline : option string
}.

Definition urgency_table : list (string * list string) :=
  [ ("high", ["immediate"; "urgent"; "emergency"; "deadline"; "final notice"; "court date"]);
    ("medium", ["soon"; "within"; "by"; "before"; "due"]);
    ("low", ["when convenient"; "at your earliest"; "please"]) ].

(** The first pattern with a match gives the timeline ([break]). *)
Fixpoint first_timeline (patterns : list string) (text : string) : option string :=
  match patterns with
  | [] => None
  | pattern :: patterns' =>
      match concat (Re.findall pattern text true) with
      | m :: _ => Some m
      | [] => first_timeline patterns' text
      end
  end.

(** [_assess_urgency(text, entities)] *)
Definition _assess_urgency (text : string) (entities : Entities) : Urgency :=
  let '(level, found) :=
    fold_left
      (fun st li =>
         fold_left
           (fun st indicator =>
              let '(level, found) := st in
              if Py.contains indicator text
              then ((if String.eqb (fst li) "high" then "high"
                     else if String.eqb (fst li) "low" && negb (String.eqb level "high")
                          then "low" else level),
                    (found ++ [indicator])%list)
              else st)
           (snd li) st)
      urgency_table ("medium", []) in
  let timeline_patterns :=
    [ "(?:within|by|before)\s+(\d+\s+(?:days?|weeks?|months?))";
      "(?:due|deadline).*?(\d{1,2}/\d{1,2}/\d{2,4})" ] in
  mkUrgency level found (first_timeline timeline_patterns text).

(** [_determine_legal_framework(situation_type, jurisdiction)] *)
Definition _determine_legal_framework (situation_type : string) (jurisdiction : Jurisdiction)
  : list string :=
  let framework_map :=
    [ ("traffic_stop", ["Constitutional law"; "Administrative law"; "Traffic regulations"]);
      ("fee_demand", ["Administrative law"; "Due process"; "Collection procedures"]);
      ("court_summons", ["Civil procedure"; "Constitutional law"; "Jurisdictional law"]);
      ("contract_dispute", ["Contract law"; "UCC"; "Commercial law"]);
      ("administrative_action", ["Administrative law"; "Regulatory compliance"; "Due process"]);
      ("property_dispute", ["Property law"; "Real estate law"; "Title law"]) ] in
  let frameworks := dict_get framework_map situation_type ["General law"] in
  if String.eqb (primary jurisdiction) "federal" then (frameworks ++ ["Federal law"])%list
  else if String.eqb (primary jurisdiction) "state" then (frameworks ++ ["State law"])%list
  else if String.eqb (primary jurisdiction) "local" then (frameworks ++ ["Local ordinances"])%list
  else frameworks.

(** [_identify_potential_issues(text, situation_type)] *)
Definition _identify_potential_issues (text situation_type : string) : list string :=
  let issue_patterns :=
    [ ("waiver", "Potential rights waiver");
      ("consent", "Consent issues");
      ("jurisdiction", "Jurisdictional questions");
      ("authority", "Authority challenges");
      ("due process", "Due process concerns");
      ("notice", "Notice requirements");
      ("deadline", "Time-sensitive requirements");
      ("penalty", "Penalty provisions");
      ("default", "Default consequences") ] in
  map snd (filter (fun pi => Py.contains (fst pi) text) issue_patterns).

(** [_suggest_required_actions(situation_type, urgency)] *)
Definition _suggest_required_actions (situation_type : string) (urgency : Urgency)
  : list string :=
  let action_map :=
    [ ("traffic_stop",
       ["Document the encounter"; "Preserve evidence"; "Review citation for errors";
        "Consider challenging jurisdiction"]);
      ("fee_demand",
       ["Challenge fee authority"; "Request fee schedule"; "Demand due process hearing";
        "Preserve payment deadline"]);
      ("court_summons",
       ["File timely response"; "Challenge jurisdiction if applicable";
        "Demand bill of particulars"; "Preserve all rights"]);
      ("contract_dispute",
       ["Review contract terms"; "Document breach if applicable"; "Preserve evidence";
        "Consider mediation"]) ] in
  let actions := dict_get action_map situation_type ["Seek legal counsel"; "Document situation"] in
  if String.eqb (level urgency) "high"
  then ("URGENT: Immediate action required" :: actions ++ ["Consider emergency legal assistance"])%list
  else actions.

(** The dictionary returned by [interpret_situation]. *)
Record Situation : Type := mkSituation {
  type : string;
  raw_input : string;
  normalized_text : string;
  entities : Entities;
  jurisdiction : Jurisdiction;
  relationships : list Relationship;
  key_facts : list string;
  urgency : Urgency;
  timestamp : string;
  context : list (string * string);
  legal_framework : list string;
  potential_issues : list string;
  required_actions : list string
}.

(** [interpret_situation(input_text, context)].  [now] is the text of
    [datetime.now().isoformat()] at the moment of the call; [context or {}]
    is the empty dictionary for [None]. *)
Definition interpret_situation (now : string) (input_text : string)
    (context : option (list (string * string))) : Situation :=
  let normalized_text := _normalize_text input_text in
  let situation_type := _identify_situation_type normalized_text in
  let entities := _extract_entities normalized_text situation_type in
  let jurisdiction := _determine_jurisdiction normalized_text entities in
  let relationships := _identify_relationships normalized_text entities in
  let facts := _extract_key_facts normalized_text situation_type in
  let urgency := _assess_urgency normalized_text entities in
  mkSituation
    situation_type
    input_text
    normalized_text
    entities
    jurisdiction
    relationships
    facts
    urgency
    now
    (match context with Some d => d | None => [] end)
    (_determine_legal_framework situation_type jurisdiction)
    (_identify_potential_issues normalized_text situation_type)
    (_suggest_required_actions situation_type urgency).

End SituationInterpreter.

(* ================================================================== *)
(** * [modules/sovereignty_scorer.py] *)
(* ================================================================== *)

Module SovereigntyScorer.

(** [_load_scoring_patterns] *)
Definition servile_patterns : list (string * list string) :=
  [ ("submission_language",
     [ "\bplease\b.*\b(help|assist|allow|permit)\b";
       "\bi\s+(humbly|respectfully)\s+(request|ask|beg)\b";
       "\bif\s+it\s+pleases?\s+(the\s+)?(court|your\s+honor)\b";
       "\bwith\s+all\s+due\s+respect\b";
       "\bi\s+am\s+(just|only|merely)\s+a\b";
       "\bi\s+don'?t\s+understand\s+(the\s+)?law\b" ]);
    ("dependency_language",
     [ "\bneed\s+(your\s+)?(permission|approval|authorization)\b";
       "\bcan\s+(you|i)\s+please\b";
       "\bwould\s+(you|it)\s+be\s+possible\b";
       "\bi\s+hope\s+(you|the\s+court)\s+will\b";
       "\bif\s+(you|the\s+court)\s+(would|could|might)\b" ]);
    ("victim_language",
     [ "\bi\s+can'?t\s+(afford|pay|handle)\b";
       "\bi\s+don'?t\s+have\s+(money|resources|means)\b";
       "\bi\s+am\s+(poor|indigent|unable)\b";
       "\bthis\s+is\s+(unfair|unjust)\s+to\s+me\b";
       "\bwhy\s+is\s+this\s+happening\s+to\s+me\b" ]);
    ("corporate_fiction_acceptance",
     [ "\bmy\s+(social\s+security\s+number|ssn)\s+is\b";
       "\bi\s+am\s+a\s+(us\s+)?(citizen|resident)\b";
       "\bunder\s+penalty\s+of\s+perjury\b";
       "\bi\s+(understand|acknowledge)\s+that\s+i\s+am\s+required\b";
       "\bi\s+consent\s+to\s+(jurisdiction|this\s+court)\b" ]) ].

Definition sovereign_patterns : list (string * list string) :=
  [ ("lawful_standing",
     [ "\bi\s+am\s+a\s+(living\s+)?(man|woman)\b";
       "\bacting\s+in\s+my\s+private\s+capacity\b";
       "\bnot\s+acting\s+as\s+(agent|representative|trustee)\b";
       "\bby\s+special\s+appearance\s+only\b";
       "\breserving\s+all\s+(rights|claims)\b" ]);
    ("authority_challenges",
     [ "\bwhat\s+is\s+(your\s+)?authority\s+for\b";
       "\bprove\s+(your\s+)?(jurisdiction|authority|standing)\b";
       "\bshow\s+me\s+the\s+(law|statute|regulation)\b";
       "\bwhere\s+is\s+the\s+(injured\s+party|victim)\b";
       "\bwhat\s+is\s+the\s+nature\s+of\s+the\s+(claim|complaint)\b" ]);
    ("constitutional_assertions",
     [ "\bconstitutional\s+(right|protection|guarantee)\b";
       "\bfourth\s+amendment\s+(right|protection)\b";
       "\bfifth\s+amendment\s+(right|protection)\b";
       "\bdue\s+process\s+(right|violation|requirement)\b";
       "\bequal\s+protection\s+(under\s+)?law\b" ]);
    ("commercial_awareness",
     [ "\bthis\s+appears\s+to\s+be\s+a\s+commercial\s+(matter|transaction)\b";
       "\bi\s+do\s+not\s+consent\s+to\s+(commercial\s+)?jurisdiction\b";
       "\bno\s+contract\s+(exists|was\s+formed)\b";
       "\bwhere\s+is\s+the\s+(consideration|meeting\s+of\s+minds)\b";
       "\bucc\s+(article\s+)?\d+\s+(applies|governs)\b" ]);
    ("remedy_focused",
     [ "\bi\s+(demand|require|claim)\s+(lawful\s+)?remedy\b";
       "\bmake\s+me\s+whole\b";
       "\bcompensation\s+for\s+(damages|harm|injury)\b";
       "\brestitution\s+(is\s+)?(required|demanded)\b";
       "\bspecific\s+performance\s+(is\s+)?(required|demanded)\b" ]) ].

Definition remedy_patterns : list (string * list string) :=
  [ ("lawful_remedy_indicators",
     [ "\bspecific\s+performance\b";
       "\brestitution\b";
       "\bmake\s+whole\b";
       "\bcompensation\s+for\s+(actual\s+)?(damages|harm)\b";
       "\binjunctive\s+relief\b" ]);
    ("unlawful_remedy_indicators",
     [ "\bpunitive\s+damages\b";
       "\bpunishment\b";
       "\bfines?\s+and\s+penalties\b";
       "\bimprisonment\b";
       "\bincarceration\b" ]) ].

Definition autonomy_patterns : list (string * list string) :=
  [ ("self_determination",
     [ "\bi\s+(choose|elect|decide)\s+to\b";
       "\bby\s+my\s+own\s+(choice|decision|will)\b";
       "\bacting\s+under\s+my\s+own\s+authority\b";
       "\bself[\-\s]?determining\b";
       "\bautonomous\s+(action|decision|choice)\b" ]);
    ("non_consent",
     [ "\bi\s+do\s+not\s+consent\b";
       "\bwithout\s+my\s+consent\b";
       "\bno\s+consent\s+(given|granted|implied)\b";
       "\bunder\s+duress\b";
       "\bcoercion\s+(is\s+)?present\b" ]) ].

(** [_get_servile_severity(category)] *)
Definition _get_servile_severity (category : string) : Q :=
  let severity_map :=
    [ ("submission_language", 0.3%Q);
      ("dependency_language", 0.4%Q);
      ("victim_language", 0.5%Q);
      ("corporate_fiction_acceptance", 0.6%Q) ] in
  dict_get severity_map category 0.3%Q.

(** [_get_sovereign_strength(category)] *)
Definition _get_sovereign_strength (category : string) : Q :=
  let strength_map :=
    [ ("lawful_standing", 0.4%Q);
      ("authority_challenges", 0.5%Q);
      ("constitutional_assertions", 0.4%Q);
      ("commercial_awareness", 0.3%Q);
      ("remedy_focused", 0.5%Q) ] in
  dict_get strength_map category 0.3%Q.

(** [_get_servile_suggestion(category, match)] *)
Definition _get_servile_suggestion (category matched : string) : string :=
  let suggestions :=
    [ ("submission_language",
       "Replace submissive language with assertive statements of rights and standing");
      ("dependency_language", "Assert your authority rather than seeking permission");
      ("victim_language", "Focus on lawful remedy rather than personal circumstances");
      ("corporate_fiction_acceptance",
       "Clarify your standing as a living man/woman, not a legal fiction") ] in
  dict_get suggestions category "Consider more sovereign language alternatives".

(** [_get_sovereign_explanation(category, match)] *)
Definition _get_sovereign_explanation (category matched : string) : string :=
  let explanations :=
    [ ("lawful_standing",
       "Properly establishes standing as a living being with inherent rights");
      ("authority_challenges",
       "Appropriately challenges presumed authority and jurisdiction");
      ("constitutional_assertions", "Invokes constitutional protections and guarantees");
      ("commercial_awareness",
       "Demonstrates understanding of commercial vs. lawful distinctions");
      ("remedy_focused", "Focuses on lawful remedy rather than punishment or penalties") ] in
  dict_get explanations category "Demonstrates sovereign awareness and understanding".

(** An entry of [servile_flags]. *)
Record Flag : Type := mkFlag {
  flag_category : string;
  flag_pattern : string;
  flag_match : string;
  flag_position : nat * nat;
  severity : Q;
  suggestion : string
}.

(** An entry of [sovereign_indicators]. *)
Record Indicator : Type := mkIndicator {
  ind_category : string;
  ind_pattern : string;
  ind_match : string;
  ind_position : nat * nat;
  strength : Q;
  explanation : string
}.

(** [_detect_servile_language(text)] *)
Definition _detect_servile_language (text : string) : list Flag :=
  flat_map (fun cp =>
    let '(category, patterns) := cp in
    flat_map (fun pattern =>
      map (fun m =>
             mkFlag category pattern (Re.m_group0 m) (Re.m_start m, Re.m_end m)
                    (_get_servile_severity category)
                    (_get_servile_suggestion category (Re.m_group0 m)))
          (Re.finditer pattern text true))
      patterns)
    servile_patterns.

(** [_detect_sovereign_language(text)] *)
Definition _detect_sovereign_language (text : string) : list Indicator :=
  flat_map (fun cp =>
    let '(category, patterns) := cp in
    flat_map (fun pattern =>
      map (fun m =>
             mkIndicator category pattern (Re.m_group0 m) (Re.m_start m, Re.m_end m)
                         (_get_sovereign_strength category)
                         (_get_sovereign_explanation category (Re.m_group0 m)))
          (Re.finditer pattern text true))
      patterns)
    sovereign_patterns.

(** The dictionary returned by [_analyze_remedy_alignment]. *)
Record RemedyAlignment : Type := mkRemedyAlignment {
  score : Q;
  lawful_indicators : list string;
  unlawful_indicators : list string;
  analysis : string
}.

(** [_get_remedy_analysis(score, lawful_count, unlawful_count)] *)
Definition _get_remedy_analysis (score : Q) (lawful_count unlawful_count : nat) : string :=
  let counts :=
    " (" ++ Py.str_of_nat lawful_count ++ " lawful indicators, " ++
    Py.str_of_nat unlawful_count ++ " unlawful)" in
  if Qle_bool 0.8 score then "Strong lawful remedy focus" ++ counts
  else if Qle_bool 0.6 score then "Good remedy alignment" ++ counts
  else if Qle_bool 0.4 score then "Mixed remedy approach" ++ counts
  else "Concerning unlawful remedy focus" ++ counts.

(** [_analyze_remedy_alignment(text)] *)
Definition _analyze_remedy_alignment (text : string) : RemedyAlignment :=
  let lawful_matches :=
    flat_map (fun pattern => map Re.m_group0 (Re.finditer pattern text true))
             (dict_get remedy_patterns "lawful_remedy_indicators" []) in
  let unlawful_matches :=
    flat_map (fun pattern => map Re.m_group0 (Re.finditer pattern text true))
             (dict_get remedy_patterns "unlawful_remedy_indicators" []) in
  let lawful_count := List.length lawful_matches in
  let unlawful_count := List.length unlawful_matches in
  let total_count := lawful_count + unlawful_count in
  let score :=
    if total_count =? 0 then 0.5%Q
    else (of_nat lawful_count / of_nat total_count)%Q in
  mkRemedyAlignment score lawful_matches unlawful_matches
    (_get_remedy_analysis score lawful_count unlawful_count).

(** The two counters of [_calculate_autonomy_score] after the loops. *)
Definition autonomy_matches (text : string) : Q :=
  fold_left
    (fun acc cp =>
       let '(category, patterns) := cp in
       fold_left
         (fun acc pattern =>
            let matches := List.length (Re.findall pattern text true) in
            if String.eqb category "self_determination" then (acc + of_nat matches)%Q
            else if String.eqb category "non_consent" then (acc + of_nat matches * 0.8)%Q
            else acc)
         patterns acc)
    autonomy_patterns 0%Q.

Definition dependency_matches (text : string) : nat :=
  fold_left
    (fun acc pattern => acc + List.length (Re.findall pattern text true))
    (dict_get servile_patterns "dependency_language" []) 0.

(** [_calculate_autonomy_score(text)] *)
Definition _calculate_autonomy_score (text : string) : Q :=
  let autonomy_matches := autonomy_matches text in
  let dependency_matches := of_nat (dependency_matches text) in
  let total_matches := (autonomy_matches + dependency_matches)%Q in
  if Qeq_bool total_matches 0 then 0.5%Q
  else fmin 1.0 (autonomy_matches / (autonomy_matches + dependency_matches * 2))%Q.

(** [_calculate_language_score(servile_flags, sovereign_indicators, text_length)] *)
Definition _calculate_language_score (servile_flags : list Flag)
    (sovereign_indicators : list Indicator) (text_length : nat) : Q :=
  let servile_penalty :=
    (fsum (map severity servile_flags) / fmax (of_nat text_length / 100) 1)%Q in
  let sovereign_bonus :=
    (fsum (map strength sovereign_indicators) / fmax (of_nat text_length / 100) 1)%Q in
  let score := (0.5 - servile_penalty + sovereign_bonus)%Q in
  fmax 0.0 (fmin 1.0 score).

(** [_determine_sovereignty_level(score)] *)
Definition _determine_sovereignty_level (score : Q) : string :=
  if Qle_bool 0.75 score then "Sovereign"
  else if Qle_bool 0.5 score then "Transitional"
  else "Servile".

(** [SovereigntyMetrics] *)
Record SovereigntyMetrics : Type := mkSovereigntyMetrics {
  overall_score : Q;
  language_score : Q;
  remedy_score : Q;
  autonomy_score : Q;
  servile_flags : list Flag;
  sovereign_indicators : list Indicator;
  remedy_alignment : option RemedyAlignment;
  improvement_suggestions : list string;
  sovereignty_level : string
}.

Section Scorer.

(** The order in which a [set] of strings built from the given sequence of
    insertions is iterated.  It depends on the string hashes of the process. *)
Variable set_order : list string -> list string.

(** [_generate_improvement_suggestions(servile_flags, sovereign_indicators,
    remedy_alignment, autonomy_score)] *)
Definition _generate_improvement_suggestions (servile_flags : list Flag)
    (sovereign_indicators : list Indicator) (remedy_alignment : RemedyAlignment)
    (autonomy_score : Q) : list string :=
  let s1 :=
    match servile_flags with
    | [] => []
    | _ =>
        let categories := set_order (map flag_category servile_flags) in
        flat_map (fun category =>
          if String.eqb category "submission_language" then
            ["Replace submissive phrases with assertive statements of rights and standing"]
          else if String.eqb category "dependency_language" then
            ["Assert your inherent authority rather than seeking permission"]
          else if String.eqb category "victim_language" then
            ["Focus on lawful remedy and rights rather than personal circumstances"]
          else if String.eqb category "corporate_fiction_acceptance" then
            ["Clarify your standing as a living being, not a corporate fiction"]
          else []) categories
    end in
  let s2 :=
    if List.length sovereign_indicators <? 3
    then ["Include more sovereign language patterns (authority challenges, constitutional assertions)"]
    else [] in
  let s3 :=
    if flt (score remedy_alignment) 0.6
    then ["Focus on lawful remedies (restitution, specific performance) rather than punitive measures"]
    else [] in
  let s4 :=
    if flt autonomy_score 0.6
    then ["Emphasize self-determination and autonomous decision-making"]
    else [] in
  let suggestions := (s1 ++ s2 ++ s3 ++ s4)%list in
  let suggestions :=
    match suggestions with
    | [] => ["Consider incorporating more sovereign principles and lawful remedy focus"]
    | _ => suggestions
    end in
  firstn 5 suggestions.

(** [score_text(text, context)] *)
Definition score_text (text : string) : SovereigntyMetrics :=
  if negb (Py.truthy text) || negb (Py.truthy (Py.strip text)) then
    mkSovereigntyMetrics 0.5 0.5 0.5 0.5 [] [] None
      ["No text provided for analysis"] "Unknown"
  else
    let text_lower := Py.lower text in
    let servile_flags := _detect_servile_language text_lower in
    let sovereign_indicators := _detect_sovereign_language text_lower in
    let remedy_alignment := _analyze_remedy_alignment text_lower in
    let autonomy_score := _calculate_autonomy_score text_lower in
    let language_score :=
      _calculate_language_score servile_flags sovereign_indicators (String.length text) in
    let remedy_score := score remedy_alignment in
    let overall_score :=
      (language_score * 0.4 + remedy_score * 0.3 + autonomy_score * 0.3)%Q in
    let suggestions :=
      _generate_improvement_suggestions servile_flags sovereign_indicators
        remedy_alignment autonomy_score in
    let sovereignty_level := _determine_sovereignty_level overall_score in
    mkSovereigntyMetrics overall_score language_score remedy_score autonomy_score
      servile_flags sovereign_indicators (Some remedy_alignment)
      suggestions sovereignty_level.

End Scorer.

End SovereigntyScorer.

(* ================================================================== *)
(** * [modules/nlp_processor.py] *)
(* ================================================================== *)

Module NlpProcessor.

(** [_load_contradiction_patterns] *)
Definition contradiction_patterns : list (string * string) :=
  [ ("\b(shall|must|will|required?)\b",
     "\b(shall not|must not|will not|not required|prohibited|forbidden)\b");
    ("\b(mandatory|compulsory|obligatory)\b", "\b(optional|voluntary|discretionary)\b");
    ("\b(always|invariably|without exception)\b", "\b(never|sometimes|may|might|could)\b");
    ("\b(all|every|each)\b", "\b(none|no|not any)\b");
    ("\b(include[sd]?|contain[sd]?)\b", "\b(exclude[sd]?|omit[sd]?|not include)\b");
    ("\b(permit[sd]?|allow[sd]?|authorize[sd]?)\b", "\b(prohibit[sd]?|forbid[sd]?|ban[sd]?)\b");
    ("\b(before|prior to|preceding)\b", "\b(after|following|subsequent to)\b");
    ("\b(immediate|instant|forthwith)\b", "\b(delayed|postponed|deferred)\b");
    ("\b(maximum|at most|no more than)\b", "\b(minimum|at least|no less than)\b");
    ("\b(increase|raise|elevate)\b", "\b(decrease|lower|reduce)\b") ].

(** [ContradictionPair] *)
Record ContradictionPair : Type := mkContradictionPair {
  statement1 : string;
  statement2 : string;
  confidence : Q;
  explanation : string;
  location1 : Z * Z;
  location2 : Z * Z
}.

(** What the processor asks of the spaCy pipeline [self.nlp]. *)
Record Pipeline : Type := mkPipeline {
  (** [[sent.text for sent in self.nlp(text).sents]] *)
  sents : string -> list string;
  (** [self.nlp.has_pipe('tok2vec')] *)
  has_tok2vec : bool;
  (** [self.nlp(a).similarity(self.nlp(b))] *)
  similarity : string -> string -> Q;
  (** [[token.text for token in self.nlp(s)]] *)
  tokens : string -> list string
}.

(** The processor: [self.nlp] (which may be [None]) and the configuration
    entry [nlp.enable_contradiction_detection]. *)
Record Processor : Type := mkProcessor {
  nlp : option Pipeline;
  enable_contradiction_detection : bool
}.

(** [_split_into_sentences(text)] *)
Definition _split_into_sentences (self : Processor) (text : string) : list string :=
  match nlp self with
  | Some pipeline =>
      map Py.strip (filter (fun t => Py.truthy (Py.strip t)) (sents pipeline text))
  | None =>
      let sentences := Re.split "[.!?]+" text in
      map Py.strip (filter (fun s => Py.truthy (Py.strip s)) sentences)
  end.

(** The loop of [_check_sentence_contradiction] over the pattern pairs. *)
Fixpoint check_patterns (patterns : list (string * string)) (sent1 sent2 full_text : string)
  : option ContradictionPair :=
  match patterns with
  | [] => None
  | (pattern1, pattern2) :: patterns' =>
      match Re.search pattern1 sent1 true, Re.search pattern2 sent2 true with
      | Some match1, Some match2 =>
          let pos1 := Py.find full_text sent1 in
          let pos2 := Py.find full_text sent2 in
          if negb (pos1 =? -1)%Z && negb (pos2 =? -1)%Z then
            let confidence := 0.8%Q in
            let explanation :=
              "Contradictory patterns detected: '" ++ Re.m_group0 match1 ++
              "' vs '" ++ Re.m_group0 match2 ++ "'" in
            Some (mkContradictionPair sent1 sent2 confidence explanation
                    (pos1, (pos1 + Z.of_nat (String.length sent1))%Z)
                    (pos2, (pos2 + Z.of_nat (String.length sent2))%Z))
          else check_patterns patterns' sent1 sent2 full_text
      | _, _ => check_patterns patterns' sent1 sent2 full_text
      end
  end.

(** [_check_sentence_contradiction(sent1, sent2, full_text)] *)
Definition _check_sentence_contradiction (sent1 sent2 full_text : string)
  : option ContradictionPair :=
  check_patterns contradiction_patterns sent1 sent2 full_text.

(** [for i, a in enumerate(l): for j, b in enumerate(l[i+1:], i+1): ...],
    collecting what the body appends. *)
Fixpoint pairwise {A B : Type} (body : A -> A -> list B) (l : list A) : list B :=
  match l with
  | [] => []
  | a :: later => (flat_map (body a) later ++ pairwise body later)%list
  end.

(** [_has_negation_difference(doc1, doc2)], on the token texts. *)
Definition negation_words : list string :=
  ["not"; "no"; "never"; "none"; "nothing"; "neither"; "nor"].

Definition has_negation (toks : list string) : bool :=
  existsb (fun t => existsb (String.eqb (Py.lower t)) negation_words) toks.

Definition _has_negation_difference (toks1 toks2 : list string) : bool :=
  negb (Bool.eqb (has_negation toks1) (has_negation toks2)).

(** [_detect_semantic_contradictions(sentences, full_text)] *)
Definition _detect_semantic_contradictions (self : Processor)
    (sentences : list string) (full_text : string) : list ContradictionPair :=
  match nlp self with
  | None => []
  | Some pipeline =>
      if negb (has_tok2vec pipeline) then []
      else
        pairwise
          (fun s1 s2 =>
             let sim := similarity pipeline s1 s2 in
             if flt 0.7 sim && _has_negation_difference (tokens pipeline s1) (tokens pipeline s2)
             then
               let pos1 := Py.find full_text s1 in
               let pos2 := Py.find full_text s2 in
               if negb (pos1 =? -1)%Z && negb (pos2 =? -1)%Z
               then [mkContradictionPair s1 s2 (sim * 0.6)%Q
                       "Semantic contradiction detected through similarity analysis"
                       (pos1, (pos1 + Z.of_nat (String.length s1))%Z)
                       (pos2, (pos2 + Z.of_nat (String.length s2))%Z)]
               else []
             else [])
          sentences
  end.

(** The pattern-based part of [detect_contradictions]. *)
Definition pattern_contradictions (sentences : list string) (text : string)
  : list ContradictionPair :=
  pairwise
    (fun sent1 sent2 =>
       match _check_sentence_contradiction sent1 sent2 text with
       | Some contradiction => [contradiction]
       | None => []
       end)
    sentences.

(** [detect_contradictions(text)] *)
Definition detect_contradictions (self : Processor) (text : string) : list ContradictionPair :=
  let sentences := _split_into_sentences self text in
  let contradictions := pattern_contradictions sentences text in
  if enable_contradiction_detection self
  then (contradictions ++ _detect_semantic_contradictions self sentences text)%list
  else contradictions.

End NlpProcessor.

(* ================================================================== *)
(** * [hashlib.sha256]

    SHA-256 on 32-bit words held in [Z], the wrap-around written out. *)
(* ================================================================== *)

Module Sha256.

Local Open Scope Z_scope.

Definition w32 (x : Z) : Z := x mod 4294967296.

Definition add32 (x y : Z) : Z := w32 (x + y).

Definition rotr (n x : Z) : Z := Z.lor (Z.shiftr x n) (w32 (Z.shiftl x (32 - n))).

Definition ch (x y z : Z) : Z := Z.lxor (Z.land x y) (Z.land (Z.lnot x) z).

Definition maj (x y z : Z) : Z :=
  Z.lxor (Z.lxor (Z.land x y) (Z.land x z)) (Z.land y z).

Definition big_sigma0 (x : Z) : Z := Z.lxor (Z.lxor (rotr 2 x) (rotr 13 x)) (rotr 22 x).
Definition big_sigma1 (x : Z) : Z := Z.lxor (Z.lxor (rotr 6 x) (rotr 11 x)) (rotr 25 x).
Definition small_sigma0 (x : Z) : Z := Z.lxor (Z.lxor (rotr 7 x) (rotr 18 x)) (Z.shiftr x 3).
Definition small_sigma1 (x : Z) : Z := Z.lxor (Z.lxor (rotr 17 x) (rotr 19 x)) (Z.shiftr x 10).

(** The round constants of FIPS 180-4, in decimal. *)
Definition K : list Z :=
  [
    1116352408; 1899447441; 3049323471; 3921009573; 961987163; 1508970993;
    2453635748; 2870763221; 3624381080; 310598401; 607225278; 1426881987;
    1925078388; 2162078206; 2614888103; 3248222580; 3835390401; 4022224774;
    264347078; 604807628; 770255983; 1249150122; 1555081692; 1996064986;
    2554220882; 2821834349; 2952996808; 3210313671; 3336571891; 3584528711;
    113926993; 338241895; 666307205; 773529912; 1294757372; 1396182291;
    1695183700; 1986661051; 2177026350; 2456956037; 2730485921; 2820302411;
    3259730800; 3345764771; 3516065817; 3600352804; 4094571909; 275423344;
    430227734; 506948616; 659060556; 883997877; 958139571; 1322822218;
    1537002063; 1747873779; 1955562222; 2024104815; 2227730452; 2361852424;
    2428436474; 2756734187; 3204031479; 3329325298 ].

(** The eight words of the chaining value. *)
Definition state : Type := (Z * Z * Z * Z * Z * Z * Z * Z)%type.

Definition H0 : state :=
  (1779033703, 3144134277, 1013904242, 2773480762,
   1359893119, 2600822924, 528734635, 1541459225).

(** The message schedule: [n] more words after the ones in [ws]. *)
Fixpoint schedule (n : nat) (ws : list Z) : list Z :=
  match n with
  | O => ws
  | S n' =>
      let t := List.length ws in
      let w i := nth (t - i) ws 0 in
      schedule n'
        (ws ++ [add32 (add32 (add32 (small_sigma1 (w 2%nat)) (w 7%nat))
                             (small_sigma0 (w 15%nat))) (w 16%nat)])%list
  end.

Definition round (s : state) (kw : Z * Z) : state :=
  let '(a, b, c, d, e, f, g, h) := s in
  let t1 := add32 (add32 (add32 (add32 h (big_sigma1 e)) (ch e f g)) (fst kw)) (snd kw) in
  let t2 := add32 (big_sigma0 a) (maj a b c) in
  (add32 t1 t2, a, b, c, add32 d t1, e, f, g).

(** One 16-word block folded into the chaining value. *)
Definition compress (s : state) (block : list Z) : state :=
  let '(a, b, c, d, e, f, g, h) := s in
  let '(a', b', c', d', e', f', g', h') :=
    fold_left round (combine K (schedule 48 block)) s in
  (add32 a a', add32 b b', add32 c c', add32 d d',
   add32 e e', add32 f f', add32 g g', add32 h h').

(** The padded message: the bytes, [0x80], zeros up to 56 modulo 64, and
    the bit length on eight bytes. *)
Definition pad (bytes : list Z) : list Z :=
  let len := List.length bytes in
  let zeros := ((119 - len mod 64) mod 64)%nat in
  let bits := Z.of_nat len * 8 in
  (bytes ++ [0x80] ++ repeat 0 zeros ++
   map (fun i => Z.shiftr bits (8 * i) mod 256) [7; 6; 5; 4; 3; 2; 1; 0])%list.

(** Big-endian words of a byte sequence. *)
Fixpoint words (bytes : list Z) : list Z :=
  match bytes with
  | b0 :: b1 :: b2 :: b3 :: bytes' =>
      (b0 * 16777216 + b1 * 65536 + b2 * 256 + b3) :: words bytes'
  | _ => []
  end.

(** The chaining value after all whole blocks of a word sequence. *)
Definition absorb (ws : list Z) : state :=
  fst (fold_left
         (fun sb w =>
            let '(s, buf) := sb in
            let buf' := (buf ++ [w])%list in
            if (List.length buf' =? 16)%nat then (compress s buf', []) else (s, buf'))
         ws (H0, [])).

Definition hex_digit (x : Z) : ascii :=
  ascii_of_nat (Z.to_nat (if x <? 10 then 48 + x else 87 + x)).

Definition hex8 (w : Z) (tail : string) : string :=
  String (hex_digit (Z.shiftr w 28 mod 16))
 (String (hex_digit (Z.shiftr w 24 mod 16))
 (String (hex_digit (Z.shiftr w 20 mod 16))
 (String (hex_digit (Z.shiftr w 16 mod 16))
 (String (hex_digit (Z.shiftr w 12 mod 16))
 (String (hex_digit (Z.shiftr w 8 mod 16))
 (String (hex_digit (Z.shiftr w 4 mod 16))
 (String (hex_digit (w mod 16)) tail))))))).

Definition hex_of_state (s : state) : string :=
  let '(a, b, c, d, e, f, g, h) := s in
  hex8 a (hex8 b (hex8 c (hex8 d (hex8 e (hex8 f (hex8 g (hex8 h EmptyString))))))).

Definition utf8 (c : ascii) : list Z :=
  let n := Z.of_nat (nat_of_ascii c) in
  if (n <? 128)%Z then [n] else [(192 + n / 64)%Z; (128 + n mod 64)%Z].

Definition bytes_of_string (s : string) : list Z :=
  flat_map utf8 (list_ascii_of_string s).

(** [hashlib.sha256(s.encode('utf-8')).hexdigest()] *)
Definition hexdigest (s : string) : string :=
  hex_of_state (absorb (words (pad (bytes_of_string s)))).

End Sha256.

(* ================================================================== *)
(** * [json.dumps] *)
(* ================================================================== *)

Module Json.

(** The Python objects that are serialised: [None], booleans, integers,
    floats, strings, lists, and dictionaries with string keys in their
    insertion order. *)
#[warnings="-register-all"]
Inductive value : Type :=
| JNull
| JBool (b : bool)
| JInt (n : Z)
| JFloat (x : Q)
| JStr (s : string)
| JList (l : list value)
| JDict (items : list (string * value)).

Definition hex4 (n : nat) : string :=
  let z := Z.of_nat n in
  String (Sha256.hex_digit (Z.shiftr z 12 mod 16))
 (String (Sha256.hex_digit (Z.shiftr z 8 mod 16))
 (String (Sha256.hex_digit (Z.shiftr z 4 mod 16))
 (String (Sha256.hex_digit (z mod 16)) EmptyString))).

(** One character of a string under [ensure_ascii]: the quote and the
    backslash are escaped, the usual control characters have their short
    form, and anything outside space..tilde is written [\uXXXX]. *)
Definition escape_char (c : ascii) : string :=
  let n := nat_of_ascii c in
  if n =? 34 then String "\" q
  else if n =? 92 then "\\"
  else if n =? 10 then "\n"
  else if n =? 13 then "\r"
  else if n =? 9 then "\t"
  else if n =? 8 then "\b"
  else if n =? 12 then "\f"
  else if (n <? 32) || (126 <? n) then "\u" ++ hex4 n
  else String c EmptyString.

Fixpoint escape (s : string) : string :=
  match s with
  | EmptyString => EmptyString
  | String c s' => escape_char c ++ escape s'
  end.

Definition encode_str (s : string) : string := q ++ escape s ++ q.

(** Insertion of a rendered item into a list sorted by key. *)
Fixpoint insert_sorted (kv : string * string) (l : list (string * string))
  : list (string * string) :=
  match l with
  | [] => [kv]
  | kv' :: l' =>
      if String.leb (fst kv') (fst kv) then kv' :: insert_sorted kv l'
      else kv :: l
  end.

Definition sort_items (l : list (string * string)) : list (string * string) :=
  fold_left (fun acc kv => insert_sorted kv acc) l [].

Section Dumps.

(** [float.__repr__], the shortest decimal text that reads back as the
    same float. *)
Variable float_repr : Q -> string.

(** [json.dumps(v, sort_keys=sort_keys)]; the values of a dictionary are
    rendered first and the rendered items are then put in key order. *)
Fixpoint dumps (sort_keys : bool) (v : value) : string :=
  match v with
  | JNull => "null"
  | JBool b => if b then "true" else "false"
  | JInt n => NilZero.string_of_int (Z.to_int n)
  | JFloat x => float_repr x
  | JStr s => encode_str s
  | JList l => "[" ++ Py.join ", " (map (dumps sort_keys) l) ++ "]"
  | JDict items =>
      let rendered := map (fun kv => (fst kv, dumps sort_keys (snd kv))) items in
      let ordered := if sort_keys then sort_items rendered else rendered in
      "{" ++ Py.join ", " (map (fun kv => encode_str (fst kv) ++ ": " ++ snd kv) ordered) ++ "}"
  end.

End Dumps.

(** [d.pop(key, None)], for what is left in [d]. *)
Definition pop (key : string) (items : list (string * value)) : list (string * value) :=
  filter (fun kv => negb (String.eqb (fst kv) key)) items.

Definition opt_str (o : option string) : value :=
  match o with Some s => JStr s | None => JNull end.

Definition opt_float (o : option Q) : value :=
  match o with Some x => JFloat x | None => JNull end.

End Json.

(* ================================================================== *)
(** * [modules/provenance_logger.py] *)
(* ================================================================== *)

Module Provenance.

(** [ProvenanceEntry] *)
Record ProvenanceEntry : Type := mkEntry {
  entry_id : string;
  timestamp : string;
  session_id : string;
  agent_name : string;
  human_operator : option string;
  system_version : string;
  action_type : string;
  action_description : string;
  input_hash : option string;
  output_hash : option string;
  document_path : option string;
  legal_context : option string;
  sovereignty_score : option Q;
  confidence_level : option Q;
  parent_entry_id : option string;
  related_entries : list string;
  entry_hash : option string
}.

(** [asdict(entry)]: the fields in their declaration order. *)
Definition asdict (entry : ProvenanceEntry) : list (string * Json.value) :=
  [ ("entry_id", Json.JStr (entry_id entry));
    ("timestamp", Json.JStr (timestamp entry));
    ("session_id", Json.JStr (session_id entry));
    ("agent_name", Json.JStr (agent_name entry));
    ("human_operator", Json.opt_str (human_operator entry));
    ("system_version", Json.JStr (system_version entry));
    ("action_type", Json.JStr (action_type entry));
    ("action_description", Json.JStr (action_description entry));
    ("input_hash", Json.opt_str (input_hash entry));
    ("output_hash", Json.opt_str (output_hash entry));
    ("document_path", Json.opt_str (document_path entry));
    ("legal_context", Json.opt_str (legal_context entry));
    ("sovereignty_score", Json.opt_float (sovereignty_score entry));
    ("confidence_level", Json.opt_float (confidence_level entry));
    ("parent_entry_id", Json.opt_str (parent_entry_id entry));
    ("related_entries", Json.JList (map Json.JStr (related_entries entry)));
    ("entry_hash", Json.opt_str (entry_hash entry)) ].

(** What [_generate_hash] is given: a dictionary, a string, or an object of
    another type, known by its truth value and by the text of [str(obj)]. *)
Inductive Content : Type :=
| CDict (items : list (string * Json.value))
| CStr (s : string)
| COther (truth : bool) (text : string).

Definition content_truthy (c : Content) : bool :=
  match c with
  | CDict [] => false
  | CDict _ => true
  | CStr s => Py.truthy s
  | COther truth _ => truth
  end.

(** The keyword arguments of [log_action] after [agent_name]; [None] is the
    default of each. *)
Record Kwargs : Type := mkKwargs {
  kw_input_data : option Content;
  kw_output_data : option Content;
  kw_document_path : option string;
  kw_legal_context : option string;
  kw_sovereignty_score : option Q;
  kw_confidence_level : option Q;
  kw_human_operator : option string;
  kw_parent_entry_id : option string;
  kw_related_entries : option (list string)
}.

Definition no_kwargs : Kwargs :=
  mkKwargs None None None None None None None None None.

(** The session file, as the document [json.load] reads back. *)
Record SessionFile : Type := mkSessionFile {
  file_session_id : string;
  file_start_time : string;
  file_system_version : string;
  file_provenance_version : string;
  file_entries : list (list (string * Json.value));
  file_last_updated : option string
}.

(** The logger.  [entry_index] is not a separate store: it maps an
    identifier to the very entry object held in [entries], so looking an
    entry up reads [entries].  [master_log] is the text of the file
    [logs/provenance/master_provenance.jsonl], which every session appends
    to.  [uuid_draws] and [clock_reads] count the calls to [uuid4] and to
    [datetime.now] made so far. *)
Record ProvenanceLogger : Type := mkLogger {
  logger_session_id : string;
  session_start : string;
  entries : list ProvenanceEntry;
  master_log : string;
  session_file : SessionFile;
  uuid_draws : nat;
  clock_reads : nat
}.

(** What the process gets from outside: the text of its floats, the
    successive results of [uuid.uuid4()] and of [datetime.datetime.now()] (in
    seconds), the ISO text of an instant, the [:.2f] text of a duration, and
    the text that earlier sessions left in the master log file. *)
Record Runtime : Type := mkRuntime {
  float_repr : Q -> string;
  uuid4 : nat -> string;
  now : nat -> Q;
  isoformat : Q -> string;
  format_2f : Q -> string;
  master_file : string
}.

(** A Python exception: whether it is an instance of [Exception] (a
    [KeyboardInterrupt] or a [SystemExit] is not) and the text of [str(e)]. *)
Record PyException : Type := mkException {
  is_Exception : bool;
  exc_str : string
}.

Inductive Outcome : Type :=
| Returned
| Raised (e : PyException).

Section Logger.

Variable rt : Runtime.

Definition read_clock (self : ProvenanceLogger) : Q * ProvenanceLogger :=
  (now rt (clock_reads self),
   mkLogger (logger_session_id self) (session_start self) (entries self)
            (master_log self) (session_file self) (uuid_draws self) (S (clock_reads self))).

Definition draw_uuid (self : ProvenanceLogger) : string * ProvenanceLogger :=
  (uuid4 rt (uuid_draws self),
   mkLogger (logger_session_id self) (session_start self) (entries self)
            (master_log self) (session_file self) (S (uuid_draws self)) (clock_reads self)).

(** [__init__] and [_initialize_session] *)
Definition init : ProvenanceLogger :=
  let session_id := uuid4 rt 0 in
  let session_start := isoformat rt (now rt 0) in
  mkLogger session_id session_start [] (master_file rt)
    (mkSessionFile session_id session_start
       "VeroBrix v2.0 - Sovereign Modular Intelligence" "1.0" [] None)
    1 1.

(** [_generate_hash(content)] *)
Definition _generate_hash (content : Content) : string :=
  let content :=
    match content with
    | CDict items => Json.dumps (float_repr rt) true (Json.JDict items)
    | CStr s => s
    | COther _ text => text
    end in
  Py.take 16 (Sha256.hexdigest content).

(** [_generate_entry_hash(entry)] *)
Definition _generate_entry_hash (entry : ProvenanceEntry) : string :=
  let entry_dict := asdict entry in
  let entry_dict := Json.pop "entry_hash" entry_dict in
  _generate_hash (CDict entry_dict).

(** [_generate_hash(data) if data else None] *)
Definition hash_if_given (data : option Content) : option string :=
  match data with
  | Some c => if content_truthy c then Some (_generate_hash c) else None
  | None => None
  end.

(** [_persist_entry(entry)]: a line more in the master log, the entry and
    the time of the update in the session file. *)
Definition _persist_entry (self : ProvenanceLogger) (entry : ProvenanceEntry)
  : ProvenanceLogger :=
  let entry_dict := asdict entry in
  let line := Json.dumps (float_repr rt) false (Json.JDict entry_dict) in
  let '(t, self) := read_clock self in
  let f := session_file self in
  mkLogger (logger_session_id self) (session_start self) (entries self)
    (master_log self ++ line ++ Py.eol)
    (mkSessionFile (file_session_id f) (file_start_time f) (file_system_version f)
       (file_provenance_version f) (file_entries f ++ [entry_dict])%list
       (Some (isoformat rt t)))
    (uuid_draws self) (clock_reads self).

Definition with_hash (entry : ProvenanceEntry) (h : option string) : ProvenanceEntry :=
  mkEntry (entry_id entry) (timestamp entry) (session_id entry) (agent_name entry)
    (human_operator entry) (system_version entry) (action_type entry)
    (action_description entry) (input_hash entry) (output_hash entry)
    (document_path entry) (legal_context entry) (sovereignty_score entry)
    (confidence_level entry) (parent_entry_id entry) (related_entries entry) h.

(** [log_action(action_type, action_description, agent_name, **kwargs)]:
    the logger afterwards and the identifier returned. *)
Definition log_action (self : ProvenanceLogger)
    (action_type action_description agent_name : string) (kw : Kwargs)
  : ProvenanceLogger * string :=
  let '(entry_id, self) := draw_uuid self in
  let input_hash := hash_if_given (kw_input_data kw) in
  let output_hash := hash_if_given (kw_output_data kw) in
  let '(t, self) := read_clock self in
  let entry :=
    mkEntry entry_id (isoformat rt t) (logger_session_id self) agent_name
      (kw_human_operator kw) "VeroBrix v2.0" action_type action_description
      input_hash output_hash (kw_document_path kw) (kw_legal_context kw)
      (kw_sovereignty_score kw) (kw_confidence_level kw) (kw_parent_entry_id kw)
      (match kw_related_entries kw with Some l => l | None => [] end)
      None in
  let entry := with_hash entry (Some (_generate_entry_hash entry)) in
  let self :=
    mkLogger (logger_session_id self) (session_start self) (entries self ++ [entry])%list
      (master_log self) (session_file self) (uuid_draws self) (clock_reads self) in
  let self := _persist_entry self entry in
  (self, entry_id).

(** [get_entry(entry_id)] *)
Definition get_entry (self : ProvenanceLogger) (id : string) : option ProvenanceEntry :=
  List.find (fun e => String.eqb (entry_id e) id) (rev (entries self)).

(** An element of [results["corrupted_entries"]]. *)
Record Corrupted : Type := mkCorrupted {
  corrupted_entry_id : string;
  stored_hash : string;
  calculated_hash : string
}.

(** The dictionary returned by [verify_integrity]. *)
Record Integrity : Type := mkIntegrity {
  total_entries : nat;
  verified_entries : nat;
  corrupted_entries : list Corrupted;
  missing_hashes : list string;
  integrity_percentage : Q
}.

(** One turn of the loop of [verify_integrity]: the counter and the two
    lists after [entry]. *)
Definition verify_step (acc : nat * list Corrupted * list string) (entry : ProvenanceEntry)
  : nat * list Corrupted * list string :=
  let '(verified, corrupted, missing) := acc in
  match entry_hash entry with
  | None => (verified, corrupted, (missing ++ [entry_id entry])%list)
  | Some stored =>
      if negb (Py.truthy stored) then (verified, corrupted, (missing ++ [entry_id entry])%list)
      else
        let calculated_hash := _generate_entry_hash entry in
        if String.eqb calculated_hash stored
        then (S verified, corrupted, missing)
        else (verified,
              (corrupted ++ [mkCorrupted (entry_id entry) stored calculated_hash])%list,
              missing)
  end.

(** [verify_integrity()] *)
Definition verify_integrity (self : ProvenanceLogger) : Integrity :=
  let total := List.length (entries self) in
  let '(verified, corrupted, missing) := fold_left verify_step (entries self) (0, [], []) in
  mkIntegrity total verified corrupted missing
    (if 0 <? total then (of_nat verified / of_nat total * 100)%Q else 100%Q).

(** The body of a [with self.track_operation(...) as start_entry_id:] block:
    given the identifier it is handed, it takes the logger from one state to
    another and either returns or raises. *)
Definition Body : Type := string -> ProvenanceLogger -> ProvenanceLogger * Outcome.

(** [track_operation(operation_name, agent_name, **kwargs)] around [body]:
    the logger when the [with] statement is left, and whether it is left
    normally or by an exception. *)
Definition track_operation (self : ProvenanceLogger) (operation_name agent_name : string)
    (kwargs : Kwargs) (body : Body) : ProvenanceLogger * Outcome :=
  let '(start_time, self) := read_clock self in
  let '(self, start_entry_id) :=
    log_action self "operation_start" ("Started operation: " ++ operation_name)
      agent_name kwargs in
  match body start_entry_id self with
  | (self, Returned) =>
      let '(t, self) := read_clock self in
      let duration := (t - start_time)%Q in
      let '(self, _) :=
        log_action self "operation_complete"
          ("Completed operation: " ++ operation_name ++ " (duration: " ++
           format_2f rt duration ++ "s)")
          agent_name
          (mkKwargs None None None None None (Some 1.0%Q) None (Some start_entry_id) None) in
      (self, Returned)
  | (self, Raised e) =>
      if is_Exception e then
        let '(t, self) := read_clock self in
        let duration := (t - start_time)%Q in
        let '(self, _) :=
          log_action self "operation_error"
            ("Failed operation: " ++ operation_name ++ " - " ++ exc_str e ++
             " (duration: " ++ format_2f rt duration ++ "s)")
            agent_name
            (mkKwargs None None None None None (Some 0.0%Q) None (Some start_entry_id) None) in
        (self, Raised e)
      else (self, Raised e)
  end.

End Logger.

End Provenance.


(* ================================================================== *)
(** * Vocabulary of the statements *)
(* ================================================================== *)

(** A text without sentence-terminating punctuation. *)
Definition terminator_free (s : string) : Prop :=
  Py.contains "." s = false /\ Py.contains "!" s = false /\ Py.contains "?" s = false.

(** An empty or whitespace-only text. *)
Definition whitespace_only (text : string) : bool :=
  forallb Py.isspace (list_ascii_of_string text).

(** [loc] is the span of the first occurrence of [sent] in [full_text]. *)
Definition first_occurrence_span (full_text sent : string) (loc : Z * Z) : Prop :=
  (0 <= fst loc)%Z /\
  snd loc = (fst loc + Z.of_nat (String.length sent))%Z /\
  Py.startswith (Py.drop (Z.to_nat (fst loc)) full_text) sent = true /\
  forall k, k < Z.to_nat (fst loc) -> Py.startswith (Py.drop k full_text) sent = false.


(** The number of places of [s] where [sub] occurs. *)
Fixpoint count_occurrences (sub s : string) : nat :=
  (if Py.startswith s sub then 1 else 0) +
  match s with
  | EmptyString => 0
  | String _ s' => count_occurrences sub s'
  end.

(** The scoring rule read as one point per occurrence of a keyword and
    three per occurrence of a phrase, and the type it would give. *)
Definition occurrence_score (patterns : SituationInterpreter.Patterns) (text : string) : nat :=
  list_sum (map (fun keyword => count_occurrences keyword text)
                (SituationInterpreter.keywords patterns)) +
  3 * list_sum (map (fun phrase => count_occurrences phrase text)
                    (SituationInterpreter.phrases patterns)).

Definition occurrence_type (text : string) : string :=
  match max_item (map (fun sp => (fst sp, occurrence_score (snd sp) text))
                      SituationInterpreter.situation_patterns) with
  | Some best => if 0 <? snd best then fst best else "general"
  | None => "general"
  end.

(** The scoring rule in closed form: one point for each keyword of the list
    that occurs in the text, three for each phrase that does. *)
Definition presence_score (patterns : SituationInterpreter.Patterns) (text : string) : nat :=
  List.length (filter (fun keyword => Py.contains keyword text)
                      (SituationInterpreter.keywords patterns)) +
  3 * List.length (filter (fun phrase => Py.contains phrase text)
                          (SituationInterpreter.phrases patterns)).

(** The dictionary [scores] of [_determine_jurisdiction] after its loop. *)
Definition jurisdiction_scores (text : string) : list (string * nat) :=
  map (fun ji =>
         (fst ji,
          List.length (filter (fun indicator => Py.contains indicator text) (snd ji))))
      SituationInterpreter.jurisdiction_indicators.

(** The registry order of the situation types. *)
Definition registry_order : list string :=
  ["traffic_stop"; "fee_demand"; "court_summons"; "contract_dispute";
   "administrative_action"; "property_dispute"].

(** The arguments of one call of [log_action]. *)
Record Call : Type := mkCall {
  call_action_type : string;
  call_action_description : string;
  call_agent_name : string;
  call_kwargs : Provenance.Kwargs
}.

(** A sequence of calls of [log_action] on a logger. *)
Definition log_actions (rt : Provenance.Runtime) (self : Provenance.ProvenanceLogger)
    (calls : list Call) : Provenance.ProvenanceLogger :=
  fold_left
    (fun self c =>
       fst (Provenance.log_action rt self (call_action_type c)
              (call_action_description c) (call_agent_name c) (call_kwargs c)))
    calls self.






(** An entry whose stored hash is the hash of its other fields. *)
Definition sealed (rt : Provenance.Runtime) (e : Provenance.ProvenanceEntry) : Prop :=
  Provenance.entry_hash e = Some (Provenance._generate_entry_hash rt e).

(** A lower-case hexadecimal digit. *)
Definition is_lower_hex (c : ascii) : bool :=
  Py.isdigit c || ((97 <=? nat_of_ascii c) && (nat_of_ascii c <=? 102)).

(** The lines that [_persist_entry] writes for a list of entries. *)
Definition master_lines (rt : Provenance.Runtime) (l : list Provenance.ProvenanceEntry)
  : string :=
  fold_right
    (fun e acc =>
       Json.dumps (Provenance.float_repr rt) false (Json.JDict (Provenance.asdict e)) ++
       Py.eol ++ acc)
    EmptyString l.

(** The files hold what the memory holds: the master log is what earlier
    sessions left in it followed by the line of each entry, and the session
    file has the dictionary of each entry, in the order of [entries]. *)
Definition mirrored (rt : Provenance.Runtime) (self : Provenance.ProvenanceLogger) : Prop :=
  Provenance.master_log self =
    Provenance.master_file rt ++ master_lines rt (Provenance.entries self) /\
  Provenance.file_entries (Provenance.session_file self) =
    map Provenance.asdict (Provenance.entries self).

(** The order in which CPython iterates a set is not modelled; where a
    concrete order is needed, this one keeps the first insertion of each
    element. *)
Fixpoint first_insertions (seen l : list string) : list string :=
  match l with
  | [] => []
  | x :: l' =>
      if existsb (String.eqb x) seen then first_insertions seen l'
      else x :: first_insertions (x :: seen) l'
  end.

Definition insertion_order (l : list string) : list string := first_insertions [] l.


(** The three analysis stages as calls within one process.  Besides its
    arguments a stage can read what the process holds: the clock, which
    [datetime.now()] reads, and the order in which a [set] of strings is
    iterated, which the hash seed fixes when the interpreter starts.  The
    pattern tables are built with the objects and no stage assigns them. *)
Module Stages.








End Stages.

(** Scenario A of the specification and the two sentences it is made of. *)
Definition scenario_A : string :=
  "The defendant shall appear. The defendant shall not appear.".

Definition scenario_A_sentences : list string :=
  ["The defendant shall appear."; "The defendant shall not appear."].

(** A runtime for the examples.  Its clock advances by a millisecond at
    each reading from 10:00:00 on 17 January 2025, its [uuid4] counts, a
    duration below 5 ms prints as [0.00], and the text of a float is given
    for the two floats the ledger itself writes, 1.0 and 0.0. *)
Definition pad_left (width : nat) (s : string) : string :=
  Py.take (width - String.length s) "000000000000" ++ s.

Definition example_runtime : Provenance.Runtime :=
  Provenance.mkRuntime
    (fun x => if Qeq_bool x 1 then "1.0" else "0.0")
    (fun n => "00000000-0000-4000-8000-" ++ pad_left 12 (Py.str_of_nat n))
    (fun n => (of_nat n / 1000)%Q)
    (fun t => "2025-01-17T10:00:00." ++
              pad_left 6 (Py.str_of_nat
                          (Z.to_nat (Qnum (t * 1000000) / Z.pos (Qden (t * 1000000))))))
    (fun _ => "0.00")
    ("{}" ++ Py.eol).



(* ================================================================== *)
(** * Further functions of the same modules *)
(* ================================================================== *)

(** ** [agents/JARVIS/jarvis_agent.py], continued *)

Module JarvisStructure.

(** The dictionary [structure]. *)
Record Structure : Type := mkStructure {
  definitions : list string;
  obligations : list string;
  rights : list string;
  procedures : list string;
  penalties : list string
}.

(** [analyze_legal_structure(text)] *)
Definition analyze_legal_structure (text : string) : Structure :=
  let clauses := Jarvis.extract_clauses text in
  let having (phrases : list string) :=
    filter (fun clause => any_in phrases (Py.lower clause)) clauses in
  mkStructure
    (having ["means"; "defined as"; "shall mean"; "definition"])
    (having ["shall"; "must"; "required to"; "obligation"])
    (having ["right to"; "entitled to"; "may"; "permitted"])
    (having ["procedure"; "process"; "steps"; "filing"])
    (having ["penalty"; "fine"; "violation"; "breach"]).

End JarvisStructure.

(** ** [modules/nlp_processor.py], continued *)

Module NlpClauses.

(** [re.search(pattern, s)] as a truth value. *)
Definition found (pattern s : string) : bool :=
  match Re.search pattern s false with Some _ => true | None => false end.

(** [_classify_clause(clause_text)] *)
Definition _classify_clause (clause_text : string) : string :=
  let clause_lower := Py.lower clause_text in
  if found "\b(penalty|fine|damages|liable|breach|default)\b" clause_lower ||
     found "(result in penalties|face penalties|penalties including)" clause_lower
  then "penalty"
  else if found "\b(if|when|upon|in the event|provided that)\b" clause_lower then "conditional"
  else if found "\b(effective|commence|terminate|expire)\b" clause_lower then "temporal"
  else if found "\b(right|entitled|privilege|immunity)\b" clause_lower then "rights"
  else if found "\b(definition|means|refers to|includes)\b" clause_lower then "definition"
  else if found "\b(shall|must|required|mandatory|obligation)\b" clause_lower then "obligation"
  else if found "\b(may|can|permitted|allowed|discretion)\b" clause_lower then "permission"
  else "general".

Definition high_importance_terms : list string :=
  ["constitutional"; "fundamental"; "essential"; "critical"; "mandatory";
   "shall"; "must"; "required"; "penalty"; "fine"; "damages"; "liable";
   "breach"; "default"; "violation"; "jurisdiction"; "court"; "legal"].

Definition medium_importance_terms : list string :=
  ["should"; "ought"; "recommended"; "advisable"; "appropriate";
   "reasonable"; "proper"; "suitable"; "necessary"].

Definition penalty_phrases : list string :=
  ["face penalties"; "result in penalties"; "penalties including"].

(** [sum(1 for term in terms if term in s)] *)
Definition count_in (terms : list string) (s : string) : nat :=
  List.length (filter (fun term => Py.contains term s) terms).

(** [_assess_clause_importance(clause_text)] *)
Definition _assess_clause_importance (clause_text : string) : string :=
  let clause_lower := Py.lower clause_text in
  let high_count := count_in high_importance_terms clause_lower in
  let medium_count := count_in medium_importance_terms clause_lower in
  let has_penalty_phrase := any_in penalty_phrases clause_lower in
  if (2 <=? high_count) || has_penalty_phrase then "high"
  else if (1 <=? high_count) || (2 <=? medium_count) then "medium"
  else "low".

(** [VeroBrixError]: the message and the error code; [str(e)] puts the code
    in brackets before the message. *)
Record VeroBrixError : Type := mkError {
  message : string;
  error_code : option string
}.

Definition error_str (e : VeroBrixError) : string :=
  match error_code e with
  | Some code => if Py.truthy code then "[" ++ code ++ "] " ++ message e else message e
  | None => message e
  end.

(** [AnalysisError(message)] *)
Definition AnalysisError (message : string) : VeroBrixError :=
  mkError message (Some "ANALYSIS_ERROR").

(** [s.isalpha()] *)
Definition isalpha (s : string) : bool :=
  Py.truthy s &&
  forallb (fun c => Py.isupper c || Py.islower c) (list_ascii_of_string s).

Definition positive_words : list string :=
  ["agree"; "consent"; "approve"; "accept"; "comply"; "honor"; "respect"].
Definition negative_words : list string :=
  ["deny"; "refuse"; "reject"; "violate"; "breach"; "default"; "fail"].
Definition legal_concern_words : list string :=
  ["liable"; "penalty"; "fine"; "damages"; "violation"; "breach"].

(** [word_counts.get(word, 0)], the counter being the list of the lowered
    alphabetic tokens. *)
Definition word_count (words : list string) (word : string) : nat :=
  List.length (filter (String.eqb word) words).

(** [sum(word_counts.get(word, 0) for word in vocabulary)] *)
Definition vocabulary_score (words vocabulary : list string) : nat :=
  list_sum (map (word_count words) vocabulary).

(** The dictionary returned by [analyze_sentiment]; [scores] and
    [word_counts] are absent from the result for a text without words. *)
Record Sentiment : Type := mkSentiment {
  sentiment : string;
  sentiment_confidence : Q;
  scores : option (Q * Q * Q);
  word_counts : option (nat * nat * nat * nat)
}.

(** The body of the [try] of [analyze_sentiment], on the tokens of the
    document. *)
Definition sentiment_of_tokens (toks : list string) : Sentiment :=
  let alpha := filter isalpha toks in
  let words := map Py.lower alpha in
  let positive_score := vocabulary_score words positive_words in
  let negative_score := vocabulary_score words negative_words in
  let concern_score := vocabulary_score words legal_concern_words in
  let total_words := List.length alpha in
  if total_words =? 0 then mkSentiment "neutral" 0.0 None None
  else
    let positive_ratio := (of_nat positive_score / of_nat total_words)%Q in
    let negative_ratio := (of_nat negative_score / of_nat total_words)%Q in
    let concern_ratio := (of_nat concern_score / of_nat total_words)%Q in
    let '(sentiment, confidence) :=
      if flt 0.02 concern_ratio then ("concerning", fmin 1.0 (concern_ratio * 10))
      else if flt (negative_ratio * 1.5) positive_ratio
           then ("positive", fmin 1.0 (positive_ratio * 10))
      else if flt (positive_ratio * 1.5) negative_ratio
           then ("negative", fmin 1.0 (negative_ratio * 10))
      else ("neutral", 0.5%Q) in
    mkSentiment sentiment confidence
      (Some (positive_ratio, negative_ratio, concern_ratio))
      (Some (positive_score, negative_score, concern_score, total_words)).

(** [analyze_sentiment(text)]: the result, or the [AnalysisError] raised.
    Without a pipeline the error raised inside the [try] is caught by its
    [except Exception] and raised again, wrapped. *)
Definition analyze_sentiment (self : NlpProcessor.Processor) (text : string)
  : Sentiment + VeroBrixError :=
  match NlpProcessor.nlp self with
  | None =>
      inr (AnalysisError
             ("Sentiment analysis failed: " ++
              error_str (AnalysisError "NLP processor not initialized")))
  | Some pipeline => inl (sentiment_of_tokens (NlpProcessor.tokens pipeline text))
  end.

End NlpClauses.

(** ** [modules/sovereignty_scorer.py], continued *)

Module ScorerDecision.

(** The value under the key [recommendations]: a list of strings, or
    another object, known by the text of [str(obj)]. *)
Inductive Recommendations : Type :=
| RList (items : list string)
| ROther (text : string).

(** The dictionary [decision_data]: each key may be missing. *)
Record Decision : Type := mkDecision {
  description : option string;
  reasoning : option string;
  recommendations : option Recommendations;
  remedy_type : option string
}.

Definition opt_list (o : option string) : list string :=
  match o with Some s => [s] | None => [] end.

(** [combined_text] *)
Definition combined_text (decision_data : Decision) : string :=
  let text_parts :=
    (opt_list (description decision_data) ++
     opt_list (reasoning decision_data) ++
     match recommendations decision_data with
     | Some (RList items) => items
     | Some (ROther text) => [text]
     | None => []
     end)%list in
  Py.join " " text_parts.

(** Whether the remedy type names an unlawful remedy. *)
Definition unlawful_remedy_type (decision_data : Decision) : bool :=
  match remedy_type decision_data with
  | Some t => any_in ["punitive"; "penalty"; "fine"; "punishment"] (Py.lower t)
  | None => false
  end.

Section Decision.

Variable set_order : list string -> list string.

(** [score_decision(decision_data)] *)
Definition score_decision (decision_data : Decision) : SovereigntyScorer.SovereigntyMetrics :=
  let metrics := SovereigntyScorer.score_text set_order (combined_text decision_data) in
  if unlawful_remedy_type decision_data then
    let remedy_score := (SovereigntyScorer.remedy_score metrics * 0.5)%Q in
    SovereigntyScorer.mkSovereigntyMetrics
      (SovereigntyScorer.language_score metrics * 0.4 + remedy_score * 0.3 +
       SovereigntyScorer.autonomy_score metrics * 0.3)%Q
      (SovereigntyScorer.language_score metrics)
      remedy_score
      (SovereigntyScorer.autonomy_score metrics)
      (SovereigntyScorer.servile_flags metrics)
      (SovereigntyScorer.sovereign_indicators metrics)
      (SovereigntyScorer.remedy_alignment metrics)
      (SovereigntyScorer.improvement_suggestions metrics)
      (SovereigntyScorer.sovereignty_level metrics)
  else metrics.

End Decision.

End ScorerDecision.

(** ** [modules/provenance_logger.py], continued *)

Module ProvenanceQueries.

Import Provenance.

(** [get_entries_by_agent(agent_name)] *)
Definition get_entries_by_agent (self : ProvenanceLogger) (name : string)
  : list ProvenanceEntry :=
  filter (fun entry => String.eqb (agent_name entry) name) (entries self).

(** [get_entries_by_type(action_type)] *)
Definition get_entries_by_type (self : ProvenanceLogger) (type : string)
  : list ProvenanceEntry :=
  filter (fun entry => String.eqb (action_type entry) type) (entries self).

(** The dictionary returned by [get_session_summary]; the last two keys are
    absent for a session without entries, and the average is [None] when no
    entry carries a score. *)
Record Summary : Type := mkSummary {
  summary_session_id : string;
  summary_start_time : string;
  entry_count : nat;
  agents : list string;
  action_types : list string;
  avg_sovereignty_score : option (option Q);
  duration_minutes : option Q
}.

(** [[entry.sovereignty_score for entry in self.entries
      if entry.sovereignty_score is not None]] *)
Fixpoint sovereignty_scores (l : list ProvenanceEntry) : list Q :=
  match l with
  | [] => []
  | entry :: l' =>
      match sovereignty_score entry with
      | Some x => x :: sovereignty_scores l'
      | None => sovereignty_scores l'
      end
  end.

Section Queries.

Variable rt : Runtime.

(** The order in which a [set] of strings is iterated, and
    [datetime.fromisoformat] in seconds. *)
Variable set_order : list string -> list string.
Variable fromisoformat : string -> Q.

(** [get_session_summary()]: the summary and the logger, whose clock was
    read once if there are entries. *)
Definition get_session_summary (self : ProvenanceLogger) : Summary * ProvenanceLogger :=
  match entries self with
  | [] =>
      (mkSummary (logger_session_id self) (session_start self) 0 [] [] None None, self)
  | _ =>
      let agents := set_order (map agent_name (entries self)) in
      let action_types := set_order (map action_type (entries self)) in
      let scores := sovereignty_scores (entries self) in
      let '(t, self') := read_clock rt self in
      (mkSummary (logger_session_id self) (session_start self)
         (List.length (entries self)) agents action_types
         (Some (match scores with
                | [] => None
                | _ => Some (fsum scores / of_nat (List.length scores))%Q
                end))
         (Some ((t - fromisoformat (session_start self)) / 60)%Q),
       self')
  end.

(** What [export_session] writes to the export file. *)
Record Export : Type := mkExport {
  session_info : Summary;
  export_entries : list (list (string * Json.value));
  export_integrity_check : Integrity
}.

(** [export_session(format_type)]: the path returned and the document
    written, or the [VeroBrixError] raised; and the logger afterwards. *)
Definition export_session (self : ProvenanceLogger) (format_type : string)
  : (string * Export + NlpClauses.VeroBrixError) * ProvenanceLogger :=
  if String.eqb format_type "json" then
    let '(summary, self') := get_session_summary self in
    let export_data :=
      mkExport summary (map asdict (entries self')) (verify_integrity rt self') in
    (inl ("logs/provenance/export_" ++ Py.take 8 (logger_session_id self') ++ ".json",
          export_data),
     self')
  else
    (inr (NlpClauses.mkError ("Unsupported export format: " ++ format_type) None), self).

(** What [close_session] adds to the session file. *)
Record Closing : Type := mkClosing {
  end_time : string;
  final_summary : Summary;
  closing_integrity_check : Integrity;
  status : string
}.

(** [close_session()]: the logger afterwards and the closing record put in
    the session file. *)
Definition close_session (self : ProvenanceLogger) : ProvenanceLogger * Closing :=
  let '(self, _) :=
    log_action rt self "session_close" "Provenance session closed" "ProvenanceLogger"
      no_kwargs in
  let '(summary, self) := get_session_summary self in
  let integrity := verify_integrity rt self in
  let '(t, self) := read_clock rt self in
  (self, mkClosing (isoformat rt t) summary integrity "closed").

End Queries.

End ProvenanceQueries.

(* ================================================================== *)
(** * Verification *)
(* ================================================================== *)

(** ** Facts about the string primitives *)

Section StringFacts.

Lemma startswith_empty (p : string) : Py.startswith EmptyString p = true -> p = EmptyString.
Proof. destruct p; simpl; [reflexivity | discriminate]. Qed.

(** A one-character needle is absent exactly when no character is it. *)
Lemma contains_char_cons (c b : ascii) (s : string) :
  Py.contains (String c EmptyString) (String b s) = false <->
  c <> b /\ Py.contains (String c EmptyString) s = false.
Proof.
  simpl. rewrite andb_true_r. destruct (Ascii.eqb_spec c b) as [e | n]; simpl.
  - split; [intros H; discriminate H | intros [H _]; contradiction].
  - split; [intros H; split; assumption | intros [_ H]; exact H].
Qed.

(** A text without the character [c] has no occurrence of a needle that
    holds [c]. *)
Lemma startswith_needs_char (c : ascii) (old : string) :
  In c (list_ascii_of_string old) ->
  forall s, Py.contains (String c EmptyString) s = false -> Py.startswith s old = false.
Proof.
  induction old as [| a old' IH]; intros Hin s Hs; [contradiction |].
  destruct s as [| b s']; [reflexivity |].
  apply contains_char_cons in Hs. destruct Hs as [Hcb Hs'].
  simpl. destruct (Ascii.eqb_spec a b) as [e | n]; [| reflexivity].
  subst b. destruct Hin as [Hac | Hin].
  - subst a. contradiction.
  - apply IH; assumption.
Qed.

Lemma contains_needs_char (c : ascii) (old : string) :
  In c (list_ascii_of_string old) ->
  forall s, Py.contains (String c EmptyString) s = false -> Py.contains old s = false.
Proof.
  intros Hin s. induction s as [| b s' IH]; intros Hs.
  - simpl. rewrite (startswith_needs_char c old Hin EmptyString Hs). reflexivity.
  - simpl. rewrite (startswith_needs_char c old Hin _ Hs). simpl.
    apply contains_char_cons in Hs. apply IH, Hs.
Qed.

(** Replacing a needle that does not occur changes nothing. *)
Lemma replace_go_absent (old new : string) :
  forall s, Py.contains old s = false -> Py.replace_go old new s 0 = s.
Proof.
  induction s as [| b s' IH]; intros Hs; [reflexivity |].
  simpl in Hs. apply orb_false_iff in Hs. destruct Hs as [Hp Hc].
  change (Py.replace_go old new (String b s') 0)
    with (if Py.startswith (String b s') old
          then new ++ Py.replace_go old new s' (String.length old - 1)
          else String b (Py.replace_go old new s' 0)).
  rewrite Hp, (IH Hc). reflexivity.
Qed.

Lemma replace_absent (s old new : string) :
  Py.contains old s = false -> Py.replace s old new = s.
Proof.
  intros Hs. destruct old as [| a old'].
  - destruct s; simpl in Hs; discriminate.
  - apply replace_go_absent, Hs.
Qed.

(** The needle is found in the whole if it is found after a prefix or
    before a suffix of it. *)
Lemma contains_lstrip (p s : string) :
  Py.contains p (Py.lstrip s) = true -> Py.contains p s = true.
Proof.
  induction s as [| b s' IH]; simpl; [trivial |].
  destruct (Py.isspace b); [| trivial].
  intros H. rewrite (IH H). apply orb_true_r.
Qed.

Lemma rstrip_cons (b : ascii) (s : string) :
  Py.rstrip (String b s) =
  match Py.rstrip s with
  | EmptyString => if Py.isspace b then EmptyString else String b EmptyString
  | r => String b r
  end.
Proof. reflexivity. Qed.

Lemma startswith_rstrip (p : string) :
  forall s, Py.startswith (Py.rstrip s) p = true -> Py.startswith s p = true.
Proof.
  induction p as [| a p' IH]; intros s H; [reflexivity |].
  destruct s as [| b s']; [exact H |].
  rewrite rstrip_cons in H. simpl.
  destruct (Py.rstrip s') as [| c r] eqn:Er.
  - destruct (Py.isspace b); [discriminate |].
    simpl in H. apply andb_true_iff in H. destruct H as [Hab H].
    apply startswith_empty in H. subst p'. rewrite Hab. reflexivity.
  - simpl in H. apply andb_true_iff in H. destruct H as [Hab H].
    rewrite Hab. apply IH. rewrite Er. exact H.
Qed.

Lemma contains_rstrip (p : string) :
  forall s, Py.contains p (Py.rstrip s) = true -> Py.contains p s = true.
Proof.
  induction s as [| b s' IH]; intros H; [exact H |].
  change (Py.contains p (String b s'))
    with (Py.startswith (String b s') p || Py.contains p s').
  destruct (Py.startswith (Py.rstrip (String b s')) p) eqn:Ep.
  - rewrite (startswith_rstrip _ _ Ep). reflexivity.
  - rewrite rstrip_cons in H, Ep.
    destruct (Py.rstrip s') as [| c r] eqn:Er.
    + destruct (Py.isspace b).
      * rewrite (IH H). apply orb_true_r.
      * simpl in H. rewrite Ep in H. simpl in H.
        destruct p; simpl in H; [| discriminate].
        reflexivity.
    + change (Py.contains p (String b (String c r)))
        with (Py.startswith (String b (String c r)) p || Py.contains p (String c r)) in H.
      rewrite Ep in H. simpl orb in H.
      rewrite (IH H). apply orb_true_r.
Qed.

Lemma contains_strip (p s : string) :
  Py.contains p s = false -> Py.contains p (Py.strip s) = false.
Proof.
  intros H. destruct (Py.contains p (Py.strip s)) eqn:E; [| reflexivity].
  unfold Py.strip in E. apply contains_rstrip, contains_lstrip in E. congruence.
Qed.

(** Stripping twice is stripping once. *)
Lemma rstrip_idem (s : string) : Py.rstrip (Py.rstrip s) = Py.rstrip s.
Proof.
  induction s as [| b s' IH]; [reflexivity |].
  rewrite rstrip_cons. destruct (Py.rstrip s') as [| c r] eqn:Er.
  - destruct (Py.isspace b) eqn:Eb; [reflexivity |].
    rewrite rstrip_cons. simpl. rewrite Eb. reflexivity.
  - rewrite rstrip_cons, IH. reflexivity.
Qed.

Lemma rstrip_head (b : ascii) (s : string) :
  Py.isspace b = false -> exists r, Py.rstrip (String b s) = String b r.
Proof.
  intros Hb. rewrite rstrip_cons. destruct (Py.rstrip s).
  - rewrite Hb. eexists; reflexivity.
  - eexists; reflexivity.
Qed.

Lemma lstrip_strip (s : string) : Py.lstrip (Py.strip s) = Py.strip s.
Proof.
  unfold Py.strip. induction s as [| b s' IH]; [reflexivity |].
  simpl Py.lstrip at 2 3. destruct (Py.isspace b) eqn:Eb; [exact IH |].
  destruct (rstrip_head b s' Eb) as [r Hr]. rewrite Hr. simpl. rewrite Eb. reflexivity.
Qed.

Lemma strip_idem (s : string) : Py.strip (Py.strip s) = Py.strip s.
Proof.
  unfold Py.strip at 1. rewrite lstrip_strip. unfold Py.strip. apply rstrip_idem.
Qed.

(** A property of every 8-bit character, checked on the 256 of them. *)
Lemma every_char (Q : ascii -> bool) :
  forallb (fun n => Q (ascii_of_nat n)) (seq 0 256) = true -> forall c, Q c = true.
Proof.
  intros H c. rewrite forallb_forall in H.
  rewrite <- (ascii_nat_embedding c). apply H.
  apply in_seq. split; [lia |]. apply nat_ascii_bounded.
Qed.

Lemma string_app_assoc (a b c : string) : (a ++ b) ++ c = a ++ b ++ c.
Proof.
  induction a as [| x a IH]; [reflexivity |]. cbn [append]. rewrite IH. reflexivity.
Qed.

Lemma string_app_nil_r (a : string) : a ++ EmptyString = a.
Proof.
  induction a as [| x a IH]; [reflexivity |]. cbn [append]. rewrite IH. reflexivity.
Qed.





End StringFacts.

(** ** Facts about the regular expressions *)

Section RegexFacts.

Variable icase : bool.
Variable A : Type.

(** A repetition that needs an iteration fails where its body fails. *)
Lemma rep_loop_body_fails body lo hi greedy (k : Re.cursor -> Re.captures -> option A)
    fuel c caps :
  (forall k', body c caps k' = None) ->
  0 < lo ->
  Re.rep_loop A body lo hi greedy k fuel 0 c caps = None.
Proof.
  intros Hbody Hlo.
  assert (Hstop : (lo <=? 0) = false) by (apply Nat.leb_gt; exact Hlo).
  destruct fuel as [| f]; simpl; rewrite Hstop.
  - destruct greedy; reflexivity.
  - destruct (Re.below 0 hi); [rewrite Hbody |]; destruct greedy; reflexivity.
Qed.

(** A class fails on a character that is none of its members, and at the
    end of the subject. *)
Lemma run_cls_fails items c caps (k : Re.cursor -> Re.captures -> option A) :
  (forall b s', Re.rest c = String b s' ->
     existsb (fun it => Re.citem_has icase it b) items = false) ->
  Re.run icase A (Re.Cls items) c caps k = None.
Proof.
  intros H. simpl. destruct (Re.rest c) as [| b s'] eqn:E; [reflexivity |].
  rewrite (H b s' eq_refl). reflexivity.
Qed.

End RegexFacts.

Lemma terminator_free_cons b s : terminator_free (String b s) ->
  ("." <> b /\ "!" <> b /\ "?" <> b)%char /\ terminator_free s.
Proof.
  intros (H1 & H2 & H3).
  apply contains_char_cons in H1, H2, H3. unfold terminator_free. tauto.
Qed.

Lemma splitter_eq :
  fst (Re.compile "[.!?]+\s+") =
  Re.Seq (Re.Rep (Re.Cls [Re.CLit "."; Re.CLit "!"; Re.CLit "?"]) 1 None true)
         (Re.Rep (Re.Cls [Re.CSpace]) 1 None true).
Proof. vm_compute. reflexivity. Qed.

Lemma match_here_no_terminator s pv i :
  terminator_free s ->
  Re.match_here false (fst (Re.compile "[.!?]+\s+")) (Re.mkCursor pv s i) = None.
Proof.
  intros H. rewrite splitter_eq. unfold Re.match_here.
  change (Re.run false Re.rmatch (Re.Seq ?r1 ?r2) ?c ?caps ?k)
    with (Re.run false Re.rmatch r1 c caps (fun c' caps' => Re.run false Re.rmatch r2 c' caps' k)).
  change (Re.run false Re.rmatch (Re.Rep ?r' ?lo ?hi ?g) ?c ?caps ?k)
    with (Re.rep_loop Re.rmatch (Re.run false Re.rmatch r') lo hi g k
            (S (String.length (Re.rest c))) 0 c caps).
  apply rep_loop_body_fails; [| lia].
  intros k'. apply run_cls_fails. intros b s' E. simpl in E. subst s.
  apply terminator_free_cons in H. destruct H as [(H1 & H2 & H3) _].
  apply Ascii.eqb_neq in H1, H2, H3.
  unfold existsb, Re.citem_has, Re.chr_eq. rewrite H1, H2, H3. reflexivity.
Qed.

Lemma scan_eq icase r s pv i :
  Re.scan icase r s pv i =
  match Re.match_here icase r (Re.mkCursor pv s i) with
  | Some m => Some m
  | None =>
      match s with
      | EmptyString => None
      | String a s' => Re.scan icase r s' (Some a) (S i)
      end
  end.
Proof. destruct s; reflexivity. Qed.

Lemma scan_no_terminator s : forall pv i,
  terminator_free s ->
  Re.scan false (fst (Re.compile "[.!?]+\s+")) s pv i = None.
Proof.
  induction s as [| b s' IH]; intros pv i H;
    rewrite scan_eq, (match_here_no_terminator _ pv i H); [reflexivity |].
  apply IH. apply terminator_free_cons in H. apply H.
Qed.

Lemma split_no_terminator s :
  terminator_free s -> Re.split "[.!?]+\s+" s = [s].
Proof.
  intros H. unfold Re.split, Re.finditer, Re.matches_from, Re.scan_from, Re.start_of.
  cbn [Re.rest Re.prev Re.pos].
  rewrite (scan_no_terminator s None 0 H). reflexivity.
Qed.

(** ** The segmenter *)

Section SegmenterFacts.

Lemma fold_replace_absent (l : list (nat * string)) (t : string) :
  (forall ia, In ia l -> Py.contains (snd ia) t = false) ->
  fold_left (fun t ia => Py.replace t (snd ia) (Jarvis.placeholder (fst ia))) l t = t.
Proof.
  induction l as [| ia l IH]; intros H; [reflexivity |].
  cbn [fold_left]. rewrite replace_absent by (apply H; left; reflexivity).
  apply IH. intros ib Hib. apply H. right. exact Hib.
Qed.

Lemma fold_restore_absent (l : list (nat * string)) (cs : list string) :
  (forall ia c, In ia l -> In c cs -> Py.contains (Jarvis.placeholder (fst ia)) c = false) ->
  fold_left
    (fun cs ia => map (fun clause => Py.replace clause (Jarvis.placeholder (fst ia)) (snd ia)) cs)
    l cs = cs.
Proof.
  induction l as [| ia l IH]; intros H; [reflexivity |].
  cbn [fold_left].
  assert (E : map (fun clause => Py.replace clause (Jarvis.placeholder (fst ia)) (snd ia)) cs = cs).
  { rewrite <- (map_id cs) at 2. apply map_ext_in. intros c Hc.
    apply replace_absent. apply H; [left; reflexivity | exact Hc]. }
  rewrite E. apply IH. intros ib c Hib Hc. apply H; [right; exact Hib | exact Hc].
Qed.

Lemma abbreviations_have_dot ia :
  In ia (enumerate Jarvis.abbreviations) ->
  In "."%char (list_ascii_of_string (snd ia)) /\ fst ia < 11.
Proof.
  assert (H : forallb (fun ia : nat * string =>
                         existsb (Ascii.eqb ".") (list_ascii_of_string (snd ia)) &&
                         (fst ia <? 11))
                      (enumerate Jarvis.abbreviations) = true) by (vm_compute; reflexivity).
  rewrite forallb_forall in H. intros Hin. specialize (H ia Hin).
  apply andb_true_iff in H. destruct H as [Hdot Hlt]. split.
  - apply existsb_exists in Hdot. destruct Hdot as (c & Hc & Ec).
    apply Ascii.eqb_eq in Ec. subst c. exact Hc.
  - apply Nat.ltb_lt. exact Hlt.
Qed.

End SegmenterFacts.

(** C9 (amended): for a text without [.], [!] and [?] that holds none of
    the placeholder tokens [__ABBREV_0__] .. [__ABBREV_10__], the segmenter
    returns exactly one clause, the text with its surrounding whitespace
    trimmed, when the text is not empty or whitespace-only, and no clause
    when it is. *)
Theorem extract_clauses_without_terminator (text : string) :
  Py.contains "." text = false ->
  Py.contains "!" text = false ->
  Py.contains "?" text = false ->
  (forall i, i < 11 -> Py.contains (Jarvis.placeholder i) text = false) ->
  (Py.strip text <> EmptyString -> Jarvis.extract_clauses text = [Py.strip text]) /\
  (Py.strip text = EmptyString -> Jarvis.extract_clauses text = []).
Proof.
  intros Hdot Hbang Hq Hph.
  assert (Hfree : terminator_free (Py.strip text)).
  { unfold terminator_free. repeat split; apply contains_strip; assumption. }
  assert (E : Jarvis.extract_clauses text =
              map Py.strip (filter (fun clause => Py.truthy (Py.strip clause)) [Py.strip text])).
  { unfold Jarvis.extract_clauses.
    rewrite fold_replace_absent.
    - rewrite (split_no_terminator _ Hfree).
      rewrite fold_restore_absent; [reflexivity |].
      intros ia c Hia [<- | []]. apply contains_strip, Hph.
      apply (abbreviations_have_dot ia Hia).
    - intros ia Hia. apply (contains_needs_char "."%char).
      + apply (abbreviations_have_dot ia Hia).
      + apply Hfree. }
  rewrite E. simpl. rewrite strip_idem.
  split; intros H.
  - destruct (Py.strip text) eqn:Es; [contradiction |].
    simpl. rewrite <- Es, strip_idem. reflexivity.
  - rewrite H. reflexivity.
Qed.

Lemma extract_clauses_without_terminator_witness :
  Jarvis.extract_clauses "  no punctuation here   " = ["no punctuation here"].
Proof.
  refine (proj1 (extract_clauses_without_terminator "  no punctuation here   "
                   eq_refl eq_refl eq_refl _) _).
  - intros i Hi.
    do 11 (destruct i as [| i]; [reflexivity |]). lia.
  - discriminate.
Defined.

(** C9: a blank text has no terminator, and no clause comes out of it. *)
Lemma extract_clauses_blank_counterexample :
  Py.contains "." "   " = false /\ Py.contains "!" "   " = false /\
  Py.contains "?" "   " = false /\
  Jarvis.extract_clauses "   " = [] /\
  Jarvis.extract_clauses "   " <> [Py.strip "   "].
Proof. repeat split; try reflexivity. discriminate. Qed.
(** ** The situation classifier *)

Section ClassifierFacts.

(** [max] over the items: where the winner stands. *)
Lemma max_item_go_first (items : list (string * nat)) : forall best,
  exists before after,
    best :: items = (before ++ max_item_go best items :: after)%list /\
    (forall x, In x before -> snd x < snd (max_item_go best items)) /\
    (forall x, In x after -> snd x <= snd (max_item_go best items)).
Proof.
  induction items as [| x items IH]; intros best.
  - exists [], []. simpl. repeat split; intros y [].
  - simpl. destruct (snd best <? snd x) eqn:E.
    + apply Nat.ltb_lt in E.
      destruct (IH x) as (before & after & Hsplit & Hb & Ha).
      exists (best :: before), after. repeat split.
      * simpl. f_equal. exact Hsplit.
      * intros y [<- | Hy]; [| apply Hb, Hy].
        destruct before as [| b before'].
        -- simpl in Hsplit. injection Hsplit as Hx _. rewrite <- Hx. exact E.
        -- simpl in Hsplit. injection Hsplit as Hx _. subst b.
           specialize (Hb x (or_introl eq_refl)). lia.
      * exact Ha.
    + apply Nat.ltb_ge in E.
      destruct (IH best) as (before & after & Hsplit & Hb & Ha).
      destruct before as [| b before'].
      * simpl in Hsplit. injection Hsplit as Hm Hrest.
        exists [], (x :: after). repeat split.
        -- simpl. f_equal; [exact Hm | f_equal; exact Hrest].
        -- intros y [].
        -- intros y [<- | Hy]; [rewrite <- Hm; exact E | apply Ha, Hy].
      * simpl in Hsplit. injection Hsplit as Hbest Hrest. subst b.
        exists (best :: x :: before'), after. repeat split.
        -- simpl. do 2 f_equal. exact Hrest.
        -- intros y [<- | [<- | Hy]].
           ++ apply Hb. left. reflexivity.
           ++ specialize (Hb best (or_introl eq_refl)). lia.
           ++ apply Hb. right. exact Hy.
        -- exact Ha.
Qed.

Lemma max_item_first (items : list (string * nat)) (m : string * nat) :
  max_item items = Some m ->
  exists before after,
    items = (before ++ m :: after)%list /\
    (forall x, In x before -> snd x < snd m) /\
    (forall x, In x after -> snd x <= snd m).
Proof.
  destruct items as [| x items]; simpl; [discriminate |].
  intros [= <-]. apply max_item_go_first.
Qed.

(** The two loops of the scoring, in closed form. *)
Lemma fold_count (f : string -> bool) (w : nat) (l : list string) : forall acc,
  fold_left (fun score x => if f x then score + w else score) l acc =
  acc + w * List.length (filter f l).
Proof.
  induction l as [| x l IH]; intros acc; simpl; [lia |].
  rewrite IH. destruct (f x); simpl; lia.
Qed.

Lemma type_score_presence (patterns : SituationInterpreter.Patterns) (text : string) :
  SituationInterpreter.type_score patterns text = presence_score patterns text.
Proof.
  unfold SituationInterpreter.type_score, presence_score.
  rewrite !fold_count. lia.
Qed.

Lemma type_scores_order (text : string) :
  map fst (SituationInterpreter.type_scores text) = registry_order.
Proof. reflexivity. Qed.

(** The outcome of [_identify_situation_type], by the position of the
    winner in the score table. *)
Lemma identify_situation_type_first (text : string) :
  let scores := SituationInterpreter.type_scores text in
  let r := SituationInterpreter._identify_situation_type text in
  (r = "general" /\ forall x, In x scores -> snd x = 0) \/
  (exists before s after,
     scores = (before ++ (r, s) :: after)%list /\ 0 < s /\
     (forall x, In x before -> snd x < s) /\
     (forall x, In x after -> snd x <= s)).
Proof.
  intros scores r. subst r. unfold SituationInterpreter._identify_situation_type.
  fold scores. destruct (max_item scores) as [m |] eqn:Em.
  - destruct (max_item_first scores m Em) as (before & after & Hsplit & Hb & Ha).
    destruct (0 <? snd m) eqn:E.
    + right. apply Nat.ltb_lt in E. exists before, (snd m), after.
      rewrite <- surjective_pairing. auto.
    + left. apply Nat.ltb_ge in E. split; [reflexivity |].
      intros x Hx. rewrite Hsplit in Hx. apply in_app_or in Hx.
      destruct Hx as [Hx | [<- | Hx]].
      * specialize (Hb x Hx). lia.
      * lia.
      * specialize (Ha x Hx). lia.
  - left. split; [reflexivity |]. destruct scores; [intros x [] | discriminate].
Qed.

End ClassifierFacts.

(** C4 (amended): the score of a situation type is one point for each of
    its keywords that occurs in the text and three for each of its phrases
    that does; the type returned has the highest score when that score is
    positive, and is [general] when every score is zero. *)
Theorem identify_situation_type_scoring (text : string) :
  SituationInterpreter.type_scores text =
    map (fun sp => (fst sp, presence_score (snd sp) text))
        SituationInterpreter.situation_patterns /\
  ((SituationInterpreter._identify_situation_type text = "general" /\
    forall x, In x (SituationInterpreter.type_scores text) -> snd x = 0) \/
   (exists s,
      In (SituationInterpreter._identify_situation_type text, s)
         (SituationInterpreter.type_scores text) /\
      0 < s /\
      forall x, In x (SituationInterpreter.type_scores text) -> snd x <= s)).
Proof.
  split.
  - unfold SituationInterpreter.type_scores. apply map_ext. intros sp.
    rewrite type_score_presence. reflexivity.
  - destruct (identify_situation_type_first text)
      as [H | (before & s & after & Hsplit & Hs & Hb & Ha)].
    + left. exact H.
    + right. exists s. repeat split.
      * rewrite Hsplit. apply in_or_app. right. left. reflexivity.
      * exact Hs.
      * intros x Hx. rewrite Hsplit in Hx. apply in_app_or in Hx.
        destruct Hx as [Hx | [<- | Hx]].
        -- specialize (Hb x Hx). lia.
        -- simpl. lia.
        -- apply Ha, Hx.
Qed.

(** C4: on this text the keyword [fee] occurs twice and [traffic] once.
    Counting occurrences gives [fee_demand] two points and the type
    [fee_demand]; the code gives [fee_demand] one point, which ties with
    [traffic_stop], and returns [traffic_stop]. *)
Lemma identify_situation_type_occurrence_counterexample :
  SituationInterpreter.type_scores "fee fee traffic" =
    [("traffic_stop", 1); ("fee_demand", 1); ("court_summons", 0);
     ("contract_dispute", 0); ("administrative_action", 0); ("property_dispute", 0)] /\
  count_occurrences "fee" "fee fee traffic" = 2 /\
  SituationInterpreter._identify_situation_type "fee fee traffic" = "traffic_stop" /\
  occurrence_type "fee fee traffic" = "fee_demand".
Proof. repeat split; vm_compute; reflexivity. Qed.

(** C10: when several situation types share the highest positive score,
    [interpret_situation] returns the one that comes first in the registry
    order: every type before the returned one has a strictly lower score, and
    no type after it has a higher one. *)
Theorem interpret_situation_tie_break (now input_text : string)
    (context : option (list (string * string))) :
  let scores :=
    SituationInterpreter.type_scores (SituationInterpreter._normalize_text input_text) in
  let r := SituationInterpreter.type
             (SituationInterpreter.interpret_situation now input_text context) in
  map fst scores = registry_order /\
  ((r = "general" /\ forall x, In x scores -> snd x = 0) \/
   (exists before s after,
      scores = (before ++ (r, s) :: after)%list /\ 0 < s /\
      (forall x, In x before -> snd x < s) /\
      (forall x, In x after -> snd x <= s))).
Proof.
  intros scores r. split; [apply type_scores_order |].
  apply identify_situation_type_first.
Qed.

(** A tie between [traffic_stop] and [fee_demand] goes to [traffic_stop],
    also when the [fee_demand] keyword comes first in the text. *)
Example tie_goes_to_traffic_stop :
  SituationInterpreter.type
    (SituationInterpreter.interpret_situation "2025-01-17T10:00:00" "Fee and traffic" None)
  = "traffic_stop".
Proof. vm_compute. reflexivity. Qed.

(** ** The alignment scorer *)

Section ScorerFacts.

Local Open Scope Q_scope.

Lemma fmin_le_l (a b : Q) : fmin a b <= a.
Proof.
  unfold fmin. destruct (Qle_bool a b) eqn:E.
  - apply Qle_refl.
  - apply Qlt_le_weak, Qnot_le_lt. intros H. apply Qle_bool_iff in H. congruence.
Qed.

Lemma fmin_ge (a b c : Q) : c <= a -> c <= b -> c <= fmin a b.
Proof. intros Ha Hb. unfold fmin. destruct (Qle_bool a b); assumption. Qed.

Lemma fmax_ge_l (a b : Q) : a <= fmax a b.
Proof.
  unfold fmax. destruct (Qle_bool b a) eqn:E.
  - apply Qle_refl.
  - apply Qlt_le_weak, Qnot_le_lt. intros H. apply Qle_bool_iff in H. congruence.
Qed.

Lemma fmax_le (a b c : Q) : a <= c -> b <= c -> fmax a b <= c.
Proof. intros Ha Hb. unfold fmax. destruct (Qle_bool b a); assumption. Qed.

Lemma of_nat_nonneg (n : nat) : 0 <= of_nat n.
Proof. unfold of_nat. rewrite <- (Zle_Qle 0). apply Nat2Z.is_nonneg. Qed.

Lemma of_nat_pos (n : nat) : (0 < n)%nat -> 0 < of_nat n.
Proof. intros H. unfold of_nat. rewrite <- (Zlt_Qlt 0). lia. Qed.

Lemma of_nat_le (m n : nat) : (m <= n)%nat -> of_nat m <= of_nat n.
Proof. intros H. unfold of_nat. rewrite <- Zle_Qle. lia. Qed.

(** A ratio of a part to a positive whole. *)
Lemma ratio_unit (a b : Q) : 0 <= a -> a <= b -> 0 < b -> 0 <= a / b <= 1.
Proof.
  intros Ha Hab Hb. split.
  - apply Qle_shift_div_l; [exact Hb |]. rewrite Qmult_0_l. exact Ha.
  - apply Qle_shift_div_r; [exact Hb |]. rewrite Qmult_1_l. exact Hab.
Qed.

Lemma div_nonneg (a b : Q) : 0 <= a -> 0 <= b -> 0 <= a / b.
Proof.
  intros Ha Hb. unfold Qdiv. apply Qmult_le_0_compat; [exact Ha |].
  apply Qinv_le_0_compat. exact Hb.
Qed.

Lemma fold_left_nonneg {X : Type} (f : Q -> X -> Q) (l : list X) :
  (forall acc x, 0 <= acc -> 0 <= f acc x) ->
  forall acc, 0 <= acc -> 0 <= fold_left f l acc.
Proof.
  intros Hf. induction l as [| x l IH]; intros acc Hacc; simpl; [exact Hacc |].
  apply IH, Hf, Hacc.
Qed.

Lemma autonomy_matches_nonneg (text : string) :
  0 <= SovereigntyScorer.autonomy_matches text.
Proof.
  unfold SovereigntyScorer.autonomy_matches.
  apply fold_left_nonneg; [| apply Qle_refl].
  intros acc [category patterns] Hacc.
  apply fold_left_nonneg; [| exact Hacc].
  intros acc' pattern Hacc'.
  set (m := of_nat _). assert (Hm : 0 <= m) by apply of_nat_nonneg.
  destruct (String.eqb category "self_determination").
  - lra.
  - destruct (String.eqb category "non_consent"); lra.
Qed.

Lemma language_score_unit flags indicators n :
  0 <= SovereigntyScorer._calculate_language_score flags indicators n <= 1.
Proof.
  unfold SovereigntyScorer._calculate_language_score. split.
  - eapply Qle_trans; [| apply fmax_ge_l]. lra.
  - apply fmax_le; [lra |]. eapply Qle_trans; [apply fmin_le_l |]. lra.
Qed.

Lemma remedy_score_unit (text : string) :
  0 <= SovereigntyScorer.score (SovereigntyScorer._analyze_remedy_alignment text) <= 1.
Proof.
  unfold SovereigntyScorer._analyze_remedy_alignment. cbn [SovereigntyScorer.score].
  set (l := List.length _). set (u := List.length _).
  destruct (l + u =? 0)%nat eqn:E.
  - lra.
  - apply Nat.eqb_neq in E. apply ratio_unit.
    + apply of_nat_nonneg.
    + apply of_nat_le. lia.
    + apply of_nat_pos. lia.
Qed.

Lemma autonomy_score_unit (text : string) :
  0 <= SovereigntyScorer._calculate_autonomy_score text <= 1.
Proof.
  unfold SovereigntyScorer._calculate_autonomy_score.
  set (a := SovereigntyScorer.autonomy_matches text).
  set (d := of_nat (SovereigntyScorer.dependency_matches text)).
  assert (Ha : 0 <= a) by apply autonomy_matches_nonneg.
  assert (Hd : 0 <= d) by apply of_nat_nonneg.
  destruct (Qeq_bool (a + d) 0); [lra |]. split.
  - apply fmin_ge; [lra |]. apply div_nonneg; lra.
  - eapply Qle_trans; [apply fmin_le_l |]. lra.
Qed.

(** The three levels by the thresholds. *)
Lemma determine_sovereignty_level_spec (score : Q) :
  (0.75 <= score -> SovereigntyScorer._determine_sovereignty_level score = "Sovereign") /\
  (0.5 <= score -> score < 0.75 ->
   SovereigntyScorer._determine_sovereignty_level score = "Transitional") /\
  (score < 0.5 -> SovereigntyScorer._determine_sovereignty_level score = "Servile").
Proof.
  unfold SovereigntyScorer._determine_sovereignty_level.
  destruct (Qle_bool 0.75 score) eqn:E1; [| destruct (Qle_bool 0.5 score) eqn:E2].
  - apply Qle_bool_iff in E1. repeat split; intros; try reflexivity; lra.
  - apply Qle_bool_iff in E2.
    assert (~ 0.75 <= score) by (intros Hc; apply Qle_bool_iff in Hc; congruence).
    repeat split; intros; try reflexivity; lra.
  - assert (~ 0.75 <= score) by (intros Hc; apply Qle_bool_iff in Hc; congruence).
    assert (~ 0.5 <= score) by (intros Hc; apply Qle_bool_iff in Hc; congruence).
    repeat split; intros; try reflexivity; lra.
Qed.

End ScorerFacts.

Section BlankFacts.

Lemma lstrip_whitespace_only (s : string) :
  whitespace_only s = true -> Py.lstrip s = EmptyString.
Proof.
  unfold whitespace_only. induction s as [| c s IH]; simpl; [reflexivity |].
  intros H. apply andb_true_iff in H. destruct H as [Hc Hs]. rewrite Hc. apply IH, Hs.
Qed.

Lemma lstrip_not_whitespace_only (s : string) :
  whitespace_only s = false ->
  exists c r, Py.lstrip s = String c r /\ Py.isspace c = false.
Proof.
  unfold whitespace_only. induction s as [| c s IH]; simpl; [discriminate |].
  intros H. destruct (Py.isspace c) eqn:Ec.
  - apply IH. exact H.
  - exists c, s. split; [reflexivity | exact Ec].
Qed.

(** The test [not text or not text.strip()] holds exactly for the empty and
    the whitespace-only texts. *)
Lemma blank_test (text : string) :
  negb (Py.truthy text) || negb (Py.truthy (Py.strip text)) = whitespace_only text.
Proof.
  destruct (whitespace_only text) eqn:E.
  - unfold Py.strip. rewrite (lstrip_whitespace_only _ E). apply orb_true_r.
  - destruct (lstrip_not_whitespace_only _ E) as (c & r & Hl & Hc).
    unfold Py.strip. rewrite Hl.
    destruct (rstrip_head c r Hc) as [r' Hr]. rewrite Hr.
    destruct text; [discriminate | reflexivity].
Qed.

End BlankFacts.

Section ScoreText.

Local Open Scope Q_scope.

Variable set_order : list string -> list string.

(** C7: for every input text the four scores of [score_text] lie in the
    closed interval from 0 to 1. *)
Theorem score_text_scores_in_unit_interval (text : string) :
  let m := SovereigntyScorer.score_text set_order text in
  0 <= SovereigntyScorer.overall_score m <= 1 /\
  0 <= SovereigntyScorer.language_score m <= 1 /\
  0 <= SovereigntyScorer.remedy_score m <= 1 /\
  0 <= SovereigntyScorer.autonomy_score m <= 1.
Proof.
  unfold SovereigntyScorer.score_text. rewrite blank_test.
  destruct (whitespace_only text).
  - cbn. lra.
  - cbn [SovereigntyScorer.overall_score SovereigntyScorer.language_score
         SovereigntyScorer.remedy_score SovereigntyScorer.autonomy_score].
    set (l := SovereigntyScorer._calculate_language_score _ _ _).
    set (r := SovereigntyScorer.score _).
    set (a := SovereigntyScorer._calculate_autonomy_score _).
    assert (Hl : 0 <= l <= 1) by apply language_score_unit.
    assert (Hr : 0 <= r <= 1) by apply remedy_score_unit.
    assert (Ha : 0 <= a <= 1) by apply autonomy_score_unit.
    lra.
Qed.

(** C5: for an empty or whitespace-only text [score_text] returns the
    neutral result: the four scores are 0.5, there is no flag and no
    indicator, and the only suggestion says that no text was provided.  The
    function is total: it returns on every text. *)
Theorem score_text_blank_is_neutral (text : string) :
  whitespace_only text = true ->
  let m := SovereigntyScorer.score_text set_order text in
  SovereigntyScorer.overall_score m = 0.5 /\
  SovereigntyScorer.language_score m = 0.5 /\
  SovereigntyScorer.remedy_score m = 0.5 /\
  SovereigntyScorer.autonomy_score m = 0.5 /\
  SovereigntyScorer.servile_flags m = [] /\
  SovereigntyScorer.sovereign_indicators m = [] /\
  SovereigntyScorer.improvement_suggestions m = ["No text provided for analysis"] /\
  List.length (SovereigntyScorer.improvement_suggestions m) = 1%nat.
Proof.
  intros H. unfold SovereigntyScorer.score_text. rewrite blank_test, H.
  cbn. repeat split; reflexivity.
Qed.

(** X29: for a text that is not empty or whitespace-only the level is one
    of [Sovereign], [Transitional], [Servile] and follows the overall score
    by the thresholds 0.75 and 0.5; for an empty or whitespace-only text the
    level is [Unknown]. *)
Theorem score_text_sovereignty_level (text : string) :
  let m := SovereigntyScorer.score_text set_order text in
  (whitespace_only text = true -> SovereigntyScorer.sovereignty_level m = "Unknown") /\
  (whitespace_only text = false ->
   In (SovereigntyScorer.sovereignty_level m) ["Sovereign"; "Transitional"; "Servile"] /\
   (0.75 <= SovereigntyScorer.overall_score m ->
    SovereigntyScorer.sovereignty_level m = "Sovereign") /\
   (0.5 <= SovereigntyScorer.overall_score m -> SovereigntyScorer.overall_score m < 0.75 ->
    SovereigntyScorer.sovereignty_level m = "Transitional") /\
   (SovereigntyScorer.overall_score m < 0.5 ->
    SovereigntyScorer.sovereignty_level m = "Servile")).
Proof.
  unfold SovereigntyScorer.score_text. rewrite blank_test.
  destruct (whitespace_only text).
  - split; [reflexivity | discriminate].
  - split; [discriminate |]. intros _.
    cbn [SovereigntyScorer.overall_score SovereigntyScorer.sovereignty_level].
    set (o := (_ * 0.4 + _ * 0.3 + _ * 0.3)%Q).
    split; [| apply determine_sovereignty_level_spec].
    unfold SovereigntyScorer._determine_sovereignty_level.
    destruct (Qle_bool 0.75 o); [| destruct (Qle_bool 0.5 o)]; simpl; auto.
Qed.

End ScoreText.

Lemma score_text_blank_is_neutral_witness :
  let m := SovereigntyScorer.score_text insertion_order (String " " (String Py.tab " ")) in
  SovereigntyScorer.overall_score m = 0.5%Q /\
  SovereigntyScorer.language_score m = 0.5%Q /\
  SovereigntyScorer.remedy_score m = 0.5%Q /\
  SovereigntyScorer.autonomy_score m = 0.5%Q /\
  SovereigntyScorer.servile_flags m = [] /\
  SovereigntyScorer.sovereign_indicators m = [] /\
  SovereigntyScorer.improvement_suggestions m = ["No text provided for analysis"] /\
  List.length (SovereigntyScorer.improvement_suggestions m) = 1%nat.
Proof.
  apply (score_text_blank_is_neutral insertion_order (String " " (String Py.tab " "))).
  reflexivity.
Defined.

(** C2: at the empty text [score_text] returns the level [Unknown], which
    is none of [Sovereign], [Transitional], [Servile], the three values that
    the comment on the field of [SovereigntyMetrics] lists. *)
Lemma score_text_empty_level_unknown :
  SovereigntyScorer.sovereignty_level (SovereigntyScorer.score_text insertion_order "")
    = "Unknown" /\
  ~ In (SovereigntyScorer.sovereignty_level (SovereigntyScorer.score_text insertion_order ""))
       ["Sovereign"; "Transitional"; "Servile"].
Proof.
  split; [reflexivity |]. simpl. intros [H | [H | [H | []]]]; discriminate H.
Qed.

(** A text made of a no-break space is whitespace-only for [strip], and
    takes the early return as the empty text does. *)
Example score_text_no_break_space :
  SovereigntyScorer.sovereignty_level
    (SovereigntyScorer.score_text insertion_order (String (ascii_of_nat 160) EmptyString))
    = "Unknown".
Proof. reflexivity. Qed.

(** Scenario B of the specification, evaluated. *)
Lemma score_text_sovereignty_level_witness :
  SovereigntyScorer.sovereignty_level
    (SovereigntyScorer.score_text insertion_order
       "I do not consent to jurisdiction and reserve all rights.") = "Sovereign".
Proof.
  apply (score_text_sovereignty_level insertion_order
           "I do not consent to jurisdiction and reserve all rights.").
  - reflexivity.
  - vm_compute. discriminate.
Defined.
(** ** Idempotence of the analysis stages *)

Section StageFacts.

Import Stages.



End StageFacts.


(** ** Pattern-pair contradictions *)

Section ContradictionFacts.

Lemma check_patterns_confidence (patterns : list (string * string))
    (sent1 sent2 full_text : string) (p : NlpProcessor.ContradictionPair) :
  NlpProcessor.check_patterns patterns sent1 sent2 full_text = Some p ->
  NlpProcessor.confidence p = 0.8%Q.
Proof.
  induction patterns as [| [pattern1 pattern2] patterns IH]; simpl; [discriminate |].
  destruct (Re.search pattern1 sent1 true); [| exact IH].
  destruct (Re.search pattern2 sent2 true); [| exact IH].
  destruct (negb _ && negb _); [| exact IH].
  intros [= <-]. reflexivity.
Qed.

Lemma pairwise_in {X Y : Type} (body : X -> X -> list Y) (l : list X) (y : Y) :
  In y (NlpProcessor.pairwise body l) -> exists a b, In y (body a b).
Proof.
  induction l as [| a l IH]; simpl; [intros [] |].
  intros H. apply in_app_or in H. destruct H as [H | H].
  - apply in_flat_map in H. destruct H as (b & _ & H). exists a, b. exact H.
  - apply IH, H.
Qed.

Lemma pattern_contradictions_confidence (sentences : list string) (text : string)
    (p : NlpProcessor.ContradictionPair) :
  In p (NlpProcessor.pattern_contradictions sentences text) ->
  NlpProcessor.confidence p = 0.8%Q.
Proof.
  intros H. apply pairwise_in in H. destruct H as (a & b & H).
  destruct (NlpProcessor._check_sentence_contradiction a b text) as [c |] eqn:E;
    [| destruct H].
  destruct H as [<- | []]. apply (check_patterns_confidence _ _ _ _ _ E).
Qed.

End ContradictionFacts.

(** C6: on the text of scenario A, whether the sentences come from the
    fallback splitter (no pipeline) or from a pipeline that splits the text
    into its two sentences, [detect_contradictions] returns a pair whose
    first statement contains [shall appear] and whose second contains
    [shall not appear]; and every pair produced by the pattern check has
    confidence 0.8. *)
Theorem detect_contradictions_scenario_A :
  (forall self,
     (NlpProcessor.nlp self = None \/
      NlpProcessor._split_into_sentences self scenario_A = scenario_A_sentences) ->
     exists p,
       In p (NlpProcessor.detect_contradictions self scenario_A) /\
       Py.contains "shall appear" (NlpProcessor.statement1 p) = true /\
       Py.contains "shall not appear" (NlpProcessor.statement2 p) = true /\
       NlpProcessor.confidence p = 0.8%Q) /\
  (forall sent1 sent2 full_text p,
     NlpProcessor._check_sentence_contradiction sent1 sent2 full_text = Some p ->
     NlpProcessor.confidence p = 0.8%Q) /\
  (forall sentences text p,
     In p (NlpProcessor.pattern_contradictions sentences text) ->
     NlpProcessor.confidence p = 0.8%Q).
Proof.
  split; [| split].
  - intros self Hs.
    assert (Hp : exists p,
               In p (NlpProcessor.pattern_contradictions
                       (NlpProcessor._split_into_sentences self scenario_A) scenario_A) /\
               Py.contains "shall appear" (NlpProcessor.statement1 p) = true /\
               Py.contains "shall not appear" (NlpProcessor.statement2 p) = true /\
               NlpProcessor.confidence p = 0.8%Q).
    { destruct Hs as [Hn | Hs].
      - unfold NlpProcessor._split_into_sentences. rewrite Hn.
        eexists. split; [vm_compute; left; reflexivity |].
        repeat split; reflexivity.
      - rewrite Hs.
        eexists. split; [vm_compute; left; reflexivity |].
        repeat split; reflexivity. }
    destruct Hp as (p & Hin & H1 & H2 & H3). exists p.
    repeat split; try assumption.
    unfold NlpProcessor.detect_contradictions.
    destruct (NlpProcessor.enable_contradiction_detection self);
      [apply in_or_app; left |]; exact Hin.
  - intros sent1 sent2 full_text p. apply check_patterns_confidence.
  - apply pattern_contradictions_confidence.
Qed.

Lemma detect_contradictions_scenario_A_witness :
  exists p,
    In p (NlpProcessor.detect_contradictions (NlpProcessor.mkProcessor None true) scenario_A) /\
    Py.contains "shall appear" (NlpProcessor.statement1 p) = true /\
    Py.contains "shall not appear" (NlpProcessor.statement2 p) = true /\
    NlpProcessor.confidence p = 0.8%Q.
Proof.
  apply (proj1 detect_contradictions_scenario_A). left. reflexivity.
Defined.
(** ** The provenance ledger *)

Section EncodingFacts.






End EncodingFacts.

Section HashedText.

Import Provenance.

Variable rt : Runtime.






End HashedText.

Section LedgerFacts.

Import Provenance.

Variable rt : Runtime.

Lemma generate_entry_hash_with_hash (e : ProvenanceEntry) (h : option string) :
  _generate_entry_hash rt (with_hash e h) = _generate_entry_hash rt e.
Proof. reflexivity. Qed.

Lemma generate_hash_truthy (c : Content) : Py.truthy (_generate_hash rt c) = true.
Proof.
  unfold _generate_hash, Sha256.hexdigest.
  destruct (Sha256.absorb _) as [[[[[[[a b] c0] d] e] f] g] h].
  reflexivity.
Qed.

Lemma verify_step_sealed (acc : nat * list Corrupted * list string) (e : ProvenanceEntry) :
  sealed rt e ->
  verify_step rt acc e = (S (fst (fst acc)), snd (fst acc), snd acc).
Proof.
  intros H. destruct acc as [[v c] m]. unfold verify_step. rewrite H.
  unfold _generate_entry_hash at 1. rewrite generate_hash_truthy.
  cbn [negb]. rewrite String.eqb_refl. reflexivity.
Qed.

Lemma verify_fold_sealed (l : list ProvenanceEntry) :
  Forall (sealed rt) l ->
  forall v c m,
    fold_left (verify_step rt) l (v, c, m) = (v + List.length l, c, m).
Proof.
  induction 1 as [| e l He Hl IH]; intros v c m; cbn [fold_left List.length].
  - f_equal. f_equal. lia.
  - rewrite (verify_step_sealed _ _ He). cbn [fst snd]. rewrite IH.
    f_equal. f_equal. lia.
Qed.

(** What [log_action] adds to the logger: one entry, sealed, with the
    fields it was given and the identifier it returns. *)
Lemma log_action_appends (self : ProvenanceLogger)
    (action_type_ action_description_ agent_name_ : string) (kw : Kwargs) :
  exists e,
    entries (fst (log_action rt self action_type_ action_description_ agent_name_ kw)) =
      (entries self ++ [e])%list /\
    sealed rt e /\
    entry_id e = snd (log_action rt self action_type_ action_description_ agent_name_ kw) /\
    action_type e = action_type_ /\
    action_description e = action_description_ /\
    agent_name e = agent_name_ /\
    confidence_level e = kw_confidence_level kw /\
    parent_entry_id e = kw_parent_entry_id kw.
Proof.
  unfold log_action, _persist_entry, draw_uuid, read_clock.
  cbn [fst snd entries logger_session_id session_start master_log session_file
       uuid_draws clock_reads].
  eexists. split; [reflexivity |].
  unfold sealed. rewrite generate_entry_hash_with_hash.
  repeat split; reflexivity.
Qed.




Lemma percentage_all (n : nat) :
  (0 < n)%nat -> (of_nat n / of_nat n * 100 == 100)%Q.
Proof.
  intros H. assert (Hn : (0 < of_nat n)%Q) by (apply of_nat_pos; exact H).
  field. intros E. rewrite E in Hn. apply (Qlt_irrefl 0). exact Hn.
Qed.

End LedgerFacts.
Section LedgerClaims.

Import Provenance.

Variable rt : Runtime.


(** [track_operation] step by step. *)
Lemma track_operation_eq (self : ProvenanceLogger)
    (operation_name agent_name_ : string) (kwargs : Kwargs) (body : Body) :
  track_operation rt self operation_name agent_name_ kwargs body =
  let start_time := fst (read_clock rt self) in
  let started :=
    log_action rt (snd (read_clock rt self)) "operation_start"
      ("Started operation: " ++ operation_name) agent_name_ kwargs in
  let after_body := body (snd started) (fst started) in
  let t := fst (read_clock rt (fst after_body)) in
  let self' := snd (read_clock rt (fst after_body)) in
  match snd after_body with
  | Returned =>
      (fst (log_action rt self' "operation_complete"
              ("Completed operation: " ++ operation_name ++ " (duration: " ++
               format_2f rt (t - start_time) ++ "s)")
              agent_name_
              (mkKwargs None None None None None (Some 1.0%Q) None
                 (Some (snd started)) None)),
       Returned)
  | Raised e =>
      if is_Exception e then
        (fst (log_action rt self' "operation_error"
                ("Failed operation: " ++ operation_name ++ " - " ++ exc_str e ++
                 " (duration: " ++ format_2f rt (t - start_time) ++ "s)")
                agent_name_
                (mkKwargs None None None None None (Some 0.0%Q) None
                   (Some (snd started)) None)),
         Raised e)
      else (fst after_body, Raised e)
  end.
Proof.
  unfold track_operation.
  unfold read_clock at 1 2 3. cbn [fst snd].
  destruct (log_action rt _ "operation_start" _ _ _) as [s1 id1]. cbn [fst snd].
  destruct (body id1 s1) as [s2 [| e]]; cbn [fst snd].
  - unfold read_clock. cbn [fst snd].
    destruct (log_action rt _ "operation_complete" _ _ _). reflexivity.
  - destruct (is_Exception e); [| reflexivity].
    unfold read_clock. cbn [fst snd].
    destruct (log_action rt _ "operation_error" _ _ _). reflexivity.
Qed.


End LedgerClaims.



(** A body that raises a [ValueError] leaves a start entry and an error
    entry. *)
Example track_operation_value_error :
  let body : Provenance.Body :=
    fun _ self => (self, Provenance.Raised (Provenance.mkException true "bad value")) in
  let final :=
    Provenance.track_operation example_runtime (Provenance.init example_runtime)
      "analysis" "System" Provenance.no_kwargs body in
  map (fun e => (Provenance.action_type e, Provenance.action_description e,
                 Provenance.confidence_level e))
      (Provenance.entries (fst final)) =
  [ ("operation_start", "Started operation: analysis", None);
    ("operation_error", "Failed operation: analysis - bad value (duration: 0.00s)",
     Some 0.0%Q) ].
Proof. vm_compute. reflexivity. Qed.
(* ================================================================== *)
(** * Further properties *)
(* ================================================================== *)

(** ** The segmenter and the keyword contradictions *)

Section JarvisMore.

Lemma strip_whitespace_only (s : string) :
  whitespace_only s = true -> Py.strip s = EmptyString.
Proof. intros H. unfold Py.strip. rewrite (lstrip_whitespace_only s H). reflexivity. Qed.

Lemma extract_clauses_forall_trimmed (text : string) :
  Forall (fun clause => clause <> EmptyString /\ Py.strip clause = clause)
         (Jarvis.extract_clauses text).
Proof.
  unfold Jarvis.extract_clauses.
  set (clauses := fold_left _ _ (Re.split _ _)). clearbody clauses.
  induction clauses as [| c clauses IH]; simpl; [constructor |].
  destruct (Py.truthy (Py.strip c)) eqn:E; [| exact IH].
  simpl. constructor; [| exact IH]. split.
  - intros H. rewrite H in E. discriminate E.
  - apply strip_idem.
Qed.

Lemma extract_clauses_of_blank (text : string) :
  whitespace_only text = true -> Jarvis.extract_clauses text = [].
Proof.
  intros H. unfold Jarvis.extract_clauses. rewrite (strip_whitespace_only text H).
  vm_compute. reflexivity.
Qed.

(** X1: every clause returned by [extract_clauses] is non-empty and has no
    leading or trailing whitespace. *)
Theorem extract_clauses_trimmed_nonempty (text : string) :
  Forall (fun clause => clause <> EmptyString /\ Py.strip clause = clause)
         (Jarvis.extract_clauses text).
Proof. exact (extract_clauses_forall_trimmed text). Qed.

(** X2: an empty or whitespace-only text has no clause, whatever
    whitespace it is made of. *)
Theorem extract_clauses_blank (text : string) :
  whitespace_only text = true -> Jarvis.extract_clauses text = [].
Proof. exact (extract_clauses_of_blank text). Qed.

Lemma extract_clauses_blank_witness :
  Jarvis.extract_clauses (String Py.tab (String " " (String Re.newline ""))) = [].
Proof.
  apply (extract_clauses_blank (String Py.tab (String " " (String Re.newline "")))).
  reflexivity.
Defined.

(** X3: the cross-clause test does not depend on the order of its two
    clauses. *)
Theorem detect_clause_contradiction_symmetric (clause1 clause2 : string) :
  Jarvis.detect_clause_contradiction clause1 clause2 =
  Jarvis.detect_clause_contradiction clause2 clause1.
Proof.
  unfold Jarvis.detect_clause_contradiction.
  induction Jarvis.opposites as [| [pos neg] l IH]; [reflexivity |].
  cbn [existsb]. rewrite IH. f_equal. apply orb_comm.
Qed.

Lemma enumerate_from_nth {X : Type} (l : list X) : forall k j x,
  In (j, x) (enumerate_from k l) ->
  k <= j /\ nth_error l (j - k) = Some x.
Proof.
  unfold enumerate_from.
  induction l as [| y l IH]; intros k j x H; [destruct H |].
  cbn [List.length seq combine] in H. destruct H as [H | H].
  - injection H as <- <-. split; [lia |]. rewrite Nat.sub_diag. reflexivity.
  - apply IH in H. destruct H as [Hk Hn]. split; [lia |].
    replace (j - k) with (S (j - S k)) by lia. exact Hn.
Qed.

Lemma cross_clause_sound (clauses : list string) : forall k r,
  In r (Jarvis.cross_clause k clauses) ->
  exists i j c1 c2,
    i < j /\ nth_error clauses i = Some c1 /\ nth_error clauses j = Some c2 /\
    Jarvis.detect_clause_contradiction c1 c2 = true /\
    Jarvis.c_type r = "cross_clause_contradiction" /\
    Jarvis.c_clause r =
      "Clause " ++ Py.str_of_nat (k + i + 1) ++ ": " ++ c1 ++
      " | Clause " ++ Py.str_of_nat (k + j + 1) ++ ": " ++ c2.
Proof.
  induction clauses as [| c1 later IH]; intros k r H; [destruct H |].
  cbn [Jarvis.cross_clause] in H. apply in_app_or in H. destruct H as [H | H].
  - apply in_flat_map in H. destruct H as ([j c2] & Hin & Hr).
    apply enumerate_from_nth in Hin. destruct Hin as [Hj Hn].
    destruct (Jarvis.detect_clause_contradiction c1 c2) eqn:E; [| destruct Hr].
    destruct Hr as [<- | []].
    exists 0, (S (j - (k + 1))), c1, c2. repeat split; try assumption; try lia.
    cbn [Jarvis.c_clause]. rewrite Nat.add_0_r.
    replace (k + S (j - (k + 1)) + 1) with (j + 1) by lia. reflexivity.
  - apply IH in H. destruct H as (i & j & a & b & Hij & Ha & Hb & Hd & Ht & Hc).
    exists (S i), (S j), a, b. repeat split; try assumption; try lia.
    rewrite Hc. replace (k + 1 + i + 1) with (k + S i + 1) by lia.
    replace (k + 1 + j + 1) with (k + S j + 1) by lia. reflexivity.
Qed.

(** X4: every report of [detect_contradictions] points at the input: a
    report of one of the three single-clause types carries a clause of the
    input, and a cross-clause report names two clauses at positions
    [i < j] of the input, numbered from one, on which the cross-clause test
    holds. *)
Theorem detect_contradictions_sound (clauses : list string) :
  Forall
    (fun r =>
       (In (Jarvis.c_type r)
           ["notwithstanding_subject_to"; "shall_may_conflict";
            "prohibition_permission_conflict"] /\
        In (Jarvis.c_clause r) clauses) \/
       (Jarvis.c_type r = "cross_clause_contradiction" /\
        exists i j c1 c2,
          i < j /\ nth_error clauses i = Some c1 /\ nth_error clauses j = Some c2 /\
          Jarvis.detect_clause_contradiction c1 c2 = true /\
          Jarvis.c_clause r =
            "Clause " ++ Py.str_of_nat (i + 1) ++ ": " ++ c1 ++
            " | Clause " ++ Py.str_of_nat (j + 1) ++ ": " ++ c2))
    (Jarvis.detect_contradictions clauses).
Proof.
  apply Forall_forall. intros r H. unfold Jarvis.detect_contradictions in H.
  apply in_app_or in H. destruct H as [H | H].
  { apply in_flat_map in H. destruct H as (c & Hc & Hr).
    destruct (_ && _); [| destruct Hr]. destruct Hr as [<- | []].
    left. split; [left; reflexivity | exact Hc]. }
  apply in_app_or in H. destruct H as [H | H].
  { apply in_flat_map in H. destruct H as (c & Hc & Hr).
    destruct (_ && _); [| destruct Hr]. destruct Hr as [<- | []].
    left. split; [right; left; reflexivity | exact Hc]. }
  apply in_app_or in H. destruct H as [H | H].
  { apply in_flat_map in H. destruct H as (c & Hc & Hr).
    destruct (_ && _); [| destruct Hr]. destruct Hr as [<- | []].
    left. split; [right; right; left; reflexivity | exact Hc]. }
  right. apply cross_clause_sound in H.
  destruct H as (i & j & c1 & c2 & Hij & H1 & H2 & Hd & Ht & Hc).
  split; [exact Ht |]. exists i, j, c1, c2. repeat split; assumption.
Qed.

(** X5: every clause that [analyze_legal_structure] files under a heading
    is a clause of [extract_clauses], so it is non-empty and trimmed, and a
    blank text files nothing. *)
Theorem analyze_legal_structure_clauses (text : string) :
  let s := JarvisStructure.analyze_legal_structure text in
  let all := (JarvisStructure.definitions s ++ JarvisStructure.obligations s ++
              JarvisStructure.rights s ++ JarvisStructure.procedures s ++
              JarvisStructure.penalties s)%list in
  incl all (Jarvis.extract_clauses text) /\
  Forall (fun clause => clause <> EmptyString /\ Py.strip clause = clause) all /\
  (whitespace_only text = true -> all = []).
Proof.
  intros s all.
  assert (Hincl : incl all (Jarvis.extract_clauses text)).
  { subst all s. unfold JarvisStructure.analyze_legal_structure.
    cbn [JarvisStructure.definitions JarvisStructure.obligations JarvisStructure.rights
         JarvisStructure.procedures JarvisStructure.penalties].
    repeat apply incl_app; apply incl_filter. }
  split; [exact Hincl | split].
  - apply Forall_forall. intros c Hc.
    apply (proj1 (Forall_forall _ _) (extract_clauses_forall_trimmed text)).
    apply Hincl, Hc.
  - intros H. rewrite (extract_clauses_of_blank text H) in Hincl.
    destruct all as [| c l]; [reflexivity |]. destruct (Hincl c (or_introl eq_refl)).
Qed.

End JarvisMore.
(** ** The situation interpreter *)

Section InterpreterMore.

Import SituationInterpreter.

(** The level after the indicators of one row of the urgency table. *)
Lemma urgency_row (text name : string) (inds : list string) : forall level found,
  fst (fold_left
         (fun st indicator =>
            let '(level, found) := st in
            if Py.contains indicator text
            then ((if String.eqb name "high" then "high"
                   else if String.eqb name "low" && negb (String.eqb level "high")
                        then "low" else level),
                  (found ++ [indicator])%list)
            else st)
         inds (level, found)) =
  if any_in inds text
  then (if String.eqb name "high" then "high"
        else if String.eqb name "low" && negb (String.eqb level "high")
             then "low" else level)
  else level.
Proof.
  unfold any_in.
  induction inds as [| ind inds IH]; intros level found; [reflexivity |].
  cbn [fold_left existsb]. destruct (Py.contains ind text); cbn [orb].
  - rewrite IH. destruct (String.eqb name "high") eqn:Eh.
    + destruct (existsb _ inds); reflexivity.
    + destruct (String.eqb name "low") eqn:El; cbn [andb].
      * destruct (String.eqb level "high") eqn:E; cbn [negb].
        -- rewrite E. destruct (existsb _ inds); reflexivity.
        -- cbn. destruct (existsb _ inds); reflexivity.
      * destruct (existsb _ inds); reflexivity.
  - apply IH.
Qed.

Lemma assess_urgency_level_eq (text : string) (entities : Entities) :
  level (_assess_urgency text entities) =
    (if any_in ["immediate"; "urgent"; "emergency"; "deadline"; "final notice"; "court date"]
               text
     then "high"
     else if any_in ["when convenient"; "at your earliest"; "please"] text
          then "low" else "medium").
Proof.
  set (high := ["immediate"; "urgent"; "emergency"; "deadline"; "final notice"; "court date"]).
  set (low := ["when convenient"; "at your earliest"; "please"]).
  unfold _assess_urgency, urgency_table. cbn [fold_left].
  match goal with
  | |- context [fold_left ?f ?inds ("medium", [])] =>
      set (r1 := fold_left f inds ("medium", []));
      assert (H1 : fst r1 = if any_in high text then "high" else "medium")
        by (subst r1; apply (urgency_row text "high"))
  end.
  destruct r1 as [l1 f1]. cbn [fst] in H1.
  match goal with
  | |- context [fold_left ?f ?inds (l1, f1)] =>
      set (r2 := fold_left f inds (l1, f1));
      assert (H2 : fst r2 = l1)
        by (subst r2; rewrite (urgency_row text "medium");
            destruct (any_in (snd _) text); reflexivity)
  end.
  destruct r2 as [l2 f2]. cbn [fst] in H2. subst l2.
  match goal with
  | |- context [fold_left ?f ?inds (l1, f2)] =>
      set (r3 := fold_left f inds (l1, f2));
      assert (H3 : fst r3 =
                   if any_in low text
                   then (if negb (String.eqb l1 "high") then "low" else l1) else l1)
        by (subst r3; apply (urgency_row text "low"))
  end.
  destruct r3 as [l3 f3]. cbn [fst] in H3. cbn [level]. rewrite H3, H1.
  destruct (any_in high text); destruct (any_in low text); reflexivity.
Qed.

(** X6: the urgency level is [high] when the text holds a high-urgency
    indicator, else [low] when it holds a low-urgency indicator, else
    [medium]; it is always one of the three. *)
Theorem assess_urgency_level (text : string) (entities : Entities) :
  let high := ["immediate"; "urgent"; "emergency"; "deadline"; "final notice"; "court date"] in
  let low := ["when convenient"; "at your earliest"; "please"] in
  level (_assess_urgency text entities) =
    (if any_in high text then "high" else if any_in low text then "low" else "medium") /\
  In (level (_assess_urgency text entities)) ["high"; "medium"; "low"].
Proof.
  intros high low.
  pose proof (assess_urgency_level_eq text entities) as E. fold high low in E.
  split; [exact E |]. rewrite E.
  destruct (any_in high text); [| destruct (any_in low text)]; simpl; auto.
Qed.


Lemma fmin_le_r (a b : Q) : (fmin a b <= b)%Q.
Proof.
  unfold fmin. destruct (Qle_bool a b) eqn:E.
  - apply Qle_bool_iff. exact E.
  - apply Qle_refl.
Qed.

Lemma max_item_member (items : list (string * nat)) (m : string * nat) :
  max_item items = Some m ->
  In m items /\ forall x, In x items -> snd x <= snd m.
Proof.
  intros H. destruct (max_item_first items m H) as (before & after & Hs & Hb & Ha).
  rewrite Hs. split.
  - apply in_or_app. right. left. reflexivity.
  - intros x Hx. apply in_app_or in Hx. destruct Hx as [Hx | [<- | Hx]].
    + specialize (Hb x Hx). lia.
    + lia.
    + apply Ha, Hx.
Qed.

Lemma flat_map_nil_counts (text : string) (table : list (string * list string)) :
  flat_map (fun ji =>
              map (fun indicator => fst ji ++ ": " ++ indicator)
                  (filter (fun indicator => Py.contains indicator text) (snd ji)))
           table = [] <->
  forall x,
    In x (map (fun ji => (fst ji,
                          List.length (filter (fun indicator => Py.contains indicator text)
                                              (snd ji)))) table) ->
    snd x = 0.
Proof.
  induction table as [| ji table IH]; cbn [flat_map map].
  - split; [intros _ x [] | reflexivity].
  - split.
    + intros H. apply app_eq_nil in H. destruct H as [H1 H2].
      intros x [<- | Hx].
      * cbn [snd]. apply (f_equal (@List.length string)) in H1.
        rewrite length_map in H1. exact H1.
      * apply IH; assumption.
    + intros H.
      assert (H1 := H _ (or_introl eq_refl)). cbn [snd] in H1.
      apply length_zero_iff_nil in H1. rewrite H1. cbn [map app].
      apply IH. intros x Hx. apply H. right. exact Hx.
Qed.

(** X7: the confidence of the jurisdiction lies between 0 and 1; the
    primary jurisdiction is one of the four buckets or [unknown], and is
    [unknown] exactly when no indicator was found; it is never listed among
    the secondary ones. *)
Theorem determine_jurisdiction_shape (text : string) (entities : Entities) :
  let j := _determine_jurisdiction text entities in
  (0 <= confidence j <= 1)%Q /\
  In (primary j) ["unknown"; "federal"; "state"; "local"; "commercial"] /\
  (primary j = "unknown" <-> indicators j = []) /\
  ~ In (primary j) (secondary j).
Proof.
  intros j. subst j. unfold _determine_jurisdiction.
  fold (jurisdiction_scores text).
  assert (Hnames : map fst (jurisdiction_scores text) = ["federal"; "state"; "local"; "commercial"])
    by reflexivity.
  pose proof (flat_map_nil_counts text jurisdiction_indicators) as Hnil.
  fold (jurisdiction_scores text) in Hnil.
  set (found := flat_map _ jurisdiction_indicators) in *.
  destruct (max_item (jurisdiction_scores text)) as [best |] eqn:Em.
  - destruct (max_item_member _ _ Em) as [Hin Hmax].
    assert (Hbest : In (fst best) ["federal"; "state"; "local"; "commercial"]).
    { rewrite <- Hnames. apply in_map. exact Hin. }
    destruct (0 <? snd best) eqn:Epos.
    + apply Nat.ltb_lt in Epos.
      cbn [confidence primary indicators secondary].
      split; [| split; [| split]].
      * split.
        -- apply fmin_ge; [| lra]. apply div_nonneg; [apply of_nat_nonneg | lra].
        -- eapply Qle_trans; [apply fmin_le_r | lra].
      * right. exact Hbest.
      * split.
        -- intros Hu. rewrite Hu in Hbest. simpl in Hbest.
           destruct Hbest as [H | [H | [H | [H | []]]]]; discriminate H.
        -- intros Hf. assert (Hz := proj1 Hnil Hf best Hin). lia.
      * intros Hsec. apply in_map_iff in Hsec. destruct Hsec as (x & Hx & Hfx).
        apply filter_In in Hfx. destruct Hfx as [_ Hfx].
        apply andb_true_iff in Hfx. destruct Hfx as [Hne _].
        rewrite Hx, String.eqb_refl in Hne. discriminate Hne.
    + apply Nat.ltb_ge in Epos.
      cbn [confidence primary indicators secondary].
      split; [unfold Qle; simpl; lia | split; [left; reflexivity | split]].
      * split; [intros _ | reflexivity]. apply (proj2 Hnil). intros x Hx.
        specialize (Hmax x Hx). lia.
      * intros Hsec. apply in_map_iff in Hsec. destruct Hsec as (x & Hx & Hfx).
        apply filter_In in Hfx. destruct Hfx as [Hxin Hfx].
        apply andb_true_iff in Hfx. destruct Hfx as [_ Hpos].
        apply Nat.ltb_lt in Hpos. specialize (Hmax x Hxin). lia.
  - discriminate Em.
Qed.

(** X8: the situation type is one of the six types of the registry or
    [general]. *)
Theorem identify_situation_type_enum (text : string) :
  In (_identify_situation_type text) ("general" :: registry_order).
Proof.
  destruct (identify_situation_type_first text)
    as [[H _] | (before & s & after & Hsplit & _)].
  - left. symmetry. exact H.
  - right. rewrite <- (type_scores_order text), Hsplit, map_app.
    apply in_or_app. right. left. reflexivity.
Qed.

End InterpreterMore.
Section CharFacts.

Variable P : ascii -> bool.

Let allc (s : string) : bool := forallb P (list_ascii_of_string s).

Lemma allc_append (a b : string) : allc (a ++ b) = allc a && allc b.
Proof.
  unfold allc. induction a as [| c a IH]; [reflexivity |].
  simpl. rewrite IH. apply andb_assoc.
Qed.

Lemma allc_take (s : string) : forall n, allc s = true -> allc (Py.take n s) = true.
Proof.
  unfold allc. induction s as [| c s IH]; intros n H; destruct n; try reflexivity.
  simpl in *. apply andb_true_iff in H. destruct H as [Hc Hs].
  rewrite Hc. apply IH, Hs.
Qed.

Lemma allc_drop (s : string) : forall n, allc s = true -> allc (Py.drop n s) = true.
Proof.
  unfold allc. induction s as [| c s IH]; intros n H; destruct n; try exact H.
  simpl in *. apply andb_true_iff in H. apply IH, H.
Qed.

Lemma allc_join (sep : string) (parts : list string) :
  allc sep = true -> Forall (fun p => allc p = true) parts ->
  allc (Py.join sep parts) = true.
Proof.
  intros Hsep H. induction H as [| p parts Hp Hparts IH]; [reflexivity |].
  destruct parts as [| p' parts]; [exact Hp |].
  change (Py.join sep (p :: p' :: parts)) with (p ++ sep ++ Py.join sep (p' :: parts)).
  rewrite !allc_append, Hp, Hsep, IH. reflexivity.
Qed.

Lemma allc_pieces (s : string) (ms : list Re.rmatch) : forall from,
  allc s = true -> Forall (fun p => allc p = true) (Re.pieces s from ms).
Proof.
  induction ms as [| m ms IH]; intros from H; cbn [Re.pieces].
  - constructor; [apply allc_drop, H | constructor].
  - constructor; [apply allc_take, allc_drop, H | apply IH, H].
Qed.

(** The characters of [re.sub(pattern, repl, s)] come from [s] and [repl]. *)
Lemma allc_sub (p repl s : string) :
  allc s = true -> allc repl = true -> allc (Re.sub p repl s) = true.
Proof.
  intros Hs Hr. unfold Re.sub. apply allc_join; [exact Hr | apply allc_pieces, Hs].
Qed.




End CharFacts.

Section NormalizeFacts.

Import SituationInterpreter.


Lemma lower_char_space (c : ascii) :
  implb (Py.isspace c) (Py.isspace (Py.lower_char c)) = true.
Proof. revert c. apply every_char. vm_compute. reflexivity. Qed.


Lemma lower_whitespace_only (s : string) :
  whitespace_only s = true -> whitespace_only (Py.lower s) = true.
Proof.
  unfold whitespace_only. induction s as [| c s IH]; [reflexivity |].
  simpl. intros H. apply andb_true_iff in H. destruct H as [Hc Hs].
  assert (Hl := lower_char_space c). rewrite Hc in Hl. simpl in Hl.
  rewrite Hl. apply IH, Hs.
Qed.


Lemma normalize_text_blank (text : string) :
  whitespace_only text = true -> _normalize_text text = EmptyString.
Proof.
  intros H. unfold _normalize_text.
  assert (E : Py.strip (Re.sub "\s+" " " (Py.lower text)) = EmptyString).
  { apply strip_whitespace_only. unfold whitespace_only.
    apply allc_sub; [apply lower_whitespace_only, H | reflexivity]. }
  rewrite E. vm_compute. reflexivity.
Qed.


(** X10: for an empty or whitespace-only input [interpret_situation]
    returns the default analysis: type [general], no entity, relationship,
    fact or issue, jurisdiction [unknown] with confidence 0, urgency [medium]
    without timeline, the general framework and the two default actions. *)
Theorem interpret_situation_blank (now input_text : string)
    (context : option (list (string * string))) :
  whitespace_only input_text = true ->
  let s := interpret_situation now input_text context in
  type s = "general" /\
  normalized_text s = EmptyString /\
  entities s = mkEntities [] [] [] [] [] [] [] /\
  jurisdiction s = mkJurisdiction "unknown" [] [] 0%Q /\
  relationships s = [] /\
  key_facts s = [] /\
  urgency s = mkUrgency "medium" [] None /\
  legal_framework s = ["General law"] /\
  potential_issues s = [] /\
  required_actions s = ["Seek legal counsel"; "Document situation"].
Proof.
  intros H s. subst s. unfold interpret_situation.
  rewrite (normalize_text_blank input_text H).
  cbn [type normalized_text entities jurisdiction relationships key_facts urgency
       legal_framework potential_issues required_actions].
  repeat (split; [vm_compute; reflexivity |]). vm_compute. reflexivity.
Qed.

Lemma interpret_situation_blank_witness :
  type (interpret_situation "2025-01-17T10:00:00" "  " None) = "general" /\
  urgency (interpret_situation "2025-01-17T10:00:00" "  " None) = mkUrgency "medium" [] None.
Proof.
  destruct (interpret_situation_blank "2025-01-17T10:00:00" "  " None eq_refl)
    as (Ht & _ & _ & _ & _ & _ & Hu & _).
  split; [exact Ht | exact Hu].
Defined.

End NormalizeFacts.
(** ** The alignment scorer, continued *)

Section ScorerMore.

Local Open Scope Q_scope.

Variable set_order : list string -> list string.

Lemma score_text_bounds (text : string) :
  let m := SovereigntyScorer.score_text set_order text in
  0 <= SovereigntyScorer.overall_score m <= 1 /\
  0 <= SovereigntyScorer.language_score m <= 1 /\
  0 <= SovereigntyScorer.remedy_score m <= 1 /\
  0 <= SovereigntyScorer.autonomy_score m <= 1.
Proof.
  unfold SovereigntyScorer.score_text. rewrite blank_test.
  destruct (whitespace_only text).
  - cbn. lra.
  - cbn [SovereigntyScorer.overall_score SovereigntyScorer.language_score
         SovereigntyScorer.remedy_score SovereigntyScorer.autonomy_score].
    set (l := SovereigntyScorer._calculate_language_score _ _ _).
    set (r := SovereigntyScorer.score _).
    set (a := SovereigntyScorer._calculate_autonomy_score _).
    assert (Hl : 0 <= l <= 1) by apply language_score_unit.
    assert (Hr : 0 <= r <= 1) by apply remedy_score_unit.
    assert (Ha : 0 <= a <= 1) by apply autonomy_score_unit.
    lra.
Qed.

Lemma firstn_length_bounds {X : Type} (l : list X) :
  l <> [] -> (1 <= List.length (firstn 5 l) <= 5)%nat.
Proof.
  intros H. rewrite length_firstn. destruct l as [| x l]; [contradiction |].
  cbn [List.length]. lia.
Qed.

(** X11: [score_text] always gives at least one improvement suggestion and
    never more than five. *)
Theorem score_text_suggestions_count (text : string) :
  (1 <= List.length (SovereigntyScorer.improvement_suggestions
                       (SovereigntyScorer.score_text set_order text)) <= 5)%nat.
Proof.
  unfold SovereigntyScorer.score_text.
  destruct (negb _ || negb _).
  - cbn. lia.
  - cbn [SovereigntyScorer.improvement_suggestions].
    unfold SovereigntyScorer._generate_improvement_suggestions.
    apply firstn_length_bounds.
    match goal with |- context [match ?l with [] => _ | _ :: _ => _ end] =>
      destruct l; discriminate end.
Qed.

(** X12: [score_decision] keeps the four scores between 0 and 1.  For a
    remedy type that names an unlawful remedy it halves the remedy score and
    lowers the overall score accordingly, but it leaves the sovereignty level
    as [score_text] computed it on the combined text; for any other decision
    it returns the result of [score_text] on the combined text. *)
Theorem score_decision_scores (decision_data : ScorerDecision.Decision) :
  let t := SovereigntyScorer.score_text set_order
             (ScorerDecision.combined_text decision_data) in
  let m := ScorerDecision.score_decision set_order decision_data in
  (0 <= SovereigntyScorer.overall_score m <= 1 /\
   0 <= SovereigntyScorer.language_score m <= 1 /\
   0 <= SovereigntyScorer.remedy_score m <= 1 /\
   0 <= SovereigntyScorer.autonomy_score m <= 1) /\
  SovereigntyScorer.sovereignty_level m = SovereigntyScorer.sovereignty_level t /\
  SovereigntyScorer.improvement_suggestions m = SovereigntyScorer.improvement_suggestions t /\
  (ScorerDecision.unlawful_remedy_type decision_data = true ->
   SovereigntyScorer.remedy_score m == SovereigntyScorer.remedy_score t / 2 /\
   SovereigntyScorer.overall_score m ==
     SovereigntyScorer.language_score t * 0.4 +
     SovereigntyScorer.remedy_score t / 2 * 0.3 +
     SovereigntyScorer.autonomy_score t * 0.3) /\
  (ScorerDecision.unlawful_remedy_type decision_data = false -> m = t).
Proof.
  intros t m. subst m. unfold ScorerDecision.score_decision. fold t.
  pose proof (score_text_bounds (ScorerDecision.combined_text decision_data)) as Hb.
  cbv zeta in Hb. fold t in Hb.
  destruct (ScorerDecision.unlawful_remedy_type decision_data).
  - cbn [SovereigntyScorer.overall_score SovereigntyScorer.language_score
         SovereigntyScorer.remedy_score SovereigntyScorer.autonomy_score
         SovereigntyScorer.sovereignty_level SovereigntyScorer.improvement_suggestions].
    set (l := SovereigntyScorer.language_score t) in *.
    set (r := SovereigntyScorer.remedy_score t) in *.
    set (a := SovereigntyScorer.autonomy_score t) in *.
    split; [lra |]. split; [reflexivity |]. split; [reflexivity |].
    split; [intros _; split; field | discriminate].
  - split; [exact Hb |]. split; [reflexivity |]. split; [reflexivity |].
    split; [discriminate | reflexivity].
Qed.

End ScorerMore.

Lemma score_decision_scores_witness :
  (SovereigntyScorer.remedy_score
     (ScorerDecision.score_decision insertion_order
        (ScorerDecision.mkDecision (Some "Demand restitution") None None
           (Some "Punitive fine"))) ==
   SovereigntyScorer.remedy_score
     (SovereigntyScorer.score_text insertion_order "Demand restitution") / 2)%Q.
Proof.
  apply (score_decision_scores insertion_order
           (ScorerDecision.mkDecision (Some "Demand restitution") None None
              (Some "Punitive fine"))).
  reflexivity.
Defined.

(** ** The contradiction detector, continued *)

Section FindFacts.

(** [find] returns the first position where the needle starts, or [-1]. *)
Lemma find_from_spec (sub : string) : forall s i,
  (0 <= i)%Z ->
  let r := Py.find_from sub s i in
  (r = (-1)%Z /\ Py.contains sub s = false) \/
  ((i <= r)%Z /\
   Py.startswith (Py.drop (Z.to_nat (r - i)) s) sub = true /\
   forall k, k < Z.to_nat (r - i) -> Py.startswith (Py.drop k s) sub = false).
Proof.
  induction s as [| c s IH]; intros i Hi r; subst r.
  - cbn [Py.find_from Py.contains]. destruct (Py.startswith EmptyString sub) eqn:E.
    + right. rewrite Z.sub_diag. repeat split; [lia | exact E |]. intros k Hk. simpl in Hk. lia.
    + left. split; reflexivity.
  - cbn [Py.find_from Py.contains]. destruct (Py.startswith (String c s) sub) eqn:E.
    + right. rewrite Z.sub_diag. repeat split; [lia | exact E |]. intros k Hk. simpl in Hk. lia.
    + destruct (IH (i + 1)%Z ltac:(lia)) as [[Hr Hc] | (Hle & Hs & Hfirst)].
      * left. split; [exact Hr | exact Hc].
      * right. set (r := Py.find_from sub s (i + 1)) in *.
        replace (Z.to_nat (r - i)) with (S (Z.to_nat (r - (i + 1)))) by lia.
        repeat split; [lia | exact Hs |].
        intros [| k] Hk; [exact E |]. apply Hfirst. lia.
Qed.

End FindFacts.

Section DetectorMore.

Import NlpProcessor.

Lemma check_patterns_fields (patterns : list (string * string))
    (sent1 sent2 full_text : string) (p : ContradictionPair) :
  check_patterns patterns sent1 sent2 full_text = Some p ->
  statement1 p = sent1 /\ statement2 p = sent2 /\
  Py.find full_text sent1 <> (-1)%Z /\ Py.find full_text sent2 <> (-1)%Z /\
  location1 p = (Py.find full_text sent1,
                 (Py.find full_text sent1 + Z.of_nat (String.length sent1))%Z) /\
  location2 p = (Py.find full_text sent2,
                 (Py.find full_text sent2 + Z.of_nat (String.length sent2))%Z).
Proof.
  induction patterns as [| [pattern1 pattern2] patterns IH]; cbn [check_patterns];
    [discriminate |].
  destruct (Re.search pattern1 sent1 true); [| exact IH].
  destruct (Re.search pattern2 sent2 true); [| exact IH].
  destruct (negb (Py.find full_text sent1 =? -1)%Z) eqn:E1; [| exact IH].
  destruct (negb (Py.find full_text sent2 =? -1)%Z) eqn:E2; [| exact IH].
  cbn [andb]. intros [= <-]. cbn.
  apply negb_true_iff, Z.eqb_neq in E1. apply negb_true_iff, Z.eqb_neq in E2.
  repeat split; assumption.
Qed.

Lemma find_first_occurrence (full_text sent : string) :
  Py.find full_text sent <> (-1)%Z ->
  first_occurrence_span full_text sent
    (Py.find full_text sent, (Py.find full_text sent + Z.of_nat (String.length sent))%Z).
Proof.
  intros Hf. unfold first_occurrence_span, Py.find in *. cbn [fst snd].
  destruct (find_from_spec sent full_text 0 ltac:(lia)) as [[Hr _] | (Hle & Hs & Hk)];
    [contradiction |].
  rewrite Z.sub_0_r in Hs, Hk. repeat split; assumption.
Qed.

(** X13: a pair returned by [_check_sentence_contradiction] carries the two
    sentences it was given, and each location is the span of the first
    occurrence of its sentence in the full text: it starts at a
    non-negative offset, it is as long as the sentence, the sentence is read
    there, and nowhere before. *)
Theorem check_sentence_contradiction_locations (sent1 sent2 full_text : string)
    (p : ContradictionPair) :
  _check_sentence_contradiction sent1 sent2 full_text = Some p ->
  statement1 p = sent1 /\ statement2 p = sent2 /\
  first_occurrence_span full_text sent1 (location1 p) /\
  first_occurrence_span full_text sent2 (location2 p).
Proof.
  intros H. apply check_patterns_fields in H.
  destruct H as (H1 & H2 & Hf1 & Hf2 & Hl1 & Hl2).
  split; [exact H1 | split; [exact H2 |]].
  rewrite Hl1, Hl2. split; apply find_first_occurrence; assumption.
Qed.

Lemma check_sentence_contradiction_locations_witness :
  exists p,
    _check_sentence_contradiction "He must pay." "He must not pay."
      "He must pay. He must not pay." = Some p /\
    statement1 p = "He must pay." /\ statement2 p = "He must not pay.".
Proof.
  eexists. split; [vm_compute; reflexivity |].
  split; eapply (check_sentence_contradiction_locations
                   "He must pay." "He must not pay." "He must pay. He must not pay.");
    vm_compute; reflexivity.
Defined.

Lemma pairwise_length {X Y : Type} (body : X -> X -> list Y) (l : list X) :
  (forall a b, List.length (body a b) <= 1) ->
  2 * List.length (pairwise body l) <= List.length l * (List.length l - 1).
Proof.
  intros Hb. induction l as [| a l IH]; [simpl; lia |].
  cbn [pairwise List.length]. rewrite length_app.
  assert (Hf : List.length (flat_map (body a) l) <= List.length l).
  { clear IH. induction l as [| b l IHl]; [simpl; lia |].
    cbn [flat_map List.length]. rewrite length_app. specialize (Hb a b). lia. }
  replace (S (List.length l) - 1) with (List.length l) by lia.
  nia.
Qed.

(** X14: the pattern check reports at most one pair for each two
    sentences [i < j]: with [n] sentences there are at most [n (n - 1) / 2]
    pattern pairs, and none for a single sentence. *)
Theorem pattern_contradictions_count (sentences : list string) (text : string) :
  2 * List.length (pattern_contradictions sentences text) <=
  List.length sentences * (List.length sentences - 1).
Proof.
  unfold pattern_contradictions. apply pairwise_length.
  intros a b. destruct (_check_sentence_contradiction a b text); simpl; lia.
Qed.

Lemma semantic_confidence (self : Processor) (sentences : list string) (text : string)
    (p : ContradictionPair) :
  In p (_detect_semantic_contradictions self sentences text) ->
  (0.42 < confidence p)%Q /\
  explanation p = "Semantic contradiction detected through similarity analysis".
Proof.
  unfold _detect_semantic_contradictions.
  destruct (nlp self) as [pipeline |]; [| intros []].
  destruct (negb (has_tok2vec pipeline)); [intros [] |].
  intros H. apply pairwise_in in H. destruct H as (a & b & H).
  destruct (flt 0.7 (similarity pipeline a b)) eqn:E; [| destruct H].
  destruct (_has_negation_difference _ _); [| destruct H].
  cbn [andb] in H. destruct (negb _ && negb _); [| destruct H].
  destruct H as [<- | []]. cbn [confidence explanation]. split; [| reflexivity].
  unfold flt in E. apply negb_true_iff in E.
  assert (~ (similarity pipeline a b <= 0.7)%Q)
    by (intros Hc; apply Qle_bool_iff in Hc; congruence).
  lra.
Qed.

(** X15: every pair returned by [detect_contradictions] is either a pattern
    pair, with confidence 0.8, or a semantic pair, with confidence above
    0.42; without a pipeline, without its [tok2vec] component, or with
    semantic detection switched off, only pattern pairs are returned. *)
Theorem detect_contradictions_confidence (self : Processor) (text : string) :
  Forall
    (fun p =>
       confidence p = 0.8%Q \/
       ((0.42 < confidence p)%Q /\
        explanation p = "Semantic contradiction detected through similarity analysis"))
    (detect_contradictions self text) /\
  (nlp self = None \/ enable_contradiction_detection self = false \/
   (exists pipeline, nlp self = Some pipeline /\ has_tok2vec pipeline = false) ->
   detect_contradictions self text =
   pattern_contradictions (_split_into_sentences self text) text).
Proof.
  split.
  - apply Forall_forall. intros p H. unfold detect_contradictions in H.
    destruct (enable_contradiction_detection self).
    + apply in_app_or in H. destruct H as [H | H].
      * left. apply (pattern_contradictions_confidence _ _ _ H).
      * right. apply (semantic_confidence _ _ _ _ H).
    + left. apply (pattern_contradictions_confidence _ _ _ H).
  - intros H. unfold detect_contradictions, _detect_semantic_contradictions.
    destruct (enable_contradiction_detection self); [| reflexivity].
    destruct H as [H | [H | (pipeline & Hn & Ht)]].
    + rewrite H. apply app_nil_r.
    + discriminate H.
    + rewrite Hn, Ht. apply app_nil_r.
Qed.

Lemma detect_contradictions_confidence_witness :
  detect_contradictions (mkProcessor None true) "All fees are due. No fee is due." =
  pattern_contradictions
    (_split_into_sentences (mkProcessor None true) "All fees are due. No fee is due.")
    "All fees are due. No fee is due.".
Proof.
  apply (proj2 (detect_contradictions_confidence (mkProcessor None true)
                  "All fees are due. No fee is due.")).
  left. reflexivity.
Defined.

End DetectorMore.
(** ** Clause labels and sentiment *)

Section ClausesMore.

Import NlpClauses.

(** X16: [_classify_clause] and [_assess_clause_importance] label a clause
    from fixed sets of eight types and three levels, and a clause that holds
    one of the penalty phrases is of [high] importance whatever else it
    holds. *)
Theorem clause_labels (clause_text : string) :
  In (_classify_clause clause_text)
     ["penalty"; "conditional"; "temporal"; "rights"; "definition"; "obligation";
      "permission"; "general"] /\
  In (_assess_clause_importance clause_text) ["high"; "medium"; "low"] /\
  (any_in penalty_phrases (Py.lower clause_text) = true ->
   _assess_clause_importance clause_text = "high").
Proof.
  split; [| split].
  - unfold _classify_clause.
    repeat match goal with
           | |- In (if ?b then _ else _) _ => destruct b
           end; simpl; auto 10.
  - unfold _assess_clause_importance.
    repeat match goal with
           | |- In (if ?b then _ else _) _ => destruct b
           end; simpl; auto 10.
  - intros H. unfold _assess_clause_importance. rewrite H, orb_true_r. reflexivity.
Qed.

Lemma clause_labels_witness :
  _assess_clause_importance "Late filers Face Penalties" = "high".
Proof.
  apply (clause_labels "Late filers Face Penalties"). reflexivity.
Defined.

(** X17: without a pipeline [analyze_sentiment] raises an [AnalysisError]
    that wraps the one raised inside; with a pipeline it returns a sentiment
    among four labels with a confidence between 0 and 1, and for a document
    without alphabetic token the neutral result with confidence 0 and no
    scores. *)
Theorem analyze_sentiment_result (self : NlpProcessor.Processor) (text : string) :
  (NlpProcessor.nlp self = None ->
   exists e,
     analyze_sentiment self text = inr e /\
     error_str e =
       "[ANALYSIS_ERROR] Sentiment analysis failed: [ANALYSIS_ERROR] NLP processor not initialized") /\
  (forall pipeline,
     NlpProcessor.nlp self = Some pipeline ->
     exists r,
       analyze_sentiment self text = inl r /\
       In (sentiment r) ["concerning"; "positive"; "negative"; "neutral"] /\
       (0 <= sentiment_confidence r <= 1)%Q /\
       (filter isalpha (NlpProcessor.tokens pipeline text) = [] ->
        r = mkSentiment "neutral" 0.0 None None)).
Proof.
  unfold analyze_sentiment. split.
  - intros H. rewrite H. eexists. split; reflexivity.
  - intros pipeline H. rewrite H. eexists. split; [reflexivity |].
    unfold sentiment_of_tokens.
    set (alpha := filter isalpha (NlpProcessor.tokens pipeline text)).
    destruct alpha as [| w alpha'] eqn:Ea.
    + cbn [List.length Nat.eqb sentiment sentiment_confidence].
      split; [do 3 right; left; reflexivity | split; [lra | reflexivity]].
    + cbn [List.length Nat.eqb].
      set (n := of_nat (S (List.length alpha'))).
      assert (Hn : (0 <= n)%Q) by apply of_nat_nonneg.
      set (pr := (of_nat (vocabulary_score _ positive_words) / n)%Q).
      set (nr := (of_nat (vocabulary_score _ negative_words) / n)%Q).
      set (cr := (of_nat (vocabulary_score _ legal_concern_words) / n)%Q).
      assert (Hp : (0 <= pr)%Q) by (apply div_nonneg; [apply of_nat_nonneg | exact Hn]).
      assert (Hnr : (0 <= nr)%Q) by (apply div_nonneg; [apply of_nat_nonneg | exact Hn]).
      assert (Hc : (0 <= cr)%Q) by (apply div_nonneg; [apply of_nat_nonneg | exact Hn]).
      assert (Hmin : forall x, (0 <= x)%Q -> (0 <= fmin 1.0 (x * 10) <= 1)%Q).
      { intros x Hx. split; [apply fmin_ge; lra |].
        eapply Qle_trans; [apply fmin_le_l | lra]. }
      destruct (flt 0.02 cr); [| destruct (flt (nr * 1.5) pr); [| destruct (flt (pr * 1.5) nr)]];
        cbv beta iota zeta; cbn [sentiment sentiment_confidence];
        (split; [simpl; auto 6
               | split; [first [lra | apply Hmin; assumption] | discriminate]]).
Qed.

Lemma analyze_sentiment_result_witness :
  exists e,
    analyze_sentiment (NlpProcessor.mkProcessor None true) "I agree" = inr e /\
    error_str e =
      "[ANALYSIS_ERROR] Sentiment analysis failed: [ANALYSIS_ERROR] NLP processor not initialized".
Proof.
  apply (proj1 (analyze_sentiment_result (NlpProcessor.mkProcessor None true) "I agree")).
  reflexivity.
Defined.

End ClausesMore.
(** ** The provenance ledger, continued *)

Section LedgerMore.

Import Provenance.

Variable rt : Runtime.

Lemma hex_digit_lower_hex (x : Z) :
  is_lower_hex (Sha256.hex_digit (x mod 16)) = true.
Proof.
  assert (H : (0 <= x mod 16 < 16)%Z) by (apply Z.mod_pos_bound; lia).
  set (y := (x mod 16)%Z) in *.
  assert (Hy : In y [0; 1; 2; 3; 4; 5; 6; 7; 8; 9; 10; 11; 12; 13; 14; 15]%Z).
  { simpl. lia. }
  simpl in Hy.
  repeat (destruct Hy as [<- | Hy]; [vm_compute; reflexivity |]). destruct Hy.
Qed.

Lemma generate_hash_shape (c : Content) :
  exists a b, _generate_hash rt c = Sha256.hex8 a (Sha256.hex8 b EmptyString).
Proof.
  unfold _generate_hash, Sha256.hexdigest.
  destruct (Sha256.absorb _) as [[[[[[[a b] c0] d] e] f] g] h].
  exists a, b. reflexivity.
Qed.

(** X18: the hash of any content is a text of exactly sixteen lower-case
    hexadecimal digits. *)
Theorem generate_hash_sixteen_hex (c : Content) :
  String.length (_generate_hash rt c) = 16 /\
  forallb is_lower_hex (list_ascii_of_string (_generate_hash rt c)) = true.
Proof.
  destruct (generate_hash_shape c) as (a & b & E). rewrite E. split; [reflexivity |].
  unfold Sha256.hex8. cbn [list_ascii_of_string forallb].
  rewrite !hex_digit_lower_hex. reflexivity.
Qed.

Lemma find_last_id (l : list ProvenanceEntry) (id : string) :
  (List.find (fun e => String.eqb (entry_id e) id) l = None <->
   forall e, In e l -> entry_id e <> id) /\
  (forall e, List.find (fun e => String.eqb (entry_id e) id) l = Some e ->
             In e l /\ entry_id e = id).
Proof.
  split.
  - split.
    + intros H e He E. apply (find_none _ _ H) in He. rewrite E, String.eqb_refl in He.
      discriminate He.
    + intros H. induction l as [| x l IH]; [reflexivity |].
      cbn [List.find]. destruct (String.eqb (entry_id x) id) eqn:E.
      * apply String.eqb_eq in E. destruct (H x (or_introl eq_refl) E).
      * apply IH. intros e He. apply H. right. exact He.
  - intros e H. apply find_some in H. destruct H as [Hin E].
    apply String.eqb_eq in E. split; assumption.
Qed.

(** X19: the identifier returned by [log_action] retrieves the entry just
    logged; [get_entry] returns only entries of the ledger that carry the
    identifier asked for, and [None] exactly when no entry carries it. *)
Theorem get_entry_lookup (self : ProvenanceLogger)
    (action_type_ action_description_ agent_name_ : string) (kw : Kwargs) (id : string) :
  (let logged := log_action rt self action_type_ action_description_ agent_name_ kw in
   exists e,
     get_entry (fst logged) (snd logged) = Some e /\
     entries (fst logged) = (entries self ++ [e])%list /\
     action_type e = action_type_ /\
     action_description e = action_description_ /\
     agent_name e = agent_name_) /\
  (get_entry self id = None <-> forall e, In e (entries self) -> entry_id e <> id) /\
  (forall e, get_entry self id = Some e -> In e (entries self) /\ entry_id e = id).
Proof.
  split; [| split].
  - intros logged. subst logged.
    destruct (log_action_appends rt self action_type_ action_description_ agent_name_ kw)
      as (e & He & _ & Hid & Ht & Hd & Ha & _).
    exists e. split; [| repeat split; assumption].
    unfold get_entry. rewrite He, rev_app_distr. cbn [rev app List.find].
    rewrite Hid, String.eqb_refl. reflexivity.
  - unfold get_entry. rewrite (proj1 (find_last_id (rev (entries self)) id)).
    split; intros H e He; apply H.
    + apply in_rev. rewrite rev_involutive. exact He.
    + apply in_rev in He. exact He.
  - intros e H. unfold get_entry in H.
    apply (proj2 (find_last_id (rev (entries self)) id)) in H.
    destruct H as [Hin E]. split; [apply in_rev, Hin | exact E].
Qed.

Lemma log_action_persists (self : ProvenanceLogger)
    (action_type_ action_description_ agent_name_ : string) (kw : Kwargs) :
  exists e,
    entries (fst (log_action rt self action_type_ action_description_ agent_name_ kw)) =
      (entries self ++ [e])%list /\
    master_log (fst (log_action rt self action_type_ action_description_ agent_name_ kw)) =
      master_log self ++
      Json.dumps (float_repr rt) false (Json.JDict (asdict e)) ++ Py.eol /\
    file_entries (session_file
      (fst (log_action rt self action_type_ action_description_ agent_name_ kw))) =
      (file_entries (session_file self) ++ [asdict e])%list /\
    file_session_id (session_file
      (fst (log_action rt self action_type_ action_description_ agent_name_ kw))) =
      file_session_id (session_file self) /\
    logger_session_id (fst (log_action rt self action_type_ action_description_ agent_name_ kw)) =
      logger_session_id self /\
    session_id e = logger_session_id self.
Proof.
  unfold log_action, _persist_entry, draw_uuid, read_clock.
  cbn [fst snd entries logger_session_id session_start master_log session_file
       uuid_draws clock_reads file_entries file_session_id].
  eexists. repeat split; reflexivity.
Qed.

Lemma master_lines_snoc (l : list ProvenanceEntry) (e : ProvenanceEntry) :
  master_lines rt (l ++ [e]) =
  master_lines rt l ++ Json.dumps (float_repr rt) false (Json.JDict (asdict e)) ++ Py.eol.
Proof.
  induction l as [| x l IH]; cbn [master_lines fold_right app].
  - cbn [append]. rewrite string_app_nil_r. reflexivity.
  - fold (master_lines rt (l ++ [e])). fold (master_lines rt l).
    rewrite IH, !string_app_assoc. reflexivity.
Qed.

(** X20: after any sequence of [log_action] calls on a fresh logger the
    master log is the text that earlier sessions left in it followed by the
    JSON line of each entry of this session, and the session file holds the
    dictionary of each entry, both in the order of the ledger, which has one
    entry for each call; every entry carries the session identifier of the
    logger. *)
Theorem log_actions_mirrored (calls : list Call) :
  let self := log_actions rt (init rt) calls in
  mirrored rt self /\
  List.length (entries self) = List.length calls /\
  Forall (fun e => session_id e = logger_session_id self) (entries self).
Proof.
  assert (H : forall self,
            mirrored rt self ->
            Forall (fun e => session_id e = logger_session_id self) (entries self) ->
            let self' := log_actions rt self calls in
            mirrored rt self' /\
            List.length (entries self') = List.length (entries self) + List.length calls /\
            Forall (fun e => session_id e = logger_session_id self') (entries self')).
  { induction calls as [| c calls IH]; intros self Hm Hs self'; subst self'.
    - cbn. split; [exact Hm | split; [lia | exact Hs]].
    - unfold log_actions. cbn [fold_left].
      destruct (log_action_persists self (call_action_type c) (call_action_description c)
                  (call_agent_name c) (call_kwargs c))
        as (e & He & Hl & Hf & _ & Hsid & Hes).
      set (s1 := fst (log_action rt self _ _ _ _)) in *.
      destruct (IH s1) as (Hm1 & Hlen & Hs1).
      + destruct Hm as [Hm1 Hm2]. split.
        * rewrite Hl, He, master_lines_snoc, Hm1. apply string_app_assoc.
        * rewrite Hf, He, map_app, Hm2. reflexivity.
      + rewrite He, Hsid. apply Forall_app. split; [exact Hs |].
        constructor; [exact Hes | constructor].
      + split; [exact Hm1 | split; [| exact Hs1]].
        unfold log_actions in Hlen. rewrite Hlen, He, length_app. cbn [List.length]. lia. }
  intros self. subst self. destruct (H (init rt)) as (Hm & Hlen & Hs).
  - split; [| reflexivity]. cbn [init master_log entries master_lines fold_right].
    symmetry. apply string_app_nil_r.
  - constructor.
  - split; [exact Hm | split; [exact Hlen | exact Hs]].
Qed.

End LedgerMore.
Section LedgerAccounting.

Import Provenance.

Variable rt : Runtime.

Lemma verify_step_tally (acc : nat * list Corrupted * list string) (e : ProvenanceEntry) :
  fst (fst (verify_step rt acc e)) + List.length (snd (fst (verify_step rt acc e))) +
    List.length (snd (verify_step rt acc e)) =
  S (fst (fst acc) + List.length (snd (fst acc)) + List.length (snd acc)).
Proof.
  destruct acc as [[v c] m]. unfold verify_step.
  destruct (entry_hash e) as [stored |]; cbn [fst snd].
  - destruct (negb (Py.truthy stored)); cbn [fst snd].
    + rewrite length_app. cbn [List.length]. lia.
    + destruct (String.eqb _ stored); cbn [fst snd].
      * lia.
      * rewrite length_app. cbn [List.length]. lia.
  - rewrite length_app. cbn [List.length]. lia.
Qed.

Lemma verify_fold_tally (l : list ProvenanceEntry) :
  forall acc,
    fst (fst (fold_left (verify_step rt) l acc)) +
      List.length (snd (fst (fold_left (verify_step rt) l acc))) +
      List.length (snd (fold_left (verify_step rt) l acc)) =
    fst (fst acc) + List.length (snd (fst acc)) + List.length (snd acc) + List.length l.
Proof.
  induction l as [| e l IH]; intros acc; cbn [fold_left List.length]; [lia |].
  rewrite IH, verify_step_tally. lia.
Qed.

Lemma percentage_bounds (v n : nat) :
  v <= n -> 0 < n ->
  (0 <= of_nat v / of_nat n * 100 <= 100)%Q /\
  ((of_nat v / of_nat n * 100 == 100)%Q <-> v = n).
Proof.
  intros Hvn Hn.
  assert (Hpos : (0 < of_nat n)%Q) by (apply of_nat_pos; exact Hn).
  destruct (ratio_unit (of_nat v) (of_nat n) (of_nat_nonneg v) (of_nat_le v n Hvn) Hpos)
    as [H0 H1].
  assert (Hne : ~ (of_nat n == 0)%Q).
  { intros Z. rewrite Z in Hpos. apply (Qlt_irrefl 0). exact Hpos. }
  pose proof (Qmult_div_r (of_nat v) (of_nat n) Hne) as Hmul.
  remember (of_nat v / of_nat n)%Q as r eqn:Hr.
  split; [split; lra |].
  split.
  - intros E. assert (Er : (r == 1)%Q) by lra.
    assert (Ev : (of_nat v == of_nat n)%Q).
    { rewrite <- Hmul, Er. ring. }
    unfold of_nat in Ev. apply Nat2Z.inj. apply (proj1 (inject_Z_injective _ _)). exact Ev.
  - intros ->. subst r. apply percentage_all. exact Hn.
Qed.

(** X21: whatever the entries of the ledger are, [verify_integrity] puts
    each entry in exactly one of three groups (verified, corrupted, missing
    hash), so the total is the sum of the three; the percentage lies
    between 0 and 100 and is 100 exactly when no entry is reported as
    corrupted or without hash. *)
Theorem verify_integrity_accounting (self : ProvenanceLogger) :
  let r := verify_integrity rt self in
  total_entries r = List.length (entries self) /\
  total_entries r =
    verified_entries r + List.length (corrupted_entries r) + List.length (missing_hashes r) /\
  (0 <= integrity_percentage r <= 100)%Q /\
  ((integrity_percentage r == 100)%Q <->
   corrupted_entries r = [] /\ missing_hashes r = []).
Proof.
  intros r. subst r. unfold verify_integrity.
  pose proof (verify_fold_tally (entries self) (0, [], [])) as Ht.
  destruct (fold_left (verify_step rt) (entries self) (0, [], [])) as [[v c] m].
  cbn [fst snd List.length Nat.add] in Ht.
  cbn [total_entries verified_entries corrupted_entries missing_hashes integrity_percentage].
  split; [reflexivity | split; [symmetry; exact Ht |]].
  destruct (0 <? List.length (entries self)) eqn:E.
  - apply Nat.ltb_lt in E.
    destruct (percentage_bounds v (List.length (entries self))) as [Hb Hi]; [lia | exact E |].
    split; [exact Hb |]. rewrite Hi. split.
    + intros Hv. destruct c; [| cbn [List.length] in Ht; lia].
      destruct m; [| cbn [List.length] in Ht; lia]. split; reflexivity.
    + intros [-> ->]. cbn [List.length] in Ht. lia.
  - apply Nat.ltb_ge in E. split; [split; lra |].
    split; [| intros _; apply Qeq_refl].
    intros _. destruct c; [| cbn [List.length] in Ht; lia].
    destruct m; [| cbn [List.length] in Ht; lia]. split; reflexivity.
Qed.

Lemma verify_integrity_sealed (self : ProvenanceLogger) :
  Forall (sealed rt) (entries self) ->
  (integrity_percentage (verify_integrity rt self) == 100)%Q /\
  corrupted_entries (verify_integrity rt self) = [] /\
  missing_hashes (verify_integrity rt self) = [] /\
  verified_entries (verify_integrity rt self) = List.length (entries self).
Proof.
  intros Hs. unfold verify_integrity.
  rewrite (verify_fold_sealed rt _ Hs). cbn [Nat.add].
  cbn [integrity_percentage corrupted_entries missing_hashes verified_entries].
  split; [| split; [| split]]; try reflexivity.
  destruct (0 <? List.length (entries self)) eqn:E.
  - apply percentage_all. apply Nat.ltb_lt. exact E.
  - apply Qeq_refl.
Qed.

Lemma log_action_keeps_sealed (self : ProvenanceLogger) (a b c : string) (kw : Kwargs) :
  Forall (sealed rt) (entries self) ->
  Forall (sealed rt) (entries (fst (log_action rt self a b c kw))).
Proof.
  intros H. destruct (log_action_appends rt self a b c kw) as (e & He & Hs & _).
  rewrite He. apply Forall_app. split; [exact H |]. constructor; [exact Hs | constructor].
Qed.

(** X22: a ledger whose entries all carry their own hash stays so through
    [track_operation], whatever the outcome of the body, provided the body
    itself keeps it so; [verify_integrity] then reports 100 percent and
    nothing corrupted or missing. *)
Theorem track_operation_keeps_integrity (self : ProvenanceLogger)
    (operation_name agent_name_ : string) (kwargs : Kwargs) (body : Body) :
  Forall (sealed rt) (entries self) ->
  (forall id s, Forall (sealed rt) (entries s) ->
                Forall (sealed rt) (entries (fst (body id s)))) ->
  let final := fst (track_operation rt self operation_name agent_name_ kwargs body) in
  Forall (sealed rt) (entries final) /\
  (integrity_percentage (verify_integrity rt final) == 100)%Q /\
  corrupted_entries (verify_integrity rt final) = [] /\
  missing_hashes (verify_integrity rt final) = [].
Proof.
  intros Hs Hbody final.
  assert (Hf : Forall (sealed rt) (entries final)).
  { subst final. rewrite track_operation_eq. cbv zeta.
    set (started := log_action rt (snd (read_clock rt self)) "operation_start" _ _ _).
    assert (H1 : Forall (sealed rt) (entries (fst started))).
    { subst started. apply log_action_keeps_sealed. exact Hs. }
    pose proof (Hbody (snd started) (fst started) H1) as H2.
    destruct (snd (body (snd started) (fst started))) as [| exc].
    - cbn [fst]. apply log_action_keeps_sealed. exact H2.
    - destruct (is_Exception exc); cbn [fst]; [| exact H2].
      apply log_action_keeps_sealed. exact H2. }
  split; [exact Hf |].
  destruct (verify_integrity_sealed final Hf) as (Hp & Hc & Hm & _).
  split; [exact Hp | split; [exact Hc | exact Hm]].
Qed.

End LedgerAccounting.

Lemma track_operation_keeps_integrity_witness :
  let final :=
    fst (Provenance.track_operation example_runtime (Provenance.init example_runtime)
           "analysis" "JARVIS" Provenance.no_kwargs
           (fun _ s => (s, Provenance.Raised (Provenance.mkException true "boom")))) in
  Forall (sealed example_runtime) (Provenance.entries final) /\
  (Provenance.integrity_percentage (Provenance.verify_integrity example_runtime final) == 100)%Q /\
  Provenance.corrupted_entries (Provenance.verify_integrity example_runtime final) = [] /\
  Provenance.missing_hashes (Provenance.verify_integrity example_runtime final) = [].
Proof.
  apply (track_operation_keeps_integrity example_runtime (Provenance.init example_runtime)
           "analysis" "JARVIS" Provenance.no_kwargs
           (fun _ s => (s, Provenance.Raised (Provenance.mkException true "boom")))).
  - constructor.
  - intros id s H. exact H.
Defined.
Section QueriesFacts.

Import Provenance ProvenanceQueries.

Variable rt : Runtime.
Variable set_order : list string -> list string.
Variable fromisoformat : string -> Q.

(** X23: logging an action adds its entry at the end of the answers of
    [get_entries_by_agent] for its agent and of [get_entries_by_type] for
    its type, and leaves the answers for every other agent and type as
    they were. *)
Theorem get_entries_after_log_action (self : ProvenanceLogger)
    (action_type_ action_description_ agent_name_ : string) (kw : Kwargs) :
  let self' := fst (log_action rt self action_type_ action_description_ agent_name_ kw) in
  exists e,
    entries self' = (entries self ++ [e])%list /\
    (forall name,
       get_entries_by_agent self' name =
         (get_entries_by_agent self name ++
          (if String.eqb agent_name_ name then [e] else []))%list) /\
    (forall type,
       get_entries_by_type self' type =
         (get_entries_by_type self type ++
          (if String.eqb action_type_ type then [e] else []))%list).
Proof.
  intros self'. subst self'.
  destruct (log_action_appends rt self action_type_ action_description_ agent_name_ kw)
    as (e & He & _ & _ & Ht & _ & Ha & _).
  exists e. split; [exact He |]. split.
  - intros name. unfold get_entries_by_agent. rewrite He, filter_app.
    cbn [filter]. rewrite Ha. destruct (String.eqb agent_name_ name); reflexivity.
  - intros type. unfold get_entries_by_type. rewrite He, filter_app.
    cbn [filter]. rewrite Ht. destruct (String.eqb action_type_ type); reflexivity.
Qed.

Lemma of_nat_succ (n : nat) : (of_nat (S n) == of_nat n + 1)%Q.
Proof.
  unfold of_nat. rewrite Nat2Z.inj_succ, <- Z.add_1_r, inject_Z_plus. reflexivity.
Qed.

Lemma fold_sum_bounds (l : list Q) :
  Forall (fun x => (0 <= x <= 1)%Q) l ->
  forall acc, (acc <= fold_left Qplus l acc <= acc + of_nat (List.length l))%Q.
Proof.
  induction 1 as [| x l Hx Hl IH]; intros acc; cbn [fold_left List.length].
  - change (of_nat 0) with 0%Q. split; lra.
  - specialize (IH (acc + x)%Q). pose proof (of_nat_succ (List.length l)) as E.
    destruct Hx as [Hx0 Hx1]. destruct IH as [I0 I1]. split; lra.
Qed.

Lemma sovereignty_scores_in (l : list ProvenanceEntry) (x : Q) :
  In x (sovereignty_scores l) -> exists e, In e l /\ sovereignty_score e = Some x.
Proof.
  induction l as [| e l IH]; cbn [sovereignty_scores]; [intros [] |].
  destruct (sovereignty_score e) as [y |] eqn:E.
  - intros [<- | H].
    + exists e. split; [left; reflexivity | exact E].
    + destruct (IH H) as (e' & He' & Hs). exists e'. split; [right; exact He' | exact Hs].
  - intros H. destruct (IH H) as (e' & He' & Hs). exists e'. split; [right; exact He' | exact Hs].
Qed.

Lemma sovereignty_scores_nil (l : list ProvenanceEntry) :
  sovereignty_scores l = [] <-> Forall (fun e => sovereignty_score e = None) l.
Proof.
  induction l as [| e l IH]; cbn [sovereignty_scores].
  - split; [constructor | reflexivity].
  - destruct (sovereignty_score e) as [y |] eqn:E.
    + split; [discriminate |]. intros H. inversion H as [| ? ? H1 H2]. congruence.
    + rewrite IH. split.
      * intros H. constructor; [exact E | exact H].
      * intros H. inversion H. assumption.
Qed.

Lemma get_session_summary_keeps (self : ProvenanceLogger) :
  entries (snd (get_session_summary rt set_order fromisoformat self)) = entries self /\
  master_log (snd (get_session_summary rt set_order fromisoformat self)) = master_log self /\
  logger_session_id (snd (get_session_summary rt set_order fromisoformat self)) =
    logger_session_id self /\
  entry_count (fst (get_session_summary rt set_order fromisoformat self)) =
    List.length (entries self).
Proof.
  unfold get_session_summary. destruct (entries self) eqn:El.
  - cbn [fst snd entry_count]. rewrite El. repeat split; reflexivity.
  - unfold read_clock. cbn [fst snd entries master_log logger_session_id entry_count].
    rewrite El. repeat split; reflexivity.
Qed.

(** X24: the summary of a session counts the entries of the ledger.  For
    an empty ledger it has no average score and no duration, and the clock
    is not read.  Otherwise both keys are present; the average is [None]
    exactly when no entry carries a sovereignty score, and when the scores
    of the entries lie between 0 and 1 so does the average. *)
Theorem get_session_summary_shape (self : ProvenanceLogger) :
  let summary := fst (get_session_summary rt set_order fromisoformat self) in
  let self' := snd (get_session_summary rt set_order fromisoformat self) in
  entry_count summary = List.length (entries self) /\
  summary_session_id summary = logger_session_id self /\
  entries self' = entries self /\
  (entries self = [] ->
   agents summary = [] /\ action_types summary = [] /\
   avg_sovereignty_score summary = None /\ duration_minutes summary = None /\
   self' = self) /\
  (entries self <> [] ->
   exists average duration,
     avg_sovereignty_score summary = Some average /\
     duration_minutes summary = Some duration /\
     clock_reads self' = S (clock_reads self) /\
     (average = None <-> Forall (fun e => sovereignty_score e = None) (entries self)) /\
     (Forall (fun e => forall x, sovereignty_score e = Some x -> (0 <= x <= 1)%Q)
        (entries self) ->
      forall v, average = Some v -> (0 <= v <= 1)%Q)).
Proof.
  intros summary self'. subst summary self'. unfold get_session_summary.
  destruct (entries self) as [| e0 l] eqn:El.
  - cbn [fst snd entry_count summary_session_id agents action_types
         avg_sovereignty_score duration_minutes List.length].
    split; [reflexivity | split; [reflexivity | split; [exact El | split]]].
    + intros _. repeat split; reflexivity.
    + intros H. destruct (H eq_refl).
  - unfold read_clock.
    cbn [fst snd entry_count summary_session_id agents action_types
         avg_sovereignty_score duration_minutes entries clock_reads].
    split; [reflexivity | split; [reflexivity | split; [exact El | split]]].
    + discriminate.
    + intros _. eexists. eexists.
      split; [reflexivity | split; [reflexivity | split; [reflexivity | split]]].
      * rewrite <- sovereignty_scores_nil.
        destruct (sovereignty_scores (e0 :: l)); split; [reflexivity | reflexivity | discriminate | discriminate].
      * intros Hb v Hv.
        destruct (sovereignty_scores (e0 :: l)) as [| x xs] eqn:Es; [discriminate Hv |].
        injection Hv as <-.
        assert (Hall : Forall (fun x => (0 <= x <= 1)%Q) (x :: xs)).
        { apply Forall_forall. intros y Hy. rewrite <- Es in Hy.
          destruct (sovereignty_scores_in _ _ Hy) as (e & He & Hs).
          rewrite Forall_forall in Hb. exact (Hb e He y Hs). }
        destruct (fold_sum_bounds _ Hall 0%Q) as [H0 H1].
        apply ratio_unit.
        -- exact H0.
        -- unfold fsum. eapply Qle_trans; [exact H1 |].
           rewrite Qplus_0_l. apply Qle_refl.
        -- apply of_nat_pos. cbn [List.length]. lia.
Qed.

(** X25: [export_session] never adds to the ledger.  A format other than
    json raises a [VeroBrixError] whose text names the format; for json the
    path returned carries the first eight characters of the session
    identifier, and the document holds the summary, the dictionary of each
    entry in ledger order and the integrity report of the ledger. *)
Theorem export_session_formats (self : ProvenanceLogger) (format_type : string) :
  entries (snd (export_session rt set_order fromisoformat self format_type)) = entries self /\
  master_log (snd (export_session rt set_order fromisoformat self format_type)) =
    master_log self /\
  (format_type <> "json" ->
   exists e,
     export_session rt set_order fromisoformat self format_type = (inr e, self) /\
     NlpClauses.error_str e = "Unsupported export format: " ++ format_type) /\
  (format_type = "json" ->
   exists data,
     fst (export_session rt set_order fromisoformat self format_type) =
       inl ("logs/provenance/export_" ++ Py.take 8 (logger_session_id self) ++ ".json",
            data) /\
     session_info data = fst (get_session_summary rt set_order fromisoformat self) /\
     export_entries data = map asdict (entries self) /\
     export_integrity_check data = verify_integrity rt self).
Proof.
  destruct (get_session_summary_keeps self) as (He & Hm & Hi & _).
  unfold export_session. destruct (String.eqb format_type "json") eqn:E.
  - destruct (get_session_summary rt set_order fromisoformat self) as [summary self'] eqn:G.
    cbn [fst snd] in *. split; [exact He | split; [exact Hm | split]].
    + intros Hn. apply String.eqb_eq in E. destruct (Hn E).
    + intros _. eexists. split; [rewrite Hi; reflexivity |].
      cbn [session_info export_entries export_integrity_check].
      split; [reflexivity | split; [rewrite He; reflexivity |]].
      unfold verify_integrity. rewrite He. reflexivity.
  - cbn [fst snd]. split; [reflexivity | split; [reflexivity | split]].
    + intros _. eexists. split; reflexivity.
    + intros ->. discriminate E.
Qed.

(** X26: [close_session] adds exactly one entry, of type [session_close]
    and logged by the ProvenanceLogger itself; the closing record has
    status closed, and its summary and its integrity report count that
    entry too.  On a ledger whose entries carry their own hash the closing
    report gives 100 percent and nothing corrupted or missing. *)
Theorem close_session_closes (self : ProvenanceLogger) :
  let closed := close_session rt set_order fromisoformat self in
  exists e,
    entries (fst closed) = (entries self ++ [e])%list /\
    action_type e = "session_close" /\
    action_description e = "Provenance session closed" /\
    agent_name e = "ProvenanceLogger" /\
    status (snd closed) = "closed" /\
    entry_count (final_summary (snd closed)) = S (List.length (entries self)) /\
    total_entries (closing_integrity_check (snd closed)) = S (List.length (entries self)) /\
    (Forall (sealed rt) (entries self) ->
     (integrity_percentage (closing_integrity_check (snd closed)) == 100)%Q /\
     corrupted_entries (closing_integrity_check (snd closed)) = [] /\
     missing_hashes (closing_integrity_check (snd closed)) = []).
Proof.
  intros closed. subst closed. unfold close_session.
  destruct (log_action_appends rt self "session_close" "Provenance session closed"
              "ProvenanceLogger" no_kwargs) as (e & He & Hse & _ & Ht & Hd & Ha & _).
  destruct (log_action rt self "session_close" "Provenance session closed"
              "ProvenanceLogger" no_kwargs) as [s1 id1].
  cbn [fst] in He.
  destruct (get_session_summary_keeps s1) as (Hent & _ & _ & Hc).
  destruct (get_session_summary rt set_order fromisoformat s1) as [summary s2].
  cbn [fst snd] in Hc, Hent.
  unfold read_clock. cbn [fst snd entries final_summary closing_integrity_check status].
  exists e. rewrite Hent, He.
  split; [reflexivity | split; [exact Ht | split; [exact Hd | split; [exact Ha |]]]].
  split; [reflexivity |].
  assert (Hlen : List.length (entries self ++ [e]) = S (List.length (entries self))).
  { rewrite length_app. cbn [List.length]. lia. }
  split; [rewrite Hc, He; exact Hlen |].
  split.
  - unfold verify_integrity. rewrite Hent, He.
    destruct (fold_left _ _ _) as [[v c] m]. cbn [total_entries]. exact Hlen.
  - intros Hs.
    assert (H2 : Forall (sealed rt) (entries s2)).
    { rewrite Hent, He. apply Forall_app. split; [exact Hs |].
      constructor; [exact Hse | constructor]. }
    destruct (verify_integrity_sealed rt s2 H2) as (Hp & Hcor & Hmis & _).
    split; [exact Hp | split; [exact Hcor | exact Hmis]].
Qed.

End QueriesFacts.
Section AdviceFacts.

Import SituationInterpreter.

Lemma suggest_required_actions_head (situation_type : string) (urgency : Urgency) :
  _suggest_required_actions situation_type urgency <> [] /\
  (hd_error (_suggest_required_actions situation_type urgency) =
     Some "URGENT: Immediate action required" <-> level urgency = "high").
Proof.
  unfold _suggest_required_actions. cbn [dict_get].
  destruct (String.eqb (level urgency) "high") eqn:E.
  - apply String.eqb_eq in E. split; [discriminate |]. cbn [hd_error]. split; auto.
  - apply String.eqb_neq in E.
    destruct (String.eqb "traffic_stop" situation_type);
      [| destruct (String.eqb "fee_demand" situation_type);
         [| destruct (String.eqb "court_summons" situation_type);
            [| destruct (String.eqb "contract_dispute" situation_type)]]];
      cbn [hd_error]; (split; [discriminate |]); (split; [discriminate | intros H; destruct (E H)]).
Qed.

(** X27: [_suggest_required_actions] always proposes something.  The list
    opens with the line URGENT: Immediate action required exactly when the
    urgency level is [high], and then it also closes with the advice to
    consider emergency legal assistance; at any other level neither line
    is added. *)
Theorem suggest_required_actions_urgent (situation_type : string) (urgency : Urgency) :
  let actions := _suggest_required_actions situation_type urgency in
  let calm := _suggest_required_actions situation_type (mkUrgency "medium" [] None) in
  actions <> [] /\
  (hd_error actions = Some "URGENT: Immediate action required" <-> level urgency = "high") /\
  (level urgency = "high" ->
   actions = ("URGENT: Immediate action required" :: calm ++
              ["Consider emergency legal assistance"])%list) /\
  (level urgency <> "high" -> actions = calm).
Proof.
  intros actions calm.
  destruct (suggest_required_actions_head situation_type urgency) as [Hne Hhd].
  split; [exact Hne | split; [exact Hhd |]].
  subst actions calm. unfold _suggest_required_actions. cbn [level]. split.
  - intros ->. reflexivity.
  - intros Hn. apply String.eqb_neq in Hn. rewrite Hn. reflexivity.
Qed.

Lemma determine_legal_framework_length (situation_type : string)
    (jurisdiction : Jurisdiction) :
  1 <= List.length (_determine_legal_framework situation_type jurisdiction) <= 4.
Proof.
  unfold _determine_legal_framework. cbn [dict_get].
  repeat match goal with
         | |- context [String.eqb ?a situation_type] =>
             destruct (String.eqb a situation_type)
         end;
    (destruct (String.eqb (primary jurisdiction) "federal");
     [| destruct (String.eqb (primary jurisdiction) "state");
        [| destruct (String.eqb (primary jurisdiction) "local")]]);
    cbn [List.length app]; lia.
Qed.

(** X28: in the result of [interpret_situation] the required actions are
    never empty and open with the line URGENT: Immediate action required
    exactly when the normalised text holds one of the high-urgency
    indicators; between one and four legal frameworks are named. *)
Theorem interpret_situation_advice (now input_text : string)
    (ctx : option (list (string * string))) :
  let s := interpret_situation now input_text ctx in
  required_actions s <> [] /\
  (hd_error (required_actions s) = Some "URGENT: Immediate action required" <->
   any_in ["immediate"; "urgent"; "emergency"; "deadline"; "final notice"; "court date"]
          (normalized_text s) = true) /\
  1 <= List.length (legal_framework s) <= 4.
Proof.
  intros s. subst s. unfold interpret_situation.
  cbn [required_actions normalized_text legal_framework].
  match goal with
  | |- context [_suggest_required_actions ?t ?u] =>
      destruct (suggest_required_actions_head t u) as [Hne Hhd]
  end.
  split; [exact Hne | split; [| apply determine_legal_framework_length]].
  rewrite Hhd, assess_urgency_level_eq.
  destruct (any_in _ (_normalize_text input_text)).
  - split; reflexivity.
  - destruct (any_in _ (_normalize_text input_text)); split; discriminate.
Qed.

End AdviceFacts.
